(** * Studio back-office: contract amounts, period filter, monthly
      aggregation, day bucketing, calendar summary and budget envelopes.

    Shallow embedding of the pure logic of
    - [FinancialDashboard] (isInPeriod, contractAmounts, metrics,
      computeMonthlyData),
    - [AdminCalendar] (eventsByDay, eventSummary, computeAmounts; the
      view around them: load, deleteHandler, deleteEvent, filteredEvents,
      toLocalDate, monthDays, prevMonth, nextMonth, getEventColor,
      getEventStatus),
    - [BudgetPlanner] (loadBudgetData, handleAddIncome, handleAddExpense,
      handleDeleteTransaction, the progress bar of the envelope cards),
    followed by the properties of the specification that concern them
    and by further properties of the code.

    Modelling conventions.
    - A JavaScript [number] is an exact rational ([Q]); rounding error, NaN
      and the infinities of IEEE doubles are outside that model.  Results
      of [Math.round] and [Math.ceil] are integers ([Z]).  Where a property
      relates amounts that the code computes along different paths, it is
      stated for amounts on which binary64 arithmetic is exact (module
      [Exact]: whole numbers adding up to at most 2^53 in magnitude).
    - The budget handlers are also given on binary64 numbers (module
      [BudgetPlanner64], on the kernel's primitive floats), where the
      round trip of adding and deleting an expense is settled.
    - An optional field ([f?: T], possibly [undefined]) is an [option].
    - A [Date] is its time value: milliseconds since the epoch, in [Z]; an
      invalid date is [None].  Local time is UTC plus a fixed offset [tz]
      (milliseconds); daylight saving changes are outside the model.
    - Host functions that are not part of the repository ([Date] parsing,
      [Number] applied to a string, [String.prototype.localeCompare]) are
      parameters of the sections that use them. *)

From Stdlib Require Import ZArith QArith Qround Qminmax Qabs Lia Lqa.
From Stdlib Require Import String Ascii List Sorted Permutation OrdersEx.
From Stdlib Require Import DecimalString.
From Stdlib Require Floats.
From stdpp Require Import base option list gmap strings.

Import ListNotations.
Local Open Scope Z_scope.

(** ** JavaScript numbers *)

Module JS.

(** [x > y] on numbers. *)
Definition gtb (x y : Q) : bool := negb (Qle_bool x y).

(** [Math.round]: the nearest integer, halves going up. *)
Definition round (x : Q) : Z := Qfloor (x + (1 # 2))%Q.

(** [Math.ceil]. *)
Definition ceil (x : Q) : Z := Qceiling x.

(** [Math.max(0, x)]. *)
Definition max0 (x : Q) : Q := Qmax 0 x.

(** [x || d] on an optional number: [undefined] and [0] are falsy. *)
Definition orNum (x : option Q) (d : Q) : Q :=
  match x with
  | Some v => if Qeq_bool v 0 then d else v
  | None => d
  end.

(** [x ?? d] on an optional number. *)
Definition nullish (x : option Q) (d : Q) : Q :=
  match x with
  | Some v => v
  | None => d
  end.

(** [a || b] on optional strings: [undefined] and [''] are falsy. *)
Definition orStr (a b : option string) : option string :=
  match a with
  | Some EmptyString | None => b
  | Some _ => a
  end.

(** Truthiness of an optional string. *)
Definition truthyStr (a : option string) : option string :=
  match a with
  | Some EmptyString | None => None
  | Some s => Some s
  end.

(** [x === true] on an optional boolean. *)
Definition isTrue (b : option bool) : bool :=
  match b with Some true => true | _ => false end.

(** Truthiness of an optional boolean. *)
Definition truthy (b : option bool) : bool := isTrue b.

Definition isDigit (c : ascii) : bool :=
  let n := nat_of_ascii c in (48 <=? n)%nat && (n <=? 57)%nat.

Definition digitVal (c : ascii) : Z := Z.of_nat (nat_of_ascii c) - 48.

(** [s.replace(/[^0-9]/g, '')], as the list of the digits kept. *)
Fixpoint keepDigits (s : string) : list ascii :=
  match s with
  | EmptyString => []
  | String c r => if isDigit c then c :: keepDigits r else keepDigits r
  end.

(** [Number] of a string of decimal digits; the empty string gives 0. *)
Definition digitsToZ (ds : list ascii) : Z :=
  fold_left (fun acc c => 10 * acc + digitVal c) ds 0.

(** [Number(String(p || '').replace(/[^0-9]/g, ''))]. *)
Definition priceNumber (p : option string) : Q :=
  match p with
  | Some s => inject_Z (digitsToZ (keepDigits s))
  | None => 0%Q
  end.

End JS.

(** ** Line items shared by the two contract views *)

Record ServiceLine := {
  svc_price : option string;
  svc_quantity : option Q
}.

Record StoreItem := {
  item_price : Q;
  item_quantity : option Q
}.

(** The service lines in effect: [services] when it is a non-empty array,
    else [formSnapshot.cartItems] when it is an array, else none. *)
Definition svcListOf (services cartItems : option (list ServiceLine))
  : list ServiceLine :=
  match services with
  | Some (x :: l) => x :: l
  | _ => match cartItems with
         | Some l => l
         | None => []
         end
  end.

(** [svcList.reduce((sum, it) => sum + price * qty, 0)]. *)
Definition servicesTotalRawOf (svcList : list ServiceLine) : Q :=
  fold_left
    (fun sum it =>
       let qty := JS.nullish (svc_quantity it) 1 in
       let price := JS.priceNumber (svc_price it) in
       (sum + price * qty)%Q)
    svcList 0%Q.

(** [storeItems.reduce((sum, it) => sum + Number(it.price) *
    Number(it.quantity || 1), 0)], an absent list counting as empty. *)
Definition storeTotalOf (storeItems : option (list StoreItem)) : Q :=
  fold_left
    (fun sum it => (sum + item_price it * JS.orNum (item_quantity it) 1)%Q)
    (match storeItems with Some l => l | None => [] end) 0%Q.

(** [raw > 0 ? raw : Math.max(0, totalFromDoc - storeTotal - travel)]. *)
Definition servicesEstimate (raw totalFromDoc storeTotal travel : Q) : Q :=
  if JS.gtb raw 0 then raw else JS.max0 (totalFromDoc - storeTotal - travel)%Q.

(** ** Dates

    Time values and the calendar arithmetic behind [getFullYear],
    [getMonth] and [setHours] (proleptic Gregorian calendar, as ECMAScript
    prescribes). *)

Module JSDate.

(** A [Date] object: its time value, [None] for an invalid date. *)
Definition t := option Z.

Definition msPerDay : Z := 86400000.

(** Day number of a time value, [floor(t / msPerDay)]. *)
Definition Day (tv : Z) : Z := tv / msPerDay.

(** Civil year and month (1..12) of a day number counted from 1970-01-01. *)
Definition civilFromDays (z : Z) : Z * Z :=
  let z := z + 719468 in
  let era := z / 146097 in
  let doe := z - era * 146097 in
  let yoe := (doe - doe / 1460 + doe / 36524 - doe / 146096) / 365 in
  let y := yoe + era * 400 in
  let doy := doe - (365 * yoe + yoe / 4 - yoe / 100) in
  let mp := (5 * doy + 2) / 153 in
  let m := if mp <? 10 then mp + 3 else mp - 9 in
  (if m <=? 2 then y + 1 else y, m).

(** Day number of a civil date. *)
Definition daysFromCivil (y m d : Z) : Z :=
  let y := if m <=? 2 then y - 1 else y in
  let era := y / 400 in
  let yoe := y - era * 400 in
  let doy := (153 * (if 2 <? m then m - 3 else m + 9) + 2) / 5 + d - 1 in
  let doe := yoe * 365 + yoe / 4 - yoe / 100 + doy in
  era * 146097 + doe - 719468.

Definition isLeap (y : Z) : bool :=
  ((y mod 4 =? 0) && negb (y mod 100 =? 0)) || (y mod 400 =? 0).

Definition daysInMonth (y m : Z) : Z :=
  if m =? 2 then (if isLeap y then 29 else 28)
  else if (m =? 4) || (m =? 6) || (m =? 9) || (m =? 11) then 30
  else 31.

Section Local.
(** Offset of local time from UTC, in milliseconds. *)
Variable tz : Z.

Definition LocalTime (tv : Z) : Z := tv + tz.
Definition UTC (tv : Z) : Z := tv - tz.

(** [d.getFullYear()] of a valid date. *)
Definition getFullYear (tv : Z) : Z := fst (civilFromDays (Day (LocalTime tv))).

(** [d.getMonth()] of a valid date, 0 for January. *)
Definition getMonth (tv : Z) : Z := snd (civilFromDays (Day (LocalTime tv))) - 1.

(** [d.setHours(h, m, s, ms)]: same local day, given time of day. *)
Definition setHours (h m s ms : Z) (d : t) : t :=
  match d with
  | Some tv =>
      Some (UTC (Day (LocalTime tv) * msPerDay
                 + (h * 3600000 + m * 60000 + s * 1000 + ms)))
  | None => None
  end.
End Local.

(** [a < b] and [a > b] on dates: comparisons with an invalid date are
    false. *)
Definition ltb (a b : t) : bool :=
  match a, b with
  | Some x, Some y => x <? y
  | _, _ => false
  end.

Definition gtb (a b : t) : bool := ltb b a.

(** [a.getTime() >= b.getTime()]. *)
Definition geb (a b : t) : bool :=
  match a, b with
  | Some x, Some y => y <=? x
  | _, _ => false
  end.

(** *** The ISO forms of the date-time string format

    [YYYY-MM-DD] and [YYYY-MM-DDTHH:mm:ss.sssZ], both read as UTC.  Other
    strings are left to the host; this parser reports them unparsable. *)

Fixpoint digitsOf (cs : list ascii) : option Z :=
  match cs with
  | [] => Some 0
  | c :: r =>
      if JS.isDigit c
      then match digitsOf r with
           | Some _ => Some (JS.digitsToZ cs)
           | None => None
           end
      else None
  end.

Definition parseYMD (cs : list ascii) : option Z :=
  match cs with
  | [y1; y2; y3; y4; "-"%char; m1; m2; "-"%char; d1; d2] =>
      match digitsOf [y1; y2; y3; y4], digitsOf [m1; m2], digitsOf [d1; d2] with
      | Some y, Some m, Some d =>
          if (1 <=? m) && (m <=? 12) && (1 <=? d) && (d <=? daysInMonth y m)
          then Some (daysFromCivil y m d)
          else None
      | _, _, _ => None
      end
  | _ => None
  end.

Definition parseHMS (cs : list ascii) : option Z :=
  match cs with
  | [h1; h2; ":"%char; m1; m2; ":"%char; s1; s2; "."%char; f1; f2; f3; "Z"%char] =>
      match digitsOf [h1; h2], digitsOf [m1; m2], digitsOf [s1; s2],
            digitsOf [f1; f2; f3] with
      | Some h, Some m, Some s, Some f =>
          if (h <=? 23) && (m <=? 59) && (s <=? 59)
          then Some (h * 3600000 + m * 60000 + s * 1000 + f)
          else None
      | _, _, _, _ => None
      end
  | _ => None
  end.

Definition parseIso (s : string) : t :=
  let cs := list_ascii_of_string s in
  match parseYMD (firstn 10 cs), skipn 10 cs with
  | Some day, [] => Some (day * msPerDay)
  | Some day, "T"%char :: rest =>
      match parseHMS rest with
      | Some ms => Some (day * msPerDay + ms)
      | None => None
      end
  | _, _ => None
  end.

End JSDate.

(** ** Arrays *)

Module JSArray.

Section Sort.
Context {A : Type}.
(** The sign of the comparator: [Lt] negative, [Eq] zero, [Gt] positive. *)
Variable cmp : A -> A -> comparison.

Fixpoint insert (x : A) (l : list A) : list A :=
  match l with
  | [] => [x]
  | y :: r =>
      match cmp x y with
      | Gt => y :: insert x r
      | _ => x :: y :: r
      end
  end.

(** [Array.prototype.sort(cmp)], which is stable: elements that compare
    equal keep their order. *)
Definition sort (l : list A) : list A := fold_right insert [] l.
End Sort.

End JSArray.

(** ** FinancialDashboard *)

Module FinancialDashboard.

Record Contract := {
  id : string;
  eventDate : option string;
  contractDate : option string;
  createdAt : option string;
  totalAmount : option Q;
  eventCompleted : option bool;
  services : option (list ServiceLine);
  (** [formSnapshot?.cartItems], when it is an array *)
  cartItems : option (list ServiceLine);
  storeItems : option (list StoreItem);
  travelFee : option Q;
  clientName : option string
}.

Record Installment := {
  dueDate : option string;
  amount : option Q
}.

Inductive InvoiceStatus := Vencido | Pendiente.

Record Invoice := {
  inv_id : string;
  inv_clientName : string;
  inv_dueDate : string;
  inv_amount : Z;
  inv_status : InvoiceStatus
}.

Record TopClient := {
  tc_clientName : string;
  tc_totalValue : Z
}.

Inductive PeriodType := PAll | PYear | PMonth | PCustom.

Record Period := {
  p_type : PeriodType;
  p_start : option string;
  p_end : option string
}.

(** Result of [contractAmounts]. *)
Record Amounts := {
  a_services : Q;
  a_storeTotal : Q;
  a_travel : Q;
  a_total : Z
}.

(** [contractAmounts]; the component and [computeMonthlyData] each carry a
    copy of it, the two being identical. *)
Definition contractAmounts (c : Contract) : Amounts :=
  let svcList := svcListOf (services c) (cartItems c) in
  let servicesTotalRaw := servicesTotalRawOf svcList in
  let storeTotal := storeTotalOf (storeItems c) in
  let travel := JS.orNum (travelFee c) 0 in
  let totalFromDoc := JS.orNum (totalAmount c) 0 in
  let services := servicesEstimate servicesTotalRaw totalFromDoc storeTotal travel in
  let total := JS.round (services + storeTotal + travel)%Q in
  {| a_services := services; a_storeTotal := storeTotal;
     a_travel := travel; a_total := total |}.

(** [c.contractDate || c.eventDate || c.createdAt]. *)
Definition effectiveDate (c : Contract) : option string :=
  JS.orStr (JS.orStr (contractDate c) (eventDate c)) (createdAt c).

(** [c.contractDate || c.eventDate || c.createdAt || '']. *)
Definition effectiveDateStr (c : Contract) : string :=
  match JS.truthyStr (effectiveDate c) with
  | Some s => s
  | None => EmptyString
  end.

(** One row of the monthly table. *)
Record MonthRow := {
  key : Z;
  month : string;
  income : Z;
  expenses : Q;
  profit : Q;
  earned : Z;
  forecast : Z
}.

(** [months[m].f = ...] for each field assigned by [upd]; reading
    [months[m]] outside the array is a [TypeError], here [None]. *)
Definition updateMonth (m : Z) (upd : MonthRow -> MonthRow)
  (months : list MonthRow) : option (list MonthRow) :=
  if m <? 0 then None
  else match months !! Z.to_nat m with
       | Some r => Some (<[Z.to_nat m := upd r]> months)
       | None => None
       end.

(** Loop state of [metrics]. *)
Record Revenue := {
  totalRevenue : Z;
  completedRevenue : Z;
  futureRevenue : Z;
  invoices : list Invoice;
  (** the [Map] from client name to total, in insertion order *)
  clientMap : list (string * Z)
}.

(** [clientMap.set(client, (clientMap.get(client) || 0) + amount)]. *)
Fixpoint clientMapAdd (client : string) (amount : Z) (m : list (string * Z))
  : list (string * Z) :=
  match m with
  | [] => [(client, amount)]
  | (k, v) :: r =>
      if String.eqb k client then (k, v + amount) :: r
      else (k, v) :: clientMapAdd client amount r
  end.

Record FinancialMetrics := {
  currentMonthRevenue : Z;
  currentMonthExpenses : Q;
  currentMonthNetProfit : Q;
  profitMargin : Q;
  currentCashBalance : Z;
  monthlyData : option (list MonthRow);
  expensesByCategory : list (string * Q);
  outstandingInvoices : list Invoice;
  topClients : list TopClient
}.

Section Host.
(** [new Date(s)] for a non-empty string [s]. *)
Variable newDate : string -> JSDate.t.
(** Offset of local time from UTC, in milliseconds. *)
Variable tz : Z.
(** The time value of [new Date()]. *)
Variable now : Z.
(** [new Date().toISOString().split('T')[0]]. *)
Variable nowIsoDay : string.
(** The capitalised short month name of month [i] in locale [es]. *)
Variable monthLabel : Z -> string.

(** [isInPeriod]; the component and [computeMonthlyData] each carry a
    copy of it, the two being identical. *)
Definition isInPeriod (period : Period) (dateStr : option string) : bool :=
  match JS.truthyStr dateStr with
  | None => false
  | Some s =>
      match newDate s with
      | None => false
      | Some d =>
          match p_type period with
          | PAll => true
          | PYear => JSDate.getFullYear tz d =? JSDate.getFullYear tz now
          | PMonth =>
              (JSDate.getFullYear tz d =? JSDate.getFullYear tz now)
              && (JSDate.getMonth tz d =? JSDate.getMonth tz now)
          | PCustom =>
              let start := option_map newDate (JS.truthyStr (p_start period)) in
              let end_ := option_map newDate (JS.truthyStr (p_end period)) in
              if match start with
                 | Some st => JSDate.ltb (Some d) st
                 | None => false
                 end
              then false
              else match end_ with
                   | Some e =>
                       let ed := JSDate.setHours tz 23 59 59 999 e in
                       if JSDate.gtb (Some d) ed then false else true
                   | None => true
                   end
          end
      end
  end.

Definition filteredContracts (contracts : list Contract) (period : Period)
  : list Contract :=
  List.filter (fun c => isInPeriod period (effectiveDate c)) contracts.

(** [today], the start of the current local day. *)
Definition today : JSDate.t := JSDate.setHours tz 0 0 0 0 (Some now).

(** Body of the loop over [filteredContracts] in [metrics]. *)
Definition revenueStep (acc : Revenue) (c : Contract) : Revenue :=
  let amount := a_total (contractAmounts c) in
  let dateStr := effectiveDateStr c in
  let d := match dateStr with
           | EmptyString => None
           | _ => Some (newDate dateStr)
           end in
  let isFuture := match d with
                  | Some d => JSDate.geb d today
                  | None => false
                  end in
  let client := match JS.truthyStr (clientName c) with
                | Some n => n
                | None => "Cliente"%string
                end in
  let acc1 :=
    if JS.truthy (eventCompleted c) then
      {| totalRevenue := totalRevenue acc + amount;
         completedRevenue := completedRevenue acc + amount;
         futureRevenue := futureRevenue acc;
         invoices := invoices acc;
         clientMap := clientMap acc |}
    else if isFuture then
      {| totalRevenue := totalRevenue acc + amount;
         completedRevenue := completedRevenue acc;
         futureRevenue := futureRevenue acc + amount;
         invoices :=
           invoices acc ++
           [{| inv_id := id c;
               inv_clientName := client;
               inv_dueDate := match dateStr with
                              | EmptyString => nowIsoDay
                              | _ => dateStr
                              end;
               inv_amount := amount;
               inv_status := Pendiente |}];
         clientMap := clientMap acc |}
    else
      {| totalRevenue := totalRevenue acc + amount;
         completedRevenue := completedRevenue acc;
         futureRevenue := futureRevenue acc;
         invoices := invoices acc;
         clientMap := clientMap acc |} in
  {| totalRevenue := totalRevenue acc1;
     completedRevenue := completedRevenue acc1;
     futureRevenue := futureRevenue acc1;
     invoices := invoices acc1;
     clientMap := clientMapAdd client amount (clientMap acc1) |}.

Definition revenueLoop (filtered : list Contract) : Revenue :=
  fold_left revenueStep filtered
    {| totalRevenue := 0; completedRevenue := 0; futureRevenue := 0;
       invoices := []; clientMap := [] |}.

(** Sign of [new Date(a.dueDate).getTime() - new Date(b.dueDate).getTime()];
    a [NaN] result counts as zero. *)
Definition invoiceCmp (a b : Invoice) : comparison :=
  match newDate (inv_dueDate a), newDate (inv_dueDate b) with
  | Some x, Some y => x ?= y
  | _, _ => Eq
  end.

(** Sign of [b.totalValue - a.totalValue]. *)
Definition topClientCmp (a b : TopClient) : comparison :=
  tc_totalValue b ?= tc_totalValue a.

(** Body of the loop over the installments, in [metrics]. *)
Definition expensesStep (period : Period) (expenses : Q) (inst : Installment)
  : Q :=
  match JS.truthyStr (dueDate inst) with
  | None => expenses
  | Some dateStr =>
      if negb (isInPeriod period (Some dateStr)) then expenses
      else match newDate dateStr with
           | None => expenses
           | Some _ => (expenses + JS.orNum (amount inst) 0)%Q
           end
  end.

(** The twelve empty rows [computeMonthlyData] starts from. *)
Definition emptyMonths : list MonthRow :=
  List.map
    (fun i => {| key := i; month := monthLabel i; income := 0;
                 expenses := 0%Q; profit := 0%Q; earned := 0; forecast := 0 |})
    [0; 1; 2; 3; 4; 5; 6; 7; 8; 9; 10; 11].

(** Body of the loop over the contracts, in [computeMonthlyData]. *)
Definition monthlyContractStep (period : Period)
  (months : option (list MonthRow)) (c : Contract) : option (list MonthRow) :=
  match months with
  | None => None
  | Some rows =>
      match effectiveDateStr c with
      | EmptyString => Some rows
      | dateStr =>
          if negb (isInPeriod period (Some dateStr)) then Some rows
          else match newDate dateStr with
               | None => Some rows
               | Some d =>
                   let m := JSDate.getMonth tz d in
                   let amount := a_total (contractAmounts c) in
                   updateMonth m
                     (fun r =>
                        if JS.truthy (eventCompleted c) then
                          {| key := key r; month := month r;
                             income := income r + amount;
                             expenses := expenses r;
                             profit := (profit r + inject_Z amount)%Q;
                             earned := earned r + amount;
                             forecast := forecast r |}
                        else if JSDate.geb (Some d) today then
                          {| key := key r; month := month r;
                             income := income r + amount;
                             expenses := expenses r;
                             profit := profit r;
                             earned := earned r;
                             forecast := forecast r + amount |}
                        else
                          {| key := key r; month := month r;
                             income := income r + amount;
                             expenses := expenses r;
                             profit := profit r;
                             earned := earned r;
                             forecast := forecast r |})
                     rows
               end
      end
  end.

(** Body of the loop over the installments, in [computeMonthlyData]. *)
Definition monthlyInstallmentStep (period : Period)
  (months : option (list MonthRow)) (inst : Installment)
  : option (list MonthRow) :=
  match months with
  | None => None
  | Some rows =>
      match JS.truthyStr (dueDate inst) with
      | None => Some rows
      | Some dateStr =>
          if negb (isInPeriod period (Some dateStr)) then Some rows
          else match newDate dateStr with
               | None => Some rows
               | Some d =>
                   let m := JSDate.getMonth tz d in
                   let amt := JS.orNum (amount inst) 0 in
                   updateMonth m
                     (fun r =>
                        {| key := key r; month := month r;
                           income := income r;
                           expenses := (expenses r + amt)%Q;
                           profit := (profit r - amt)%Q;
                           earned := earned r;
                           forecast := forecast r |})
                     rows
               end
      end
  end.

(** [computeMonthlyData]: [None] when an exception is raised. *)
Definition computeMonthlyData (contracts : list Contract)
  (investmentInstallments : list Installment) (period : Period)
  : option (list MonthRow) :=
  fold_left (monthlyInstallmentStep period) investmentInstallments
    (fold_left (monthlyContractStep period) contracts (Some emptyMonths)).

(** [metrics], over the contracts and installments loaded. *)
Definition metrics (contracts : list Contract)
  (investmentInstallments : list Installment) (period : Period)
  : FinancialMetrics :=
  let filtered := filteredContracts contracts period in
  let rev := revenueLoop filtered in
  let invs := firstn 10 (JSArray.sort invoiceCmp (invoices rev)) in
  let tops :=
    firstn 5
      (JSArray.sort topClientCmp
         (List.map (fun kv => {| tc_clientName := fst kv; tc_totalValue := snd kv |})
            (clientMap rev))) in
  let exps := fold_left (expensesStep period) investmentInstallments 0%Q in
  let netProfit := (inject_Z (completedRevenue rev) - exps)%Q in
  let margin :=
    if 0 <? completedRevenue rev
    then (netProfit / inject_Z (completedRevenue rev) * 100)%Q
    else 0%Q in
  {| currentMonthRevenue := completedRevenue rev;
     currentMonthExpenses := exps;
     currentMonthNetProfit := netProfit;
     profitMargin := margin;
     currentCashBalance := completedRevenue rev;
     monthlyData := computeMonthlyData filtered investmentInstallments period;
     expensesByCategory :=
       List.filter (fun e => JS.gtb (snd e) 0)
         [("Inversiones"%string, exps);
          ("Otros Gastos"%string,
           JS.max0 (inject_Z (completedRevenue rev) * (1 # 10))%Q)];
     outstandingInvoices := invs;
     topClients := tops |}.
End Host.

End FinancialDashboard.

(** ** AdminCalendar *)

Module AdminCalendar.

(** The fields of a calendar event read by the functions below. *)
Record ContractItem := {
  id : string;
  clientName : option string;
  eventDate : option string;
  eventTime : option string;
  depositPaid : option bool;
  finalPaymentPaid : option bool;
  eventCompleted : option bool;
  totalAmount : option Q;
  travelFee : option Q;
  storeItems : option (list StoreItem);
  services : option (list ServiceLine);
  (** [formSnapshot?.cartItems], when it is an array *)
  cartItems : option (list ServiceLine)
}.

(** Result of [computeAmounts]. *)
Module Calc.
Record t := {
  servicesTotal : Q;
  storeTotal : Q;
  travel : Q;
  totalAmount : Z;
  depositAmount : Z;
  remainingAmount : Z
}.
End Calc.

Definition computeAmounts (c : ContractItem) : Calc.t :=
  let svcList := svcListOf (services c) (cartItems c) in
  let servicesTotalRaw := servicesTotalRawOf svcList in
  let storeTotal := storeTotalOf (storeItems c) in
  let travel := JS.orNum (travelFee c) 0 in
  let totalFromDoc := JS.orNum (totalAmount c) 0 in
  let servicesEstimated :=
    servicesEstimate servicesTotalRaw totalFromDoc storeTotal travel in
  let totalAmount := JS.round (servicesEstimated + storeTotal + travel)%Q in
  let depositAmount :=
    if Qle_bool servicesEstimated 0 && JS.gtb storeTotal 0
    then JS.ceil ((storeTotal + travel) * (1 # 2))%Q
    else JS.ceil (servicesEstimated * (2 # 10) + storeTotal * (1 # 2))%Q in
  let remainingAmount :=
    Z.max 0 (JS.round (inject_Z totalAmount - inject_Z depositAmount)%Q) in
  {| Calc.servicesTotal := servicesEstimated;
     Calc.storeTotal := storeTotal;
     Calc.travel := travel;
     Calc.totalAmount := totalAmount;
     Calc.depositAmount := depositAmount;
     Calc.remainingAmount := remainingAmount |}.

(** [s.split(':')]. *)
Fixpoint splitColon (s : string) : list string :=
  match s with
  | EmptyString => [EmptyString]
  | String c r =>
      if Ascii.eqb c ":"%char then EmptyString :: splitColon r
      else match splitColon r with
           | h :: t => String c h :: t
           | [] => [String c EmptyString]
           end
  end.

(** Counters of [eventSummary]. *)
Record Summary := {
  pending : nat;
  editing : nat;
  completed : nat;
  allTotal : nat;
  total : nat
}.

(** Body of the [forEach] of [eventSummary], on (pending, editing,
    completed). *)
Definition summaryStep (acc : nat * nat * nat) (ev : ContractItem)
  : nat * nat * nat :=
  let '(pending, editing, completed) := acc in
  if negb (JS.isTrue (depositPaid ev)) then
    (S pending, editing, completed)
  else if JS.isTrue (depositPaid ev) && JS.isTrue (finalPaymentPaid ev)
          && negb (JS.isTrue (eventCompleted ev)) then
    (pending, S editing, completed)
  else if JS.isTrue (depositPaid ev) && JS.isTrue (finalPaymentPaid ev)
          && JS.isTrue (eventCompleted ev) then
    (pending, editing, S completed)
  else (pending, editing, completed).

Definition eventSummary (filteredEvents : list ContractItem) : Summary :=
  let '(pending, editing, completed) :=
    fold_left summaryStep filteredEvents (0, 0, 0)%nat in
  {| pending := pending; editing := editing; completed := completed;
     allTotal := length filteredEvents;
     total := (pending + editing + completed)%nat |}.

(** Body of the [forEach] of [eventsByDay]:
    [map.set(key, [...(map.get(key) || []), ev])]. *)
Definition bucketStep (map : gmap string (list ContractItem))
  (ev : ContractItem) : gmap string (list ContractItem) :=
  match JS.truthyStr (eventDate ev) with
  | None => map
  | Some key => <[key := default [] (map !! key) ++ [ev]]> map
  end.

Section Host.
(** [Number(s)] when it is finite, [None] when it is [NaN] or infinite. *)
Variable toNumber : string -> option Q.
(** Sign of [a.localeCompare(b)]. *)
Variable localeCompare : string -> string -> comparison.

(** [toMinutes] of [eventsByDay]. *)
Definition toMinutes (t : option string) : Q :=
  match JS.truthyStr t with
  | None => 0%Q
  | Some s =>
      let parts := List.map toNumber (splitColon s) in
      let h := mjoin (parts !! 0%nat) in
      let m := mjoin (parts !! 1%nat) in
      (default 0%Q h * 60 + default 0%Q m)%Q
  end.

(** Sign of the comparator given to [list.sort]. *)
Definition eventCmp (a b : ContractItem) : comparison :=
  let ta := toMinutes (eventTime a) in
  let tb := toMinutes (eventTime b) in
  if negb (Qeq_bool ta tb) then (ta ?= tb)%Q
  else localeCompare (default EmptyString (JS.truthyStr (clientName a)))
                     (default EmptyString (JS.truthyStr (clientName b))).

Definition eventsByDay (filteredEvents : list ContractItem)
  : gmap string (list ContractItem) :=
  JSArray.sort eventCmp <$> fold_left bucketStep filteredEvents ∅.
End Host.

End AdminCalendar.

(** ** BudgetPlanner *)

Module BudgetPlanner.

Inductive TxType := income | expense.

(** A document of [budget_envelopes]. *)
Record EnvelopeDoc := {
  d_name : option string;
  d_percentage : option Q;
  d_allocated : option Q;
  d_spent : option Q
}.

(** A document of [budget_transactions]. *)
Record TransactionDoc := {
  d_date : string;
  d_description : string;
  d_category : string;
  d_type : TxType;
  d_amount : Q;
  d_envelopeId : option string;
  d_timestamp : option string
}.

Record Envelope := {
  id : string;
  name : string;
  percentage : Q;
  allocated : Q;
  spent : Q;
  available : Q
}.

Record Transaction := {
  tx_id : string;
  date : string;
  description : string;
  category : string;
  type : TxType;
  amount : Q;
  envelopeId : option string
}.

(** The two collections of the document store, by document id. *)
Record Db := {
  budget_envelopes : gmap string EnvelopeDoc;
  budget_transactions : gmap string TransactionDoc
}.

(** The component state [budgetData]; its two arrays hold one entry per
    document and are searched by id only, so they are kept by id. *)
Record BudgetData := {
  totalAvailable : Q;
  totalAllocated : Q;
  totalSpent : Q;
  envelopes : gmap string Envelope;
  transactions : gmap string Transaction
}.

Record State := {
  db : Db;
  budgetData : BudgetData
}.

Definition envelopeOfDoc (i : string) (data : EnvelopeDoc) : Envelope :=
  {| id := i;
     name := default EmptyString (JS.truthyStr (d_name data));
     percentage := JS.orNum (d_percentage data) 0;
     allocated := JS.orNum (d_allocated data) 0;
     spent := JS.orNum (d_spent data) 0;
     available := (JS.orNum (d_allocated data) 0 - JS.orNum (d_spent data) 0)%Q |}.

Definition transactionOfDoc (i : string) (data : TransactionDoc) : Transaction :=
  {| tx_id := i; date := d_date data; description := d_description data;
     category := d_category data; type := d_type data;
     amount := d_amount data; envelopeId := d_envelopeId data |}.

(** [docs.reduce((sum, x) => sum + f(x), 0)]. *)
Definition sumOf {A} (f : A -> Q) (docs : list (string * A)) : Q :=
  fold_left (fun sum kv => (sum + f (snd kv))%Q) docs 0%Q.

Definition isIncome (ty : TxType) : bool :=
  match ty with income => true | expense => false end.

(** [loadBudgetData], reading both collections. *)
Definition loadBudgetData (d : Db) : BudgetData :=
  let envs := map_imap (fun i data => Some (envelopeOfDoc i data)) (budget_envelopes d) in
  let txs := map_imap (fun i data => Some (transactionOfDoc i data)) (budget_transactions d) in
  let totalAllocated := sumOf allocated (map_to_list envs) in
  let totalSpent := sumOf spent (map_to_list envs) in
  let incomeTransactions :=
    List.filter (fun kv => isIncome (type (snd kv))) (map_to_list txs) in
  let totalIncome := sumOf amount incomeTransactions in
  {| totalAvailable := (totalIncome - totalSpent)%Q;
     totalAllocated := totalAllocated;
     totalSpent := totalSpent;
     envelopes := envs;
     transactions := txs |}.

(** [updateDoc(doc(db, 'budget_envelopes', i), { spent: newSpent })]; the
    write is rejected ([None]) when the document does not exist. *)
Definition updateSpent (i : string) (newSpent : Q) (d : Db) : option Db :=
  match budget_envelopes d !! i with
  | Some data =>
      Some {| budget_envelopes :=
                <[i := {| d_name := d_name data;
                          d_percentage := d_percentage data;
                          d_allocated := d_allocated data;
                          d_spent := Some newSpent |}]> (budget_envelopes d);
              budget_transactions := budget_transactions d |}
  | None => None
  end.

(** [addDoc(collection(db, 'budget_transactions'), data)], the store
    choosing the id [newId] of the new document. *)
Definition addTransaction (newId : string) (data : TransactionDoc) (d : Db) : Db :=
  {| budget_envelopes := budget_envelopes d;
     budget_transactions := <[newId := data]> (budget_transactions d) |}.

(** [deleteDoc(doc(db, 'budget_transactions', i))]. *)
Definition deleteTransaction (i : string) (d : Db) : Db :=
  {| budget_envelopes := budget_envelopes d;
     budget_transactions := delete i (budget_transactions d) |}.

(** [handleAddExpense].  [amountInput] is [Number(expenseData.amount)],
    [None] when the field is empty or not a number; [newId] is the id the
    store gives the new transaction; [nowIsoDay] and [nowIso] are the
    current day and instant in ISO form. *)
Definition handleAddExpense (selectedEnvelope : option string)
  (amountInput : option Q) (descriptionInput : string)
  (newId nowIsoDay nowIso : string) (st : State) : State :=
  match amountInput, JS.truthyStr selectedEnvelope with
  | Some amt, Some sel =>
      if Qle_bool amt 0 then st
      else
        match envelopes (budgetData st) !! sel with
        | None => st
        | Some envelope =>
            let d1 :=
              addTransaction newId
                {| d_date := nowIsoDay;
                   d_description :=
                     match descriptionInput with
                     | EmptyString => "Gasto"%string
                     | _ => descriptionInput
                     end;
                   d_category := name envelope;
                   d_type := expense;
                   d_amount := amt;
                   d_envelopeId := Some sel;
                   d_timestamp := Some nowIso |} (db st) in
            let newSpent := (spent envelope + amt)%Q in
            match updateSpent sel newSpent d1 with
            | Some d2 => {| db := d2; budgetData := loadBudgetData d2 |}
            | None => {| db := d1; budgetData := budgetData st |}
            end
        end
  | _, _ => st
  end.

(** [handleDeleteTransaction]; [confirmed] is the answer to the
    confirmation dialog. *)
Definition handleDeleteTransaction (confirmed : bool) (i : string) (st : State)
  : State :=
  if negb confirmed then st
  else
    let transaction := transactions (budgetData st) !! i in
    let updated : option Db :=
      match transaction with
      | Some tx =>
          match JS.truthyStr (envelopeId tx), type tx with
          | Some eid, expense =>
              match envelopes (budgetData st) !! eid with
              | Some envelope =>
                  let newSpent := JS.max0 (spent envelope - amount tx)%Q in
                  updateSpent eid newSpent (db st)
              | None => Some (db st)
              end
          | _, _ => Some (db st)
          end
      | None => Some (db st)
      end in
    match updated with
    | Some d1 =>
        let d2 := deleteTransaction i d1 in
        {| db := d2; budgetData := loadBudgetData d2 |}
    | None => st
    end.

End BudgetPlanner.

(** ** BudgetPlanner on binary64 numbers

    The same component with its numbers as the code has them: IEEE 754
    binary64 values ([float]), every sum and difference rounded to the
    nearest value, with NaN, the infinities and the two zeros.  The
    totals are sums in the order the queries return the documents, which
    the store decides. *)

Module BudgetPlanner64.
Import PrimFloat.

(** [x || d] on an optional number: [undefined], [NaN] and the zeros are
    falsy. *)
Definition orNum (x : option float) (d : float) : float :=
  match x with
  | Some v => if is_nan v || (v =? 0)%float then d else v
  | None => d
  end.

(** [Math.max(0, x)]. *)
Definition max0 (x : float) : float :=
  if (x <=? 0)%float then 0%float else x.

Record EnvelopeDoc := {
  d_name : option string;
  d_percentage : option float;
  d_allocated : option float;
  d_spent : option float
}.

Record TransactionDoc := {
  d_date : string;
  d_description : string;
  d_category : string;
  d_type : BudgetPlanner.TxType;
  d_amount : float;
  d_envelopeId : option string;
  d_timestamp : option string
}.

Record Envelope := {
  id : string;
  name : string;
  percentage : float;
  allocated : float;
  spent : float;
  available : float
}.

Record Transaction := {
  tx_id : string;
  date : string;
  description : string;
  category : string;
  type : BudgetPlanner.TxType;
  amount : float;
  envelopeId : option string
}.

Record Db := {
  budget_envelopes : gmap string EnvelopeDoc;
  budget_transactions : gmap string TransactionDoc
}.

Record BudgetData := {
  totalAvailable : float;
  totalAllocated : float;
  totalSpent : float;
  envelopes : gmap string Envelope;
  transactions : gmap string Transaction
}.

Record State := {
  db : Db;
  budgetData : BudgetData
}.

Definition envelopeOfDoc (i : string) (data : EnvelopeDoc) : Envelope :=
  {| id := i;
     name := default EmptyString (JS.truthyStr (d_name data));
     percentage := orNum (d_percentage data) 0;
     allocated := orNum (d_allocated data) 0;
     spent := orNum (d_spent data) 0;
     available := (orNum (d_allocated data) 0 - orNum (d_spent data) 0)%float |}.

Definition transactionOfDoc (i : string) (data : TransactionDoc) : Transaction :=
  {| tx_id := i; date := d_date data; description := d_description data;
     category := d_category data; type := d_type data;
     amount := d_amount data; envelopeId := d_envelopeId data |}.

(** [docs.reduce((sum, x) => sum + f(x), 0)]. *)
Definition sumOf {A} (f : A -> float) (docs : list (string * A)) : float :=
  fold_left (fun sum kv => (sum + f (snd kv))%float) docs 0%float.

Section Queries.
(** The documents of the two collections in the order [getDocs] returns
    them. *)
Variable envelopesQuery : gmap string EnvelopeDoc -> list (string * EnvelopeDoc).
Variable transactionsQuery :
  gmap string TransactionDoc -> list (string * TransactionDoc).

Definition loadBudgetData (d : Db) : BudgetData :=
  let envs := map_imap (fun i data => Some (envelopeOfDoc i data)) (budget_envelopes d) in
  let txs := map_imap (fun i data => Some (transactionOfDoc i data)) (budget_transactions d) in
  let envList := envelopesQuery (budget_envelopes d) in
  let totalAllocated :=
    sumOf (fun data => orNum (d_allocated data) 0) envList in
  let totalSpent := sumOf (fun data => orNum (d_spent data) 0) envList in
  let incomeTransactions :=
    List.filter (fun kv => BudgetPlanner.isIncome (d_type (snd kv)))
      (transactionsQuery (budget_transactions d)) in
  let totalIncome := sumOf d_amount incomeTransactions in
  {| totalAvailable := (totalIncome - totalSpent)%float;
     totalAllocated := totalAllocated;
     totalSpent := totalSpent;
     envelopes := envs;
     transactions := txs |}.

(** [updateDoc(doc(db, 'budget_envelopes', i), { spent: newSpent })]; the
    write is rejected ([None]) when the document does not exist. *)
Definition updateSpent (i : string) (newSpent : float) (d : Db) : option Db :=
  match budget_envelopes d !! i with
  | Some data =>
      Some {| budget_envelopes :=
                <[i := {| d_name := d_name data;
                          d_percentage := d_percentage data;
                          d_allocated := d_allocated data;
                          d_spent := Some newSpent |}]> (budget_envelopes d);
              budget_transactions := budget_transactions d |}
  | None => None
  end.

Definition addTransaction (newId : string) (data : TransactionDoc) (d : Db) : Db :=
  {| budget_envelopes := budget_envelopes d;
     budget_transactions := <[newId := data]> (budget_transactions d) |}.

Definition deleteTransaction (i : string) (d : Db) : Db :=
  {| budget_envelopes := budget_envelopes d;
     budget_transactions := delete i (budget_transactions d) |}.

(** [handleAddExpense].  [amountInput] is [None] when the amount field is
    empty and else [Number(expenseData.amount)]; [newId] is the id the
    store gives the new transaction; [nowIsoDay] and [nowIso] are the
    current day and instant in ISO form. *)
Definition handleAddExpense (selectedEnvelope : option string)
  (amountInput : option float) (descriptionInput : string)
  (newId nowIsoDay nowIso : string) (st : State) : State :=
  match amountInput, JS.truthyStr selectedEnvelope with
  | Some amt, Some sel =>
      if is_nan amt then st
      else if (amt <=? 0)%float then st
      else
        match envelopes (budgetData st) !! sel with
        | None => st
        | Some envelope =>
            let d1 :=
              addTransaction newId
                {| d_date := nowIsoDay;
                   d_description :=
                     match descriptionInput with
                     | EmptyString => "Gasto"%string
                     | _ => descriptionInput
                     end;
                   d_category := name envelope;
                   d_type := BudgetPlanner.expense;
                   d_amount := amt;
                   d_envelopeId := Some sel;
                   d_timestamp := Some nowIso |} (db st) in
            let newSpent := (spent envelope + amt)%float in
            match updateSpent sel newSpent d1 with
            | Some d2 => {| db := d2; budgetData := loadBudgetData d2 |}
            | None => {| db := d1; budgetData := budgetData st |}
            end
        end
  | _, _ => st
  end.

(** [handleDeleteTransaction]; [confirmed] is the answer to the
    confirmation dialog. *)
Definition handleDeleteTransaction (confirmed : bool) (i : string) (st : State)
  : State :=
  if negb confirmed then st
  else
    let transaction := transactions (budgetData st) !! i in
    let updated : option Db :=
      match transaction with
      | Some tx =>
          match JS.truthyStr (envelopeId tx), type tx with
          | Some eid, BudgetPlanner.expense =>
              match envelopes (budgetData st) !! eid with
              | Some envelope =>
                  let newSpent := max0 (spent envelope - amount tx)%float in
                  updateSpent eid newSpent (db st)
              | None => Some (db st)
              end
          | _, _ => Some (db st)
          end
      | None => Some (db st)
      end in
    match updated with
    | Some d1 =>
        let d2 := deleteTransaction i d1 in
        {| db := d2; budgetData := loadBudgetData d2 |}
    | None => st
    end.

End Queries.

End BudgetPlanner64.

(** ** Concrete records used in the examples below *)

Module Examples.

Definition noContract : FinancialDashboard.Contract :=
  {| FinancialDashboard.id := "c";
     FinancialDashboard.eventDate := None;
     FinancialDashboard.contractDate := None;
     FinancialDashboard.createdAt := None;
     FinancialDashboard.totalAmount := None;
     FinancialDashboard.eventCompleted := None;
     FinancialDashboard.services := None;
     FinancialDashboard.cartItems := None;
     FinancialDashboard.storeItems := None;
     FinancialDashboard.travelFee := None;
     FinancialDashboard.clientName := None |}.

(** The same contract with the amount fields and the date replaced. *)
Definition contractWith (svc : option (list ServiceLine))
  (store : option (list StoreItem)) (travel stored : option Q)
  (day : option string) (done : option bool) : FinancialDashboard.Contract :=
  {| FinancialDashboard.id := "c";
     FinancialDashboard.eventDate := day;
     FinancialDashboard.contractDate := None;
     FinancialDashboard.createdAt := None;
     FinancialDashboard.totalAmount := stored;
     FinancialDashboard.eventCompleted := done;
     FinancialDashboard.services := svc;
     FinancialDashboard.cartItems := None;
     FinancialDashboard.storeItems := store;
     FinancialDashboard.travelFee := travel;
     FinancialDashboard.clientName := None |}.

Definition eventWith (svc : option (list ServiceLine))
  (store : option (list StoreItem)) (travel stored : option Q)
  : AdminCalendar.ContractItem :=
  {| AdminCalendar.id := "e";
     AdminCalendar.clientName := Some "Ana"%string;
     AdminCalendar.eventDate := Some "2024-01-31"%string;
     AdminCalendar.eventTime := None;
     AdminCalendar.depositPaid := None;
     AdminCalendar.finalPaymentPaid := None;
     AdminCalendar.eventCompleted := None;
     AdminCalendar.totalAmount := stored;
     AdminCalendar.travelFee := travel;
     AdminCalendar.storeItems := store;
     AdminCalendar.services := svc;
     AdminCalendar.cartItems := None |}.

(** A calendar event given by its name, time and payment flags. *)
Definition eventAt (who : string) (time : option string)
  (deposit final done : option bool) : AdminCalendar.ContractItem :=
  {| AdminCalendar.id := who;
     AdminCalendar.clientName := Some who;
     AdminCalendar.eventDate := Some "2024-01-31"%string;
     AdminCalendar.eventTime := time;
     AdminCalendar.depositPaid := deposit;
     AdminCalendar.finalPaymentPaid := final;
     AdminCalendar.eventCompleted := done;
     AdminCalendar.totalAmount := None;
     AdminCalendar.travelFee := None;
     AdminCalendar.storeItems := None;
     AdminCalendar.services := None;
     AdminCalendar.cartItems := None |}.

Definition line (price : string) (qty : option Q) : ServiceLine :=
  {| svc_price := Some price; svc_quantity := qty |}.

Definition item (price : Q) (qty : option Q) : StoreItem :=
  {| item_price := price; item_quantity := qty |}.


(** One service line of 10 and a travel fee of -100. *)
Definition negativeTravel : FinancialDashboard.Contract :=
  contractWith (Some [line "10" (Some 1%Q)]) None (Some (-100)%Q) None
    (Some "2020-01-15"%string) None.

Definition negativeTravelEvent : AdminCalendar.ContractItem :=
  eventWith (Some [line "10" (Some 1%Q)]) None (Some (-100)%Q) None.

(** One store item of 0.25, nothing else. *)
Definition quarterItem : AdminCalendar.ContractItem :=
  eventWith None (Some [item (1 # 4) (Some 1%Q)]) None None.

(** The first scenario of the specification: one service line of
    "R$ 1.000" and a travel fee of 100. *)
Definition scenarioServices : AdminCalendar.ContractItem :=
  eventWith (Some [line "R$ 1.000" (Some 1%Q)]) None (Some 100%Q) None.

(** The second scenario: two store items of 50, stored total 100. *)
Definition scenarioStore : AdminCalendar.ContractItem :=
  eventWith (Some []) (Some [item 50 (Some 2%Q)]) (Some 0%Q) (Some 100%Q).

(** A service line whose price has no digit. *)
Definition freeLine (stored : Q) : FinancialDashboard.Contract :=
  contractWith (Some [line "gratis" (Some 1%Q)]) None None (Some stored)
    (Some "2020-01-15"%string) None.

(** The period of the last scenario of the specification. *)
Definition january2024 : FinancialDashboard.Period :=
  {| FinancialDashboard.p_type := FinancialDashboard.PCustom;
     FinancialDashboard.p_start := Some "2024-01-01"%string;
     FinancialDashboard.p_end := Some "2024-01-31"%string |}.

Definition customPeriod (start end_ : option string) : FinancialDashboard.Period :=
  {| FinancialDashboard.p_type := FinancialDashboard.PCustom;
     FinancialDashboard.p_start := start;
     FinancialDashboard.p_end := end_ |}.

Definition allTime : FinancialDashboard.Period :=
  {| FinancialDashboard.p_type := FinancialDashboard.PAll;
     FinancialDashboard.p_start := None;
     FinancialDashboard.p_end := None |}.

(** A month label: the letter A for January, B for February, and so on. *)
Definition monthNumber (i : Z) : string :=
  String (ascii_of_nat (Z.to_nat (65 + i))) EmptyString.

(** Three hours behind UTC. *)
Definition utcMinus3 : Z := -10800000.

(** 2024-06-15T12:00:00.000Z. *)
Definition midJune2024 : Z := 1718452800000.

(** A contract of 10 dated in 2020 and not completed. *)
Definition pastOpen : FinancialDashboard.Contract :=
  contractWith (Some [line "10" (Some 1%Q)]) None None None
    (Some "2020-01-15"%string) None.

(** A contract of 300 dated in 2030 and not completed. *)
Definition futureOpen : FinancialDashboard.Contract :=
  contractWith (Some [line "300" (Some 1%Q)]) None None None
    (Some "2030-03-01"%string) None.

(** A completed contract of 200 dated in 2024. *)
Definition completedOne : FinancialDashboard.Contract :=
  contractWith (Some [line "200" (Some 1%Q)]) None None None
    (Some "2024-02-10"%string) (Some true).

(** [Number] on strings of decimal digits (the empty string gives 0);
    this instance takes every other string as not numeric. *)
Definition decimalNumber (s : string) : option Q :=
  inject_Z <$> JSDate.digitsOf (list_ascii_of_string s).

(** Comparison of strings by code units. *)
Definition codeUnitCompare (a b : string) : comparison :=
  String_as_OT.compare a b.

(** Three events of one day: at 10:30, without a time, and at 09:00. *)
Definition sameDay : list AdminCalendar.ContractItem :=
  [eventAt "Ana" (Some "10:30"%string) None None None;
   eventAt "Caio" None None None None;
   eventAt "Bea" (Some "09:00"%string) None None None;
   eventAt "Abel" None None None None].

(** The envelope of the specification's scenario: 1000 allocated, 600
    spent, and no transaction yet. *)
Definition scenarioLedger : BudgetPlanner.State :=
  let d :=
    {| BudgetPlanner.budget_envelopes :=
         {[ "env1"%string :=
              {| BudgetPlanner.d_name := Some "Equipo"%string;
                 BudgetPlanner.d_percentage := Some 10%Q;
                 BudgetPlanner.d_allocated := Some 1000%Q;
                 BudgetPlanner.d_spent := Some 600%Q |} ]};
       BudgetPlanner.budget_transactions := ∅ |} in
  {| BudgetPlanner.db := d;
     BudgetPlanner.budgetData := BudgetPlanner.loadBudgetData d |}.

Definition scenarioEnvelope : BudgetPlanner.Envelope :=
  {| BudgetPlanner.id := "env1"; BudgetPlanner.name := "Equipo";
     BudgetPlanner.percentage := 10; BudgetPlanner.allocated := 1000;
     BudgetPlanner.spent := 600; BudgetPlanner.available := 1000 - 600 |}.

End Examples.

(** ** Definitions on the side of the specification *)

Module SpecSide.

(** A contract that differs from [c] in the stored [totalAmount] only. *)
Definition withTotalAmount (c : FinancialDashboard.Contract) (v : option Q)
  : FinancialDashboard.Contract :=
  {| FinancialDashboard.id := FinancialDashboard.id c;
     FinancialDashboard.eventDate := FinancialDashboard.eventDate c;
     FinancialDashboard.contractDate := FinancialDashboard.contractDate c;
     FinancialDashboard.createdAt := FinancialDashboard.createdAt c;
     FinancialDashboard.totalAmount := v;
     FinancialDashboard.eventCompleted := FinancialDashboard.eventCompleted c;
     FinancialDashboard.services := FinancialDashboard.services c;
     FinancialDashboard.cartItems := FinancialDashboard.cartItems c;
     FinancialDashboard.storeItems := FinancialDashboard.storeItems c;
     FinancialDashboard.travelFee := FinancialDashboard.travelFee c;
     FinancialDashboard.clientName := FinancialDashboard.clientName c |}.

(** The service lines a contract is read with. *)
Definition serviceLines (c : FinancialDashboard.Contract) : list ServiceLine :=
  svcListOf (FinancialDashboard.services c) (FinancialDashboard.cartItems c).

(** The last millisecond (23:59:59.999) of the local day of [e]. *)
Definition endOfLocalDay (tz e : Z) : Z :=
  e + (JSDate.msPerDay - 1 - (JSDate.LocalTime tz e) mod JSDate.msPerDay).

(** The bound the filter sets on one side, as an instant: none when the
    field is unset (or does not denote a date).  The lower bound is the
    instant the start string denotes; the upper bound is 23:59:59.999
    local time of the local day that holds the instant the end string
    denotes. *)
Definition lowerBound (newDate : string -> JSDate.t) (start : option string)
  : option Z :=
  JS.truthyStr start ≫= newDate.

Definition upperBound (newDate : string -> JSDate.t) (tz : Z)
  (end_ : option string) : option Z :=
  endOfLocalDay tz <$> (JS.truthyStr end_ ≫= newDate).

(** Membership in the window of the filter: the date string (the empty
    string denotes no date) denotes an instant that is not before the
    lower bound and not after the upper bound. *)
Definition inCustomWindow (newDate : string -> JSDate.t) (tz : Z)
  (start end_ dateStr : option string) : Prop :=
  exists s d,
    JS.truthyStr dateStr = Some s /\ newDate s = Some d
    /\ (forall lo, lowerBound newDate start = Some lo -> lo <= d)
    /\ (forall hi, upperBound newDate tz end_ = Some hi -> d <= hi).

(** The day a bound names: the day (in UTC) of the instant the bound
    string denotes.  A day-only string [YYYY-MM-DD] denotes 00:00 UTC of
    the day it names. *)
Definition dayNamed (newDate : string -> JSDate.t) (bound : option string)
  : option Z :=
  JSDate.Day <$> (JS.truthyStr bound ≫= newDate).

(** A bound that, when set, denotes 00:00 UTC of a day. *)
Definition dayOnly (newDate : string -> JSDate.t) (bound : option string)
  : Prop :=
  forall tv, JS.truthyStr bound ≫= newDate = Some tv ->
             tv mod JSDate.msPerDay = 0.

(** 00:00 and 23:59:59.999 of a day, read on a clock that is [zone]
    milliseconds ahead of UTC. *)
Definition dayStart (zone day : Z) : Z :=
  JSDate.UTC zone (day * JSDate.msPerDay).

Definition dayEnd (zone day : Z) : Z :=
  JSDate.UTC zone (day * JSDate.msPerDay + (JSDate.msPerDay - 1)).

(** The window as the specification states it: from 00:00 of the start
    day to 23:59:59.999 of the end day, both inclusive, an unset bound
    leaving its side open; [zone] is the clock the two times of day are
    read on (0 for UTC, [tz] for local time). *)
Definition inStatedWindow (newDate : string -> JSDate.t) (zone : Z)
  (start end_ dateStr : option string) : Prop :=
  exists s d,
    JS.truthyStr dateStr = Some s /\ newDate s = Some d
    /\ (forall lo, dayNamed newDate start = Some lo -> dayStart zone lo <= d)
    /\ (forall hi, dayNamed newDate end_ = Some hi -> d <= dayEnd zone hi).

(** Sum of the income fields of the rows of the monthly table. *)
Definition sumIncome (rows : list FinancialDashboard.MonthRow) : Z :=
  fold_right Z.add 0 (List.map FinancialDashboard.income rows).

(** Sum of the derived totals of a list of contracts. *)
Definition sumTotals (cs : list FinancialDashboard.Contract) : Z :=
  fold_right Z.add 0
    (List.map (fun c => FinancialDashboard.a_total
                          (FinancialDashboard.contractAmounts c)) cs).

Section Classes.
Variable newDate : string -> JSDate.t.
Variables tz now : Z.

(** The event of the contract is marked completed. *)
Definition isCompleted (c : FinancialDashboard.Contract) : bool :=
  JS.truthy (FinancialDashboard.eventCompleted c).

(** The test the reducer applies to the date of a contract: the instant
    the date string denotes is at or after the start of the current
    local day ([d.getTime() >= today.getTime()]). *)
Definition todayOrLater (c : FinancialDashboard.Contract) : bool :=
  match FinancialDashboard.effectiveDateStr c with
  | EmptyString => false
  | s => JSDate.geb (newDate s) (FinancialDashboard.today tz now)
  end.

(** Not completed and passing that test. *)
Definition isUpcoming (c : FinancialDashboard.Contract) : bool :=
  negb (isCompleted c) && todayOrLater c.

(** Neither completed nor passing that test. *)
Definition isStale (c : FinancialDashboard.Contract) : bool :=
  negb (isCompleted c) && negb (todayOrLater c).
End Classes.

(** Identifier and amount of an invoice, and of the invoice a contract
    gives rise to. *)
Definition invoiceKey (i : FinancialDashboard.Invoice) : string * Z :=
  (FinancialDashboard.inv_id i, FinancialDashboard.inv_amount i).

Definition contractKey (c : FinancialDashboard.Contract) : string * Z :=
  (FinancialDashboard.id c,
   FinancialDashboard.a_total (FinancialDashboard.contractAmounts c)).

(** The three buckets of the calendar summary, and the events that fall
    in none: deposit paid, final payment not paid. *)
Definition isPending (ev : AdminCalendar.ContractItem) : bool :=
  negb (JS.isTrue (AdminCalendar.depositPaid ev)).

Definition isEditing (ev : AdminCalendar.ContractItem) : bool :=
  JS.isTrue (AdminCalendar.depositPaid ev)
  && JS.isTrue (AdminCalendar.finalPaymentPaid ev)
  && negb (JS.isTrue (AdminCalendar.eventCompleted ev)).

Definition isFinished (ev : AdminCalendar.ContractItem) : bool :=
  JS.isTrue (AdminCalendar.depositPaid ev)
  && JS.isTrue (AdminCalendar.finalPaymentPaid ev)
  && JS.isTrue (AdminCalendar.eventCompleted ev).

Definition isUncounted (ev : AdminCalendar.ContractItem) : bool :=
  JS.isTrue (AdminCalendar.depositPaid ev)
  && negb (JS.isTrue (AdminCalendar.finalPaymentPaid ev)).

(** Number of buckets an event falls in. *)
Definition bucketsOf (ev : AdminCalendar.ContractItem) : nat :=
  (if isPending ev then 1 else 0) + (if isEditing ev then 1 else 0)
  + (if isFinished ev then 1 else 0).

Definition countIf {A} (p : A -> bool) (l : list A) : nat :=
  length (List.filter p l).

Section DayOrder.
Variable toNumber : string -> option Q.
Variable localeCompare : string -> string -> comparison.

(** The client name as the comparator reads it. *)
Definition nameOf (ev : AdminCalendar.ContractItem) : string :=
  default EmptyString (JS.truthyStr (AdminCalendar.clientName ev)).

(** Minutes since midnight of the event time, 0 when there is none. *)
Definition minutesOf (ev : AdminCalendar.ContractItem) : Q :=
  AdminCalendar.toMinutes toNumber (AdminCalendar.eventTime ev).

(** [a] comes before [b] within a day: earlier time, or the same time and
    a name that does not sort after. *)
Definition dayOrder (a b : AdminCalendar.ContractItem) : Prop :=
  (minutesOf a < minutesOf b)%Q
  \/ ((minutesOf a == minutesOf b)%Q /\ localeCompare (nameOf a) (nameOf b) <> Gt).
End DayOrder.

(** Whether an event is filed under the day [k]. *)
Definition isOn (k : string) (ev : AdminCalendar.ContractItem) : bool :=
  match JS.truthyStr (AdminCalendar.eventDate ev) with
  | Some d => String.eqb d k
  | None => false
  end.

(** [a] may stand before [b] under a comparator: its sign is not
    positive. *)
Definition before {A} (cmp : A -> A -> comparison) (a b : A) : Prop :=
  cmp a b <> Gt.

End SpecSide.

(** ** AdminCalendar, the rest of the view *)

Module CalendarView.

Inductive Status :=
| pending | booked | delivered | cancelled
| pending_payment | confirmed | pending_approval | released.

(** A calendar event with the further fields the view reads. *)
Record CalendarEvent := {
  item : AdminCalendar.ContractItem;
  status : option Status;
  phone : option string;
  (** [formSnapshot?.phone] *)
  snapshotPhone : option string
}.

(** The status an event is taken to have: its own when set, else derived
    from the payment flags (the view computes it in [getEventStatus] and
    again in [filteredEvents]). *)
Definition statusOf (c : CalendarEvent) : Status :=
  match status c with
  | Some s => s
  | None =>
      if JS.truthy (AdminCalendar.eventCompleted (item c))
         && JS.truthy (AdminCalendar.finalPaymentPaid (item c))
      then delivered
      else match AdminCalendar.depositPaid (item c) with
           | Some false => pending_payment
           | _ => booked
           end
  end.

Inductive EventStatus := completed | pendingStatus.

Definition getEventStatus (c : CalendarEvent) : EventStatus :=
  match statusOf c with
  | delivered | released => completed
  | _ => pendingStatus
  end.

Definition isStatus (c : CalendarEvent) (s : Status) : bool :=
  match status c, s with
  | Some pending, pending | Some booked, booked | Some delivered, delivered
  | Some cancelled, cancelled | Some pending_payment, pending_payment
  | Some confirmed, confirmed | Some pending_approval, pending_approval
  | Some released, released => true
  | _, _ => false
  end.

Definition getEventColor (c : CalendarEvent) : string :=
  let completedFlag := JS.truthy (AdminCalendar.eventCompleted (item c)) in
  let finalPaid := JS.truthy (AdminCalendar.finalPaymentPaid (item c)) in
  let deposit := AdminCalendar.depositPaid (item c) in
  if isStatus c cancelled then "bg-red-500 text-white hover:opacity-90"
  else if isStatus c released then "bg-gray-200 text-gray-700 hover:opacity-90"
  else if isStatus c delivered || (completedFlag && finalPaid)
       then "bg-green-600 text-white hover:opacity-90"
  else if isStatus c pending_payment
          || match deposit with Some false => true | _ => false end
       then "bg-gray-400 text-white hover:opacity-90"
  else if isStatus c pending_approval
       then "bg-orange-500 text-white hover:opacity-90"
  else if isStatus c confirmed || (JS.truthy deposit && negb completedFlag)
       then "bg-blue-600 text-white hover:opacity-90"
  else "bg-yellow-500 text-black hover:opacity-90".

(** The month on display, [current]. *)
Record Current := { y : Z; m : Z }.

Definition prevMonth (c : Current) : Current :=
  {| y := if m c =? 0 then y c - 1 else y c;
     m := if m c =? 0 then 11 else m c - 1 |}.

Definition nextMonth (c : Current) : Current :=
  {| y := if m c =? 11 then y c + 1 else y c;
     m := if m c =? 11 then 0 else m c + 1 |}.

(** [s.startsWith('_')]. *)
Definition underscoreFirst (s : string) : bool :=
  match s with
  | String c _ => Ascii.eqb c "_"%char
  | EmptyString => false
  end.

(** [s.split('__')[0]]: the text before the first double underscore. *)
Fixpoint baseIdOf (s : string) : string :=
  match s with
  | EmptyString => EmptyString
  | String c r =>
      if Ascii.eqb c "_"%char && underscoreFirst r then EmptyString
      else String c (baseIdOf r)
  end.

(** *** Dates built from year, month and day *)

(** A number that need not be finite. *)
Inductive Num := NaN | PosInf | NegInf | Fin (q : Q).

(** Truthiness of a number that may be missing: [undefined], [NaN] and 0
    are falsy. *)
Definition truthyNum (n : option Num) : bool :=
  match n with
  | None | Some NaN => false
  | Some (Fin q) => negb (Qeq_bool q 0)
  | Some _ => true
  end.

(** [n - 1]. *)
Definition pred (n : Num) : Num :=
  match n with
  | Fin q => Fin (q - 1)
  | other => other
  end.

(** Truncation toward zero, [ToIntegerOrInfinity] of a finite number. *)
Definition trunc (q : Q) : Z :=
  if Qle_bool 0 q then Qfloor q else Qceiling q.

(** Day of the month (1..31) of a day number counted from 1970-01-01. *)
Definition dateFromDays (z : Z) : Z :=
  let z := z + 719468 in
  let era := z / 146097 in
  let doe := z - era * 146097 in
  let yoe := (doe - doe / 1460 + doe / 36524 - doe / 146096) / 365 in
  let doy := doe - (365 * yoe + yoe / 4 - yoe / 100) in
  let mp := (5 * doy + 2) / 153 in
  doy - (153 * mp + 2) / 5 + 1.

(** [MakeDay] on integers: months beyond 0..11 carry into the year, days
    count on from the first of the month. *)
Definition MakeDay (year month date : Z) : Z :=
  let ym := year + month / 12 in
  let mn := month mod 12 in
  JSDate.daysFromCivil ym (mn + 1) 1 + date - 1.

(** [TimeClip]: time values beyond 8.64e15 ms are invalid. *)
Definition TimeClip (tv : Z) : JSDate.t :=
  if Z.abs tv <=? 8640000000000000 then Some tv else None.

(** [s.split(sep)] for a separator of one character. *)
Fixpoint splitOn (sep : ascii) (s : string) : list string :=
  match s with
  | EmptyString => [EmptyString]
  | String c r =>
      if Ascii.eqb c sep then EmptyString :: splitOn sep r
      else match splitOn sep r with
           | h :: t => String c h :: t
           | [] => [String c EmptyString]
           end
  end.

(** [hay.startsWith(needle)] and [hay.includes(needle)] on characters. *)
Fixpoint startsWith (hay needle : list ascii) : bool :=
  match needle, hay with
  | [], _ => true
  | _ :: _, [] => false
  | n :: needle', h :: hay' => Ascii.eqb h n && startsWith hay' needle'
  end.

Fixpoint includes (hay needle : list ascii) : bool :=
  startsWith hay needle
  || match hay with
     | [] => false
     | _ :: hay' => includes hay' needle
     end.

(** The choices of the status filter. *)
Inductive StatusFilter :=
| all | only_pending | only_booked | only_delivered | only_cancelled
| only_pending_payment | only_pending_approval | only_released.

(** [status === filterStatus]. *)
Definition sameStatus (s : Status) (f : StatusFilter) : bool :=
  match s, f with
  | pending, only_pending | booked, only_booked | delivered, only_delivered
  | cancelled, only_cancelled | pending_payment, only_pending_payment
  | pending_approval, only_pending_approval | released, only_released => true
  | _, _ => false
  end.

Section Local.
(** Offset of local time from UTC, in milliseconds. *)
Variable tz : Z.

(** [new Date(year, month, date)] on integers, local midnight of that day:
    years 0 to 99 stand for 1900 to 1999. *)
Definition newDateZ (year month date : Z) : JSDate.t :=
  let yr := if (0 <=? year) && (year <=? 99) then 1900 + year else year in
  TimeClip (JSDate.UTC tz (MakeDay yr month date * JSDate.msPerDay)).

(** [new Date(year, month, date)] on numbers. *)
Definition newDate (year month date : Num) : JSDate.t :=
  match year, month, date with
  | Fin y, Fin m, Fin d => newDateZ (trunc y) (trunc m) (trunc d)
  | _, _, _ => None
  end.

(** [d.getDate()] and [d.getDay()] of a valid date. *)
Definition getDate (tv : Z) : Z := dateFromDays (JSDate.Day (JSDate.LocalTime tz tv)).
Definition getDay (tv : Z) : Z := (JSDate.Day (JSDate.LocalTime tz tv) + 4) mod 7.

Definition startOfMonth (y m : Z) : JSDate.t := newDateZ y m 1.
Definition endOfMonth (y m : Z) : JSDate.t := newDateZ y (m + 1) 0.

(** [monthDays] (and [miniMonthDays], which has the same body): a blank
    cell for each weekday before the first of the month, then a cell for
    each day.  On an invalid date [getDay] and [getDate] give [NaN] and
    the loops do not run. *)
Definition monthDays (current : Current) : list (option JSDate.t) :=
  let first := startOfMonth (y current) (m current) in
  let last := endOfMonth (y current) (m current) in
  let startWeekday := getDay <$> first in
  let total := getDate <$> last in
  List.repeat None (Z.to_nat (default 0 startWeekday))
  ++ List.map (fun d => Some (newDateZ (y current) (m current) d))
       (seqZ 1 (default 0 total)).

Definition miniMonthDays (current : Current) : list (option JSDate.t) :=
  monthDays current.

Section Host.
(** [Number(s)]. *)
Variable toNumber : string -> Num.
(** [s.trim()]. *)
Variable trim : string -> string.

(** [toLocalDate]: [None] is [null]. *)
Definition toLocalDate (s : option string) : option JSDate.t :=
  match JS.truthyStr s with
  | None => None
  | Some s =>
      let parts := List.map toNumber (splitOn "-"%char s) in
      let y := parts !! 0%nat in
      let m := parts !! 1%nat in
      let d := parts !! 2%nat in
      if negb (truthyNum y) || negb (truthyNum m) || negb (truthyNum d)
      then None
      else match y, m, d with
           | Some y, Some m, Some d => Some (newDate y (pred m) d)
           | _, _, _ => None
           end
  end.

(** The predicate of [filteredEvents]. *)
Definition shown (filterMonth filterYear : Z) (filterStatus : StatusFilter)
  (filterPhone : string) (ev : CalendarEvent) : bool :=
  match toLocalDate (AdminCalendar.eventDate (item ev)) with
  | None => false
  | Some d =>
      let monthMatch :=
        match d with
        | Some tv => JSDate.getMonth tz tv =? filterMonth
        | None => false
        end in
      let yearMatch :=
        match d with
        | Some tv => JSDate.getFullYear tz tv =? filterYear
        | None => false
        end in
      let statusMatch :=
        match filterStatus with
        | all => true
        | _ => sameStatus (statusOf ev) filterStatus
        end in
      let phoneMatch :=
        match trim filterPhone with
        | EmptyString => true
        | String _ _ =>
            let phoneSource :=
              default EmptyString (JS.orStr (phone ev) (snapshotPhone ev)) in
            includes (JS.keepDigits phoneSource) (JS.keepDigits filterPhone)
        end in
      monthMatch && yearMatch && statusMatch && phoneMatch
  end.

Definition filteredEvents (filterMonth filterYear : Z)
  (filterStatus : StatusFilter) (filterPhone : string)
  (events : list CalendarEvent) : list CalendarEvent :=
  List.filter (shown filterMonth filterYear filterStatus filterPhone) events.

End Host.
End Local.

(** *** Loading and deleting contracts *)

(** A line of [services] or of [formSnapshot.cartItems]. *)
Record Line := {
  line : ServiceLine;
  name : option string;
  duration : option string;
  type : option string
}.

(** [formSnapshot]: its entries that hold strings, by key, and
    [cartItems] when it is an array. *)
Record FormSnapshot := {
  entries : gmap string string;
  snapshotCartItems : option (list Line)
}.

(** A document of the [contracts] collection, with its id. *)
Record ContractDoc := {
  c_id : string;
  c_clientName : option string;
  c_eventDate : option string;
  c_eventTime : option string;
  c_eventLocation : option string;
  c_packageDuration : option string;
  c_eventType : option string;
  c_depositPaid : option bool;
  c_finalPaymentPaid : option bool;
  c_eventCompleted : option bool;
  c_status : option Status;
  c_phone : option string;
  c_totalAmount : option Q;
  c_travelFee : option Q;
  c_storeItems : option (list StoreItem);
  c_services : option (list Line);
  c_formSnapshot : option FormSnapshot
}.

(** An entry of [events]. *)
Record Row := {
  event : CalendarEvent;
  eventLocation : option string;
  packageDuration : option string;
  eventType : option string
}.

(** The document as an entry of [events], [c as ContractItem]. *)
Definition rowOf (c : ContractDoc) : Row :=
  {| event :=
       {| item :=
            {| AdminCalendar.id := c_id c;
               AdminCalendar.clientName := c_clientName c;
               AdminCalendar.eventDate := c_eventDate c;
               AdminCalendar.eventTime := c_eventTime c;
               AdminCalendar.depositPaid := c_depositPaid c;
               AdminCalendar.finalPaymentPaid := c_finalPaymentPaid c;
               AdminCalendar.eventCompleted := c_eventCompleted c;
               AdminCalendar.totalAmount := c_totalAmount c;
               AdminCalendar.travelFee := c_travelFee c;
               AdminCalendar.storeItems := c_storeItems c;
               AdminCalendar.services := List.map line <$> c_services c;
               AdminCalendar.cartItems :=
                 List.map line <$> (c_formSnapshot c ≫= snapshotCartItems) |};
          status := c_status c;
          phone := c_phone c;
          snapshotPhone := c_formSnapshot c ≫= fun fs => entries fs !! "phone"%string |};
     eventLocation := c_eventLocation c;
     packageDuration := c_packageDuration c;
     eventType := c_eventType c |}.

(** [`${index}`]. *)
Definition indexString (index : nat) : string :=
  NilEmpty.string_of_uint (Nat.to_uint index).

(** [String(a || b || '')]. *)
Definition firstOf (a b : option string) : string :=
  default EmptyString (JS.orStr a b).

(** The entry made for the service line [it] at position [index]. *)
Definition lineRow (c : ContractDoc) (index : nat) (it : Line) : Row :=
  let fs := default ∅ (entries <$> c_formSnapshot c) in
  let key (field : string) := (field ++ "_" ++ indexString index)%string in
  let evDate := firstOf (fs !! key "date"%string) (c_eventDate c) in
  let evTime := firstOf (fs !! key "time"%string) (c_eventTime c) in
  let evLoc := firstOf (fs !! key "eventLocation"%string) (c_eventLocation c) in
  let duration := firstOf (duration it) (c_packageDuration c) in
  let evType := firstOf (type it) (c_eventType c) in
  let base := rowOf c in
  {| event :=
       {| item :=
            {| AdminCalendar.id := (c_id c ++ "__" ++ indexString index)%string;
               AdminCalendar.clientName :=
                 Some (default "undefined"%string (c_clientName c)
                       ++ match JS.truthyStr (name it) with
                          | Some n => " — " ++ n
                          | None => EmptyString
                          end)%string;
               AdminCalendar.eventDate := Some evDate;
               AdminCalendar.eventTime := Some evTime;
               AdminCalendar.depositPaid := c_depositPaid c;
               AdminCalendar.finalPaymentPaid := c_finalPaymentPaid c;
               AdminCalendar.eventCompleted := c_eventCompleted c;
               AdminCalendar.totalAmount := c_totalAmount c;
               AdminCalendar.travelFee := c_travelFee c;
               AdminCalendar.storeItems := c_storeItems c;
               AdminCalendar.services := AdminCalendar.services (item (event base));
               AdminCalendar.cartItems := AdminCalendar.cartItems (item (event base)) |};
          status := c_status c;
          phone := c_phone c;
          snapshotPhone := snapshotPhone (event base) |};
     eventLocation := Some evLoc;
     packageDuration := Some duration;
     eventType := Some evType |}.

(** The body of the [flatMap] of [load]: one entry per service line, or
    the document itself when it has none. *)
Definition expand (c : ContractDoc) : list Row :=
  let svc :=
    match c_services c with
    | Some (x :: l) => x :: l
    | _ => default [] (c_formSnapshot c ≫= snapshotCartItems)
    end in
  match svc with
  | [] => [rowOf c]
  | _ :: _ => imap (lineRow c) svc
  end.

(** [load], from the documents the query returns, in its order. *)
Definition load (docs : list ContractDoc) : list Row :=
  docs ≫= expand.

(** [ev.id]. *)
Definition rowId (r : Row) : string := AdminCalendar.id (item (event r)).

(** The state update of [deleteHandler] (the handler of
    [contractDeleted]), [contractId] being [e?.detail?.contractId]: the
    entries whose base id is the contract id are dropped. *)
Definition deleteHandler (contractId : option string) (events : list Row)
  : list Row :=
  List.filter
    (fun ev =>
       let baseId := baseIdOf (rowId ev) in
       match contractId with
       | Some i => negb (String.eqb baseId i)
       | None => true
       end)
    events.

(** [deleteEvent] on the [contracts] collection (by id) and [events];
    [confirmed] is the answer to the confirmation dialog. *)
Definition deleteEvent (confirmed : bool) (ev : Row)
  (st : gmap string ContractDoc * list Row) : gmap string ContractDoc * list Row :=
  if negb confirmed then st
  else
    let baseId :=
      match baseIdOf (rowId ev) with
      | EmptyString => rowId ev
      | s => s
      end in
    (delete baseId (fst st),
     List.filter (fun e => negb (String.eqb (baseIdOf (rowId e)) baseId)) (snd st)).

End CalendarView.

(** ** Further definitions on the side of the properties *)

(** Amounts on which the arithmetic of the code is exact.  The code
    computes in binary64; on whole numbers whose magnitudes add up to at
    most 2^53 every sum, difference and product it forms is a whole
    number of magnitude at most 2^53 again, hence computed without
    rounding, and equal to the exact result. *)
Module Exact.

(** A whole number. *)
Definition whole (q : Q) : bool := Qeq_bool q (inject_Z (Qfloor q)).

Definition limit : Q := inject_Z (2 ^ 53).

(** Sum of the magnitudes of a list of numbers. *)
Definition magnitude (l : list Q) : Q :=
  fold_right (fun q acc => (Qabs q + acc)%Q) 0%Q l.

(** Whole numbers whose magnitudes add up to at most [limit]. *)
Definition exact (l : list Q) : bool :=
  forallb whole l && Qle_bool (magnitude l) limit.

End Exact.

Module AmountSpec.

(** The numbers the derivation of the amounts works on: quantities,
    prices and their products, the travel fee and the stored total. *)
Definition numbersOf (lines : list ServiceLine)
  (storeItems : option (list StoreItem)) (travelFee totalAmount : option Q)
  : list Q :=
  flat_map (fun it => [JS.priceNumber (svc_price it);
                       JS.nullish (svc_quantity it) 1;
                       JS.priceNumber (svc_price it)
                       * JS.nullish (svc_quantity it) 1]%Q) lines
  ++ flat_map (fun it => [item_price it;
                          JS.orNum (item_quantity it) 1;
                          item_price it * JS.orNum (item_quantity it) 1]%Q)
       (default [] storeItems)
  ++ [JS.orNum travelFee 0; JS.orNum totalAmount 0].

End AmountSpec.

Module DashboardSpec.
Import FinancialDashboard.

(** The amounts the dashboard adds up: the derived totals of the
    contracts and the amounts of the installments. *)
Definition amountsOf (contracts : list Contract) (insts : list Installment)
  : list Q :=
  List.map (fun c => inject_Z (a_total (contractAmounts c))) contracts
  ++ List.map (fun inst => JS.orNum (amount inst) 0) insts.

(** Sum of an integer column and of a rational column of the monthly
    table. *)
Definition sumZ (f : MonthRow -> Z) (rows : list MonthRow) : Z :=
  fold_right Z.add 0 (List.map f rows).

Definition sumQ (f : MonthRow -> Q) (rows : list MonthRow) : Q :=
  fold_right Qplus 0%Q (List.map f rows).

(** The name a contract is filed under in the ranking of clients. *)
Definition clientOf (c : Contract) : string :=
  match JS.truthyStr (clientName c) with
  | Some n => n
  | None => "Cliente"%string
  end.

(** A contract without a usable date: the three date fields are missing
    or empty, or the first non-empty one denotes no date. *)
Definition undated (newDate : string -> JSDate.t) (c : Contract) : Prop :=
  effectiveDateStr c = EmptyString \/ newDate (effectiveDateStr c) = None.

(** The time value of the due date of an invoice. *)
Definition dueTime (newDate : string -> JSDate.t) (i : Invoice) : JSDate.t :=
  newDate (inv_dueDate i).

(** The amount an installment adds to the expenses. *)
Definition installmentAmount (inst : Installment) : Q :=
  JS.orNum (amount inst) 0.

(** Whether an installment is counted under a period. *)
Definition installmentCounts (newDate : string -> JSDate.t) (tz now : Z)
  (period : Period) (inst : Installment) : bool :=
  match JS.truthyStr (dueDate inst) with
  | Some s => isInPeriod newDate tz now period (Some s)
  | None => false
  end.

Definition sumInstallments (insts : list Installment) : Q :=
  fold_right Qplus 0%Q (List.map installmentAmount insts).

(** Row [r'] is row [r] with its columns raised by the given amounts,
    the profit following earned less expenses. *)
Definition bumped (r r' : MonthRow) (dIncome dEarned dForecast : Z)
  (dExpenses : Q) : Prop :=
  key r' = key r /\ month r' = month r
  /\ income r' = income r + dIncome
  /\ earned r' = earned r + dEarned
  /\ forecast r' = forecast r + dForecast
  /\ (expenses r' == expenses r + dExpenses)%Q
  /\ (profit r' == profit r + inject_Z dEarned - dExpenses)%Q.

(** A well-formed monthly table: row [i] is keyed and labelled by [i], and
    its profit is what was earned less the expenses. *)
Definition tableOk (monthLabel : Z -> string) (rows : list MonthRow) : Prop :=
  forall (i : nat) (r : MonthRow),
    rows !! i = Some r ->
    key r = Z.of_nat i /\ month r = monthLabel (Z.of_nat i)
    /\ (profit r == inject_Z (earned r) - expenses r)%Q.

(** The contracts of a client, and what they add up to. *)
Definition totalOfClient (n : string) (cs : list Contract) : Z :=
  SpecSide.sumTotals (List.filter (fun c => String.eqb (clientOf c) n) cs).

(** A map from client to total that accounts for the contracts [cs]: one
    entry per client of [cs], holding the sum of that client's totals. *)
Definition clientMapFor (m : list (string * Z)) (cs : list Contract) : Prop :=
  List.NoDup (List.map fst m)
  /\ (forall n v, In (n, v) m ->
        v = totalOfClient n cs /\ exists c, In c cs /\ clientOf c = n)
  /\ (forall c, In c cs -> In (clientOf c) (List.map fst m)).

End DashboardSpec.

Module CalendarSpec.

(** A string without a colon. *)
Fixpoint noColon (s : string) : bool :=
  match s with
  | EmptyString => true
  | String c r => negb (Ascii.eqb c ":"%char) && noColon r
  end.

(** The day an event is filed under, when it has one. *)
Definition dayOf (ev : AdminCalendar.ContractItem) : option string :=
  JS.truthyStr (AdminCalendar.eventDate ev).

(** Months counted from year 0. *)
Definition monthIndex (c : CalendarView.Current) : Z :=
  CalendarView.y c * 12 + CalendarView.m c.

(** An id in which every underscore is followed by another character
    that is not an underscore: it holds no double underscore and does not
    end in one. *)
Fixpoint plainId (s : string) : bool :=
  match s with
  | EmptyString => true
  | String c r =>
      if Ascii.eqb c "_"%char
      then match r with
           | EmptyString => false
           | String _ _ => negb (CalendarView.underscoreFirst r) && plainId r
           end
      else plainId r
  end.

(** The service lines [load] expands a document by. *)
Definition linesOf (c : CalendarView.ContractDoc) : list CalendarView.Line :=
  match CalendarView.c_services c with
  | Some (x :: l) => x :: l
  | _ => default [] (CalendarView.c_formSnapshot c ≫= CalendarView.snapshotCartItems)
  end.

(** The documents other than the one of id [i]. *)
Definition without (i : string) (docs : list CalendarView.ContractDoc)
  : list CalendarView.ContractDoc :=
  List.filter (fun c => negb (String.eqb (CalendarView.c_id c) i)) docs.

(** The month after [(y, m)], months counted 1..12. *)
Definition monthAfter (y m : Z) : Z * Z :=
  if m =? 12 then (y + 1, 1) else (y, m + 1).

(** The cells of a month grid that hold no date. *)
Definition blankCells (cells : list (option JSDate.t)) : nat :=
  length (List.filter (fun c => match c with None => true | Some _ => false end) cells).

(** The grid cell of day [d] of month [m] (0..11) of year [y]: local
    midnight of that day. *)
Definition dayCell (tz y m d : Z) : option JSDate.t :=
  Some (Some (JSDate.UTC tz (JSDate.daysFromCivil y (m + 1) d * JSDate.msPerDay))).

(** A string without a dash. *)
Fixpoint noDash (s : string) : bool :=
  match s with
  | EmptyString => true
  | String c r => negb (Ascii.eqb c "-"%char) && noDash r
  end.

(** The status filters that no derived status can meet. *)
Definition storedOnly (f : CalendarView.StatusFilter) : bool :=
  match f with
  | CalendarView.only_pending | CalendarView.only_cancelled
  | CalendarView.only_pending_approval | CalendarView.only_released => true
  | _ => false
  end.

End CalendarSpec.

(** ** BudgetPlanner, income and the envelope cards *)

Module BudgetView.
Import BudgetPlanner.

(** [handleAddIncome].  [amountInput] is [Number(incomeAmount)], [None]
    when the field is empty or not a number; [newId] is the id the store
    gives the new transaction; [nowIsoDay] and [nowIso] are the current
    day and instant in ISO form. *)
Definition handleAddIncome (amountInput : option Q)
  (newId nowIsoDay nowIso : string) (st : State) : State :=
  match amountInput with
  | Some amt =>
      if Qle_bool amt 0 then st
      else
        let d1 :=
          addTransaction newId
            {| d_date := nowIsoDay;
               d_description := "Ingreso"%string;
               d_category := "Ingresos"%string;
               d_type := income;
               d_amount := amt;
               d_envelopeId := None;
               d_timestamp := Some nowIso |} (db st) in
        {| db := d1; budgetData := loadBudgetData d1 |}
  | None => st
  end.

(** [progressPercent] of an envelope card. *)
Definition progressPercent (envelope : Envelope) : Q :=
  if JS.gtb (allocated envelope) 0
  then (spent envelope / allocated envelope * 100)%Q
  else 0%Q.

Definition getProgressColor (percentage : Q) : string :=
  if JS.gtb 50 percentage then "bg-green-500"
  else if JS.gtb 80 percentage then "bg-yellow-500"
  else "bg-red-500".

(** Width of the bar in percent, [Math.min(progressPercent, 100)]. *)
Definition barWidth (envelope : Envelope) : Q :=
  Qmin (progressPercent envelope) 100.

End BudgetView.

Module BudgetSpec.
Import BudgetPlanner.

(** The view is the one loaded from the store. *)
Definition upToDate (st : State) : Prop :=
  budgetData st = loadBudgetData (db st).

(** The numbers the totals of the view are made of: what the envelopes
    of the store have spent and allocated, and the amounts of its
    transactions. *)
Definition numbersOf (d : Db) : list Q :=
  List.map (fun kv => JS.orNum (d_spent (snd kv)) 0)
    (map_to_list (budget_envelopes d))
  ++ List.map (fun kv => JS.orNum (d_allocated (snd kv)) 0)
       (map_to_list (budget_envelopes d))
  ++ List.map (fun kv => d_amount (snd kv))
       (map_to_list (budget_transactions d)).

End BudgetSpec.

(** ** Concrete ledgers *)

Module BudgetExamples.
Import BudgetPlanner.

(** The scenario's envelope (600 spent) with an expense of 700 on
    record, the view up to date. *)
Definition overspent : State :=
  let d :=
    {| budget_envelopes := budget_envelopes (db Examples.scenarioLedger);
       budget_transactions :=
         {[ "tx1"%string :=
              {| d_date := "2024-06-15"; d_description := "Lente";
                 d_category := "Equipo"; d_type := expense;
                 d_amount := 700%Q; d_envelopeId := Some "env1"%string;
                 d_timestamp := None |} ]} |} in
  {| db := d; budgetData := loadBudgetData d |}.

(** The same view over a store that has lost the envelope. *)
Definition stale : State :=
  {| db := {| budget_envelopes := ∅;
              budget_transactions := budget_transactions (db overspent) |};
     budgetData := budgetData overspent |}.

End BudgetExamples.

(** ** Concrete binary64 ledgers *)

Module Budget64Examples.
Import PrimFloat BudgetPlanner64.

(** Queries that list the documents in the order of the map. *)
Definition envelopesInOrder (m : gmap string EnvelopeDoc)
  : list (string * EnvelopeDoc) := map_to_list m.

Definition transactionsInOrder (m : gmap string TransactionDoc)
  : list (string * TransactionDoc) := map_to_list m.

(** A store with one envelope, 1000 allocated and [s] spent, and no
    transaction; the view up to date. *)
Definition storeWith (s : float) : Db :=
  {| budget_envelopes :=
       {[ "env1"%string :=
            {| d_name := Some "Equipo"%string; d_percentage := Some 10%float;
               d_allocated := Some 1000%float; d_spent := Some s |} ]};
     budget_transactions := ∅ |}.

Definition ledgerWith (s : float) : State :=
  {| db := storeWith s;
     budgetData := loadBudgetData envelopesInOrder transactionsInOrder (storeWith s) |}.

Definition envelopeWith (s : float) : Envelope :=
  {| id := "env1"; name := "Equipo"; percentage := 10; allocated := 1000;
     spent := s; available := (1000 - s)%float |}.

(** A view that shows 600 spent over a store that holds 700. *)
Definition staleLedger : State :=
  {| db := storeWith 700; budgetData := budgetData (ledgerWith 600) |}.

(** The expense of [amt] added and then deleted. *)
Definition addThenDelete (amt : float) (st : State) : State :=
  handleDeleteTransaction envelopesInOrder transactionsInOrder true "tx1"
    (handleAddExpense envelopesInOrder transactionsInOrder (Some "env1"%string) (Some amt)
       "Lente" "tx1" "2024-06-15" "2024-06-15T12:00:00.000Z" st).

End Budget64Examples.

(** ** Concrete records for the calendar view *)

Module ViewExamples.
Import CalendarView.

(** A contract with id, client, date, status, phone and service lines. *)
Definition contract (i client day : string) (st : option Status)
  (tel : option string) (svc : option (list Line)) : ContractDoc :=
  {| c_id := i; c_clientName := Some client; c_eventDate := Some day;
     c_eventTime := None; c_eventLocation := None; c_packageDuration := None;
     c_eventType := None; c_depositPaid := Some true;
     c_finalPaymentPaid := None; c_eventCompleted := None;
     c_status := st; c_phone := tel; c_totalAmount := None;
     c_travelFee := None; c_storeItems := None; c_services := svc;
     c_formSnapshot := None |}.

Definition serviceLine (n price : string) : Line :=
  {| line := {| svc_price := Some price; svc_quantity := Some 1%Q |};
     name := Some n; duration := None; type := None |}.

(** A wedding with two service lines, and a session with none. *)
Definition wedding : ContractDoc :=
  contract "abc" "Ana" "2024-06-15" None (Some "(11) 98765-4321"%string)
    (Some [serviceLine "Fotos" "R$ 500"; serviceLine "Video" "R$ 900"]).

Definition session : ContractDoc :=
  contract "x_y" "Bea" "2024-06-31" (Some cancelled) None None.

Definition bothContracts : list ContractDoc := [wedding; session].

(** The [contracts] collection holding the two. *)
Definition contractStore : gmap string ContractDoc :=
  {[ "abc"%string := wedding; "x_y"%string := session ]}.

(** The second row of the wedding. *)
Definition videoRow : Row := lineRow wedding 1 (serviceLine "Video" "R$ 900").

(** February 2024 on display. *)
Definition february2024 : Current := {| y := 2024; m := 1 |}.

(** [Number] on strings of decimal digits; this instance takes every
    other string as not numeric. *)
Definition numberOf (s : string) : Num :=
  match Examples.decimalNumber s with
  | Some q => Fin q
  | None => NaN
  end.

Fixpoint dropSpaces (cs : list ascii) : list ascii :=
  match cs with
  | " "%char :: r => dropSpaces r
  | _ => cs
  end.

(** [trim] for texts whose only white space is the space character. *)
Definition trimSpaces (s : string) : string :=
  string_of_list_ascii
    (rev (dropSpaces (rev (dropSpaces (list_ascii_of_string s))))).

(** An event whose date text has no dash. *)
Definition undatedEvent : CalendarEvent :=
  {| item :=
       {| AdminCalendar.id := "u"; AdminCalendar.clientName := None;
          AdminCalendar.eventDate := Some "20240615"%string;
          AdminCalendar.eventTime := None; AdminCalendar.depositPaid := None;
          AdminCalendar.finalPaymentPaid := None;
          AdminCalendar.eventCompleted := None;
          AdminCalendar.totalAmount := None; AdminCalendar.travelFee := None;
          AdminCalendar.storeItems := None; AdminCalendar.services := None;
          AdminCalendar.cartItems := None |};
     status := None; phone := None; snapshotPhone := None |}.

End ViewExamples.

(** * Properties *)

(** ** Numbers *)

Section NumberFacts.
Local Open Scope Q_scope.

Lemma gtb_true (x y : Q) : JS.gtb x y = true <-> y < x.
Proof.
  unfold JS.gtb. rewrite negb_true_iff.
  destruct (Qle_bool x y) eqn:E.
  - apply Qle_bool_iff in E. split; [discriminate | intros H; lra].
  - split; [intros _ | reflexivity].
    destruct (Qlt_le_dec y x) as [H | H]; [exact H |].
    apply Qle_bool_iff in H. congruence.
Qed.

Lemma gtb_false (x y : Q) : JS.gtb x y = false <-> x <= y.
Proof.
  unfold JS.gtb. rewrite negb_false_iff. apply Qle_bool_iff.
Qed.

Lemma max0_nonneg (x : Q) : 0 <= JS.max0 x.
Proof. unfold JS.max0. apply Q.le_max_l. Qed.

Lemma max0_ge (x : Q) : x <= JS.max0 x.
Proof. unfold JS.max0. apply Q.le_max_r. Qed.

Lemma round_nonneg (x : Q) : 0 <= x -> (0 <= JS.round x)%Z.
Proof.
  intros H. unfold JS.round.
  change 0%Z with (Qfloor 0). apply Qfloor_resp_le. lra.
Qed.

Lemma round_inject (n : Z) : JS.round (inject_Z n) = n.
Proof.
  unfold JS.round.
  assert (L : (n <= Qfloor (inject_Z n + (1 # 2)))%Z).
  { rewrite <- (Qfloor_Z n) at 1. apply Qfloor_resp_le. lra. }
  assert (U : (Qfloor (inject_Z n + (1 # 2)) < n + 1)%Z).
  { rewrite Zlt_Qlt. eapply Qle_lt_trans; [apply Qfloor_le |].
    rewrite inject_Z_plus. change (inject_Z 1) with 1. lra. }
  lia.
Qed.

Lemma inject_Z_sub (a b : Z) : inject_Z a - inject_Z b == inject_Z (a - b).
Proof.
  unfold Z.sub. rewrite inject_Z_plus, inject_Z_opp. reflexivity.
Qed.

Lemma servicesEstimate_nonneg (raw doc store travel : Q) :
  0 <= servicesEstimate raw doc store travel.
Proof.
  unfold servicesEstimate. destruct (JS.gtb raw 0) eqn:E.
  - apply gtb_true in E. lra.
  - apply max0_nonneg.
Qed.

Lemma servicesEstimate_raw (raw doc store travel : Q) :
  0 < raw -> servicesEstimate raw doc store travel = raw.
Proof.
  intros H. unfold servicesEstimate.
  apply gtb_true in H. now rewrite H.
Qed.

End NumberFacts.

(** ** Amount Deriver *)

Module AmountProps.
Import AdminCalendar.

Example scenarioServices_amounts :
  let r := computeAmounts Examples.scenarioServices in
  (Calc.servicesTotal r == 1000)%Q /\ (Calc.travel r == 100)%Q
  /\ Calc.totalAmount r = 1100 /\ Calc.depositAmount r = 200
  /\ Calc.remainingAmount r = 900.
Proof. vm_compute. repeat split; intros; discriminate. Qed.

Example scenarioStore_amounts :
  let r := computeAmounts Examples.scenarioStore in
  (Calc.storeTotal r == 100)%Q /\ (Calc.servicesTotal r == 0)%Q
  /\ Calc.totalAmount r = 100 /\ Calc.depositAmount r = 50
  /\ Calc.remainingAmount r = 50.
Proof. vm_compute. repeat split; intros; discriminate. Qed.

Lemma computeAmounts_services_nonneg (c : ContractItem) :
  (0 <= Calc.servicesTotal (computeAmounts c))%Q.
Proof. apply servicesEstimate_nonneg. Qed.

(** The calendar and the dashboard derive the same total from the same
    fields. *)
Lemma totals_agree (c : ContractItem) (d : FinancialDashboard.Contract) :
  services c = FinancialDashboard.services d ->
  cartItems c = FinancialDashboard.cartItems d ->
  storeItems c = FinancialDashboard.storeItems d ->
  travelFee c = FinancialDashboard.travelFee d ->
  totalAmount c = FinancialDashboard.totalAmount d ->
  Calc.totalAmount (computeAmounts c)
  = FinancialDashboard.a_total (FinancialDashboard.contractAmounts d).
Proof.
  intros Hs Hc Hi Ht Ha. unfold computeAmounts, FinancialDashboard.contractAmounts.
  cbn [Calc.totalAmount FinancialDashboard.a_total].
  now rewrite Hs, Hc, Hi, Ht, Ha.
Qed.

Lemma deposit_cases (c : ContractItem) :
  let r := computeAmounts c in
  Calc.depositAmount r =
    if Qeq_bool (Calc.servicesTotal r) 0 && JS.gtb (Calc.storeTotal r) 0
    then JS.ceil ((Calc.storeTotal r + Calc.travel r) * (1 # 2))%Q
    else JS.ceil (Calc.servicesTotal r * (2 # 10) + Calc.storeTotal r * (1 # 2))%Q.
Proof.
  intros r. pose proof (computeAmounts_services_nonneg c) as Hs. fold r in Hs.
  subst r. unfold computeAmounts in *.
  cbn [Calc.depositAmount Calc.servicesTotal Calc.storeTotal Calc.travel] in *.
  set (s := servicesEstimate _ _ _ _) in *.
  assert (E : Qle_bool s 0 = Qeq_bool s 0).
  { destruct (Qeq_bool s 0) eqn:Eq.
    - apply Qeq_bool_iff in Eq. apply Qle_bool_iff. lra.
    - destruct (Qle_bool s 0) eqn:Le; [| reflexivity].
      apply Qle_bool_iff in Le. apply Qeq_bool_neq in Eq.
      exfalso. apply Eq. lra. }
  now rewrite E.
Qed.

(** Without a travel fee the deposit is what the specification writes. *)
Lemma deposit_formula_no_travel (c : ContractItem) :
  let r := computeAmounts c in
  (Calc.travel r == 0)%Q ->
  Calc.depositAmount r =
    if Qeq_bool (Calc.servicesTotal r) 0
    then JS.ceil (Calc.storeTotal r * (1 # 2))%Q
    else JS.ceil (Calc.servicesTotal r * (2 # 10) + Calc.storeTotal r * (1 # 2))%Q.
Proof.
  intros r Ht. pose proof (deposit_cases c) as D. cbv zeta in D.
  fold r in D. rewrite D.
  destruct (Qeq_bool (Calc.servicesTotal r) 0) eqn:E; [| reflexivity].
  apply Qeq_bool_iff in E. cbn [andb].
  destruct (JS.gtb (Calc.storeTotal r) 0); unfold JS.ceil;
    apply Qceiling_comp; lra.
Qed.



(** C2, as the code has it: the derived total is not negative when store
    total plus travel fee is not negative, in the calendar and in the
    dashboard. *)
Theorem total_nonneg (c : ContractItem) (d : FinancialDashboard.Contract) :
  (0 <= Calc.storeTotal (computeAmounts c) + Calc.travel (computeAmounts c))%Q ->
  (0 <= FinancialDashboard.a_storeTotal (FinancialDashboard.contractAmounts d)
        + FinancialDashboard.a_travel (FinancialDashboard.contractAmounts d))%Q ->
  0 <= Calc.totalAmount (computeAmounts c)
  /\ 0 <= FinancialDashboard.a_total (FinancialDashboard.contractAmounts d).
Proof.
  unfold computeAmounts, FinancialDashboard.contractAmounts.
  cbn [Calc.totalAmount Calc.storeTotal Calc.travel FinancialDashboard.a_total
       FinancialDashboard.a_storeTotal FinancialDashboard.a_travel].
  intros Hc Hd. split; apply round_nonneg.
  - match goal with |- context [servicesEstimate ?a ?b ?x ?y] =>
      pose proof (servicesEstimate_nonneg a b x y) end. lra.
  - match goal with |- context [servicesEstimate ?a ?b ?x ?y] =>
      pose proof (servicesEstimate_nonneg a b x y) end. lra.
Qed.

Lemma total_nonneg_witness :
  0 <= Calc.totalAmount (computeAmounts Examples.scenarioServices)
  /\ 0 <= FinancialDashboard.a_total
            (FinancialDashboard.contractAmounts (Examples.freeLine 100)).
Proof.
  apply (total_nonneg Examples.scenarioServices (Examples.freeLine 100));
    vm_compute; discriminate.
Defined.

(** C2 fails as stated: one service line of 10 with a travel fee of -100
    gives the total -90, in the dashboard and in the calendar. *)
Lemma total_nonneg_counterexample :
  FinancialDashboard.a_total
    (FinancialDashboard.contractAmounts Examples.negativeTravel) = -90
  /\ Calc.totalAmount (computeAmounts Examples.negativeTravelEvent) = -90
  /\ ~ 0 <= FinancialDashboard.a_total
             (FinancialDashboard.contractAmounts Examples.negativeTravel).
Proof. vm_compute. repeat split; intros H; apply H; reflexivity. Qed.

Lemma remaining_eq (c : ContractItem) :
  let r := computeAmounts c in
  Calc.remainingAmount r = Z.max 0 (Calc.totalAmount r - Calc.depositAmount r).
Proof.
  unfold computeAmounts. cbn [Calc.remainingAmount Calc.totalAmount Calc.depositAmount].
  f_equal. unfold JS.round.
  erewrite Qfloor_comp.
  2:{ rewrite inject_Z_sub. reflexivity. }
  apply round_inject.
Qed.

(** C3, as the code has it: deposit plus remaining amount is the derived
    total exactly when the deposit does not exceed the total; the
    remaining amount is never negative. *)
Theorem deposit_plus_remaining (c : ContractItem) :
  let r := computeAmounts c in
  (Calc.depositAmount r + Calc.remainingAmount r = Calc.totalAmount r
   <-> Calc.depositAmount r <= Calc.totalAmount r)
  /\ 0 <= Calc.remainingAmount r.
Proof.
  intros r. subst r. rewrite (remaining_eq c). lia.
Qed.

(** C3 fails as stated: one store item of 0.25 gives total 0, deposit 1
    and remaining amount 0. *)
Lemma deposit_plus_remaining_counterexample :
  let r := computeAmounts Examples.quarterItem in
  0 <= Calc.totalAmount r
  /\ Calc.depositAmount r = 1 /\ Calc.remainingAmount r = 0
  /\ Calc.totalAmount r = 0
  /\ Calc.depositAmount r + Calc.remainingAmount r <> Calc.totalAmount r.
Proof. vm_compute. repeat split; intros; discriminate. Qed.

(** C4, as the code has it: when the service lines sum to a positive
    amount, the derived total does not depend on the stored totalAmount. *)
Theorem total_independent_of_stored (c : FinancialDashboard.Contract)
  (v1 v2 : option Q) :
  (0 < servicesTotalRawOf (SpecSide.serviceLines c))%Q ->
  FinancialDashboard.a_total
    (FinancialDashboard.contractAmounts (SpecSide.withTotalAmount c v1))
  = FinancialDashboard.a_total
      (FinancialDashboard.contractAmounts (SpecSide.withTotalAmount c v2)).
Proof.
  intros H. unfold FinancialDashboard.contractAmounts, SpecSide.serviceLines in *.
  cbn. now rewrite !servicesEstimate_raw.
Qed.

Lemma total_independent_of_stored_witness :
  FinancialDashboard.a_total
    (FinancialDashboard.contractAmounts
       (SpecSide.withTotalAmount Examples.negativeTravel (Some 5%Q)))
  = FinancialDashboard.a_total
      (FinancialDashboard.contractAmounts
         (SpecSide.withTotalAmount Examples.negativeTravel None)).
Proof.
  apply (total_independent_of_stored Examples.negativeTravel (Some 5%Q) None).
  reflexivity.
Defined.

(** C4 fails as stated: a non-empty list of service lines whose price has
    no digit sums to 0, and the total then follows the stored totalAmount
    (100 against 200). *)
Lemma total_independent_of_stored_counterexample :
  SpecSide.serviceLines (Examples.freeLine 100) <> []
  /\ Examples.freeLine 200
     = SpecSide.withTotalAmount (Examples.freeLine 100) (Some 200%Q)
  /\ FinancialDashboard.a_total
       (FinancialDashboard.contractAmounts (Examples.freeLine 100)) = 100
  /\ FinancialDashboard.a_total
       (FinancialDashboard.contractAmounts (Examples.freeLine 200)) = 200.
Proof. repeat split. discriminate. Qed.

End AmountProps.

(** ** Period Filter *)

Module PeriodProps.
Import FinancialDashboard.

Lemma setHours_end_of_day (tz e : Z) :
  JSDate.setHours tz 23 59 59 999 (Some e) = Some (SpecSide.endOfLocalDay tz e).
Proof.
  unfold JSDate.setHours, SpecSide.endOfLocalDay, JSDate.UTC, JSDate.Day,
    JSDate.LocalTime, JSDate.msPerDay.
  f_equal. pose proof (Z.div_mod (e + tz) 86400000). lia.
Qed.

(** The upper bound is at 23:59:59.999 of a local day, the one of [e]. *)
Lemma endOfLocalDay_spec (tz e : Z) :
  let u := SpecSide.endOfLocalDay tz e in
  JSDate.Day (JSDate.LocalTime tz u) = JSDate.Day (JSDate.LocalTime tz e)
  /\ (JSDate.LocalTime tz u) mod JSDate.msPerDay = 86399999
  /\ e <= u < e + JSDate.msPerDay.
Proof.
  unfold SpecSide.endOfLocalDay, JSDate.Day, JSDate.LocalTime, JSDate.msPerDay.
  cbv zeta. repeat split; Z.to_euclidean_division_equations; lia.
Qed.

Lemma isInPeriod_unparsable newDate tz now period s :
  newDate s = None -> isInPeriod newDate tz now period (Some s) = false.
Proof.
  intros H. unfold isInPeriod.
  destruct (JS.truthyStr (Some s)) as [s' |] eqn:E; [| reflexivity].
  assert (s' = s) as -> by (destruct s; cbn in E; congruence).
  now rewrite H.
Qed.

Lemma isInPeriod_custom newDate tz now start end_ dateStr :
  isInPeriod newDate tz now (Examples.customPeriod start end_) dateStr = true
  <-> SpecSide.inCustomWindow newDate tz start end_ dateStr.
Proof.
  unfold isInPeriod, SpecSide.inCustomWindow, SpecSide.lowerBound,
    SpecSide.upperBound.
  cbn [Examples.customPeriod p_type p_start p_end].
  destruct (JS.truthyStr dateStr) as [s |].
  2:{ split; [discriminate | intros (s & d & H & _); discriminate]. }
  destruct (newDate s) as [d |] eqn:Hd.
  2:{ split; [discriminate |].
      intros (s' & d & H & H' & _). congruence. }
  destruct (JS.truthyStr start) as [st |];
    destruct (JS.truthyStr end_) as [en |];
    cbn [option_map mbind option_bind fmap option_fmap];
    try destruct (newDate st) as [lo |];
    try destruct (newDate en) as [e |];
    cbn [option_map mbind option_bind fmap option_fmap JSDate.ltb JSDate.gtb];
    rewrite ?setHours_end_of_day; unfold JSDate.gtb;
    cbn [JSDate.setHours JSDate.ltb];
    repeat match goal with
           | |- context [?a <? ?b] => destruct (Z.ltb_spec a b)
           end;
    (split;
     [ intros Hcode;
       first
         [ discriminate Hcode
         | exists s, d;
           split; [reflexivity |]; split; [exact Hd |];
           split; intros b Hb; try discriminate Hb;
           injection Hb as <-; lia ]
     | intros (s' & d' & Hs & Hd' & Hlo & Hhi);
       injection Hs as <-; rewrite Hd in Hd'; injection Hd' as <-;
       try reflexivity;
       try (specialize (Hlo _ eq_refl)); try (specialize (Hhi _ eq_refl));
       lia ]).
Qed.

Lemma parse_scenario_dates :
  JSDate.parseIso "2024-01-01" = Some 1704067200000
  /\ JSDate.parseIso "2024-01-31" = Some 1706659200000
  /\ JSDate.parseIso "2024-02-01" = Some 1706745600000.
Proof. repeat split; vm_compute; reflexivity. Qed.

Lemma january2024_scenario (tz now : Z) :
  isInPeriod JSDate.parseIso tz now Examples.january2024 (Some "2024-01-31"%string)
  = true
  /\ isInPeriod JSDate.parseIso tz now Examples.january2024 (Some "2024-02-01"%string)
     = false.
Proof.
  destruct parse_scenario_dates as (P1 & P31 & P2).
  change Examples.january2024
    with (Examples.customPeriod (Some "2024-01-01"%string) (Some "2024-01-31"%string)).
  split.
  - apply isInPeriod_custom.
    exists "2024-01-31"%string, 1706659200000.
    split; [reflexivity |]. split; [exact P31 |].
    unfold SpecSide.lowerBound, SpecSide.upperBound.
    cbn [JS.truthyStr mbind option_bind]. rewrite P1, P31.
    cbn [fmap option_fmap option_map].
    split; intros b Hb; injection Hb as <-; [lia |].
    apply (endOfLocalDay_spec tz 1706659200000).
  - apply not_true_is_false. intros H. apply isInPeriod_custom in H.
    destruct H as (s & d & Hs & Hd & _ & Hhi).
    injection Hs as <-. rewrite P2 in Hd. injection Hd as <-.
    unfold SpecSide.upperBound in Hhi.
    cbn [JS.truthyStr mbind option_bind] in Hhi. rewrite P31 in Hhi.
    specialize (Hhi _ eq_refl).
    pose proof (endOfLocalDay_spec tz 1706659200000) as (_ & _ & _ & U).
    unfold JSDate.msPerDay in U. lia.
Qed.

Lemma length_list_ascii (s : string) :
  length (list_ascii_of_string s) = String.length s.
Proof. induction s as [| a s IH]; cbn; [reflexivity | now rewrite IH]. Qed.

(** A bound given as a day, [YYYY-MM-DD], is that day at 00:00 UTC. *)
Lemma parseIso_day_start (s : string) (tv : Z) :
  String.length s = 10%nat -> JSDate.parseIso s = Some tv ->
  tv mod JSDate.msPerDay = 0.
Proof.
  intros L. unfold JSDate.parseIso.
  rewrite <- length_list_ascii in L.
  rewrite (skipn_all2 (list_ascii_of_string s)) by lia.
  destruct (JSDate.parseYMD _) as [day |]; [| discriminate].
  intros H. injection H as <-. apply Z_mod_mult.
Qed.

(** Where the upper bound of the filter falls for an end bound given as
    a day: at or east of UTC it is 23:59:59.999 local time of that day,
    west of UTC it is 23:59:59.999 local time of the day before. *)
Lemma upper_bound_day (tz e : Z) :
  e mod JSDate.msPerDay = 0 ->
  (0 <= tz < JSDate.msPerDay ->
   SpecSide.endOfLocalDay tz e = SpecSide.dayEnd tz (JSDate.Day e))
  /\ (- JSDate.msPerDay <= tz < 0 ->
      SpecSide.endOfLocalDay tz e = SpecSide.dayEnd tz (JSDate.Day e - 1)).
Proof.
  unfold SpecSide.endOfLocalDay, SpecSide.dayEnd, JSDate.UTC, JSDate.Day,
    JSDate.LocalTime, JSDate.msPerDay.
  intros H. split; intros Ht; Z.to_euclidean_division_equations; lia.
Qed.

(** At UTC, with bounds given as days, the filter is the stated window. *)
Lemma utc_window newDate now start end_ dateStr :
  SpecSide.dayOnly newDate start -> SpecSide.dayOnly newDate end_ ->
  isInPeriod newDate 0 now (Examples.customPeriod start end_) dateStr = true
  <-> SpecSide.inStatedWindow newDate 0 start end_ dateStr.
Proof.
  intros Hs He. rewrite isInPeriod_custom.
  unfold SpecSide.inCustomWindow, SpecSide.inStatedWindow, SpecSide.lowerBound,
    SpecSide.upperBound, SpecSide.dayNamed, SpecSide.dayOnly in *.
  assert (L : forall d,
             (forall lo, JS.truthyStr start ≫= newDate = Some lo -> lo <= d)
             <-> (forall lo, JSDate.Day <$> (JS.truthyStr start ≫= newDate)
                             = Some lo -> SpecSide.dayStart 0 lo <= d)).
  { intros d. destruct (JS.truthyStr start ≫= newDate) as [tv |].
    - specialize (Hs tv eq_refl). cbn [fmap option_fmap option_map].
      assert (E : SpecSide.dayStart 0 (JSDate.Day tv) = tv).
      { unfold SpecSide.dayStart, JSDate.UTC, JSDate.Day, JSDate.msPerDay in *.
        Z.to_euclidean_division_equations; lia. }
      split.
      + intros H lo Hlo. injection Hlo as <-. rewrite E. now apply H.
      + intros H lo Hlo. injection Hlo as <-. rewrite <- E. now apply H.
    - split; intros _ lo Hlo; discriminate. }
  assert (U : forall d,
             (forall hi, SpecSide.endOfLocalDay 0 <$> (JS.truthyStr end_ ≫= newDate)
                         = Some hi -> d <= hi)
             <-> (forall hi, JSDate.Day <$> (JS.truthyStr end_ ≫= newDate)
                             = Some hi -> d <= SpecSide.dayEnd 0 hi)).
  { intros d. destruct (JS.truthyStr end_ ≫= newDate) as [tv |].
    - specialize (He tv eq_refl). cbn [fmap option_fmap option_map].
      pose proof (proj1 (upper_bound_day 0 tv He)
                    ltac:(unfold JSDate.msPerDay; lia)) as E.
      split.
      + intros H hi Hhi. injection Hhi as <-. rewrite <- E. now apply H.
      + intros H hi Hhi. injection Hhi as <-. rewrite E. now apply H.
    - split; intros _ hi Hhi; discriminate. }
  split; intros (s & d & H1 & H2 & H3 & H4); exists s, d;
    (split; [exact H1 |]); (split; [exact H2 |]);
    (split; [now apply L | now apply U]).
Qed.

(** The failing input: three hours behind UTC, with the period from
    2024-01-01 to 2024-01-31, noon UTC of 31 January (09:00 local time of
    that day) lies in the stated window, on the UTC clock and on the
    local clock alike, and the filter rejects it. *)
Lemma end_day_cut_short :
  isInPeriod JSDate.parseIso Examples.utcMinus3 Examples.midJune2024
    Examples.january2024 (Some "2024-01-31T12:00:00.000Z"%string) = false
  /\ SpecSide.inStatedWindow JSDate.parseIso 0
       (Some "2024-01-01"%string) (Some "2024-01-31"%string)
       (Some "2024-01-31T12:00:00.000Z"%string)
  /\ SpecSide.inStatedWindow JSDate.parseIso Examples.utcMinus3
       (Some "2024-01-01"%string) (Some "2024-01-31"%string)
       (Some "2024-01-31T12:00:00.000Z"%string).
Proof.
  split; [vm_compute; reflexivity |].
  split; exists "2024-01-31T12:00:00.000Z"%string, 1706702400000;
    (split; [reflexivity |]); (split; [vm_compute; reflexivity |]);
    split; intros b Hb; vm_compute in Hb; injection Hb as <-;
    vm_compute; discriminate.
Qed.

(** C5, against the code.  For a custom period the filter accepts a date
    string exactly when the instant it denotes lies between the instant
    the start bound denotes and 23:59:59.999 local time of the local day
    holding the instant the end bound denotes; a string that denotes no
    date is rejected under every period.  With bounds given as days this
    is the stated window (00:00 of the start day to 23:59:59.999 of the
    end day) at UTC, and the scenario of the specification holds in
    every time zone.  West of UTC it is not the stated window: the upper
    bound falls on the day before the end day, so that three hours
    behind UTC noon UTC of the end day is rejected. *)
Theorem custom_period_filter :
  (forall newDate tz now start end_ dateStr,
      isInPeriod newDate tz now (Examples.customPeriod start end_) dateStr = true
      <-> SpecSide.inCustomWindow newDate tz start end_ dateStr)
  /\ (forall s tv,
        String.length s = 10%nat -> JSDate.parseIso s = Some tv ->
        tv mod JSDate.msPerDay = 0)
  /\ (forall tz e,
        e mod JSDate.msPerDay = 0 ->
        (0 <= tz < JSDate.msPerDay ->
         SpecSide.endOfLocalDay tz e = SpecSide.dayEnd tz (JSDate.Day e))
        /\ (- JSDate.msPerDay <= tz < 0 ->
            SpecSide.endOfLocalDay tz e
            = SpecSide.dayEnd tz (JSDate.Day e - 1)))
  /\ (forall newDate now start end_ dateStr,
        SpecSide.dayOnly newDate start -> SpecSide.dayOnly newDate end_ ->
        isInPeriod newDate 0 now (Examples.customPeriod start end_) dateStr
        = true
        <-> SpecSide.inStatedWindow newDate 0 start end_ dateStr)
  /\ (forall newDate tz now period s,
        newDate s = None -> isInPeriod newDate tz now period (Some s) = false)
  /\ (forall newDate tz now period,
        isInPeriod newDate tz now period None = false
        /\ isInPeriod newDate tz now period (Some EmptyString) = false)
  /\ (forall tz now,
        isInPeriod JSDate.parseIso tz now Examples.january2024
          (Some "2024-01-31"%string) = true
        /\ isInPeriod JSDate.parseIso tz now Examples.january2024
             (Some "2024-02-01"%string) = false)
  /\ (isInPeriod JSDate.parseIso Examples.utcMinus3 Examples.midJune2024
        Examples.january2024 (Some "2024-01-31T12:00:00.000Z"%string) = false
      /\ SpecSide.inStatedWindow JSDate.parseIso 0
           (Some "2024-01-01"%string) (Some "2024-01-31"%string)
           (Some "2024-01-31T12:00:00.000Z"%string)
      /\ SpecSide.inStatedWindow JSDate.parseIso Examples.utcMinus3
           (Some "2024-01-01"%string) (Some "2024-01-31"%string)
           (Some "2024-01-31T12:00:00.000Z"%string)).
Proof.
  split; [exact isInPeriod_custom |].
  split; [exact parseIso_day_start |].
  split; [exact upper_bound_day |].
  split; [exact utc_window |].
  split; [exact isInPeriod_unparsable |].
  split; [intros; split; reflexivity |].
  split; [exact january2024_scenario |].
  exact end_day_cut_short.
Qed.

(** Three hours behind UTC, an end bound given as a day falls on the
    evening before in local time, and its window closes at 02:59:59.999
    UTC of the end day: an instant at noon UTC of the end day is
    rejected. *)
Remark custom_period_behind_utc :
  isInPeriod JSDate.parseIso Examples.utcMinus3 Examples.midJune2024
    Examples.january2024 (Some "2024-01-31T12:00:00.000Z"%string) = false
  /\ SpecSide.upperBound JSDate.parseIso Examples.utcMinus3
       (Some "2024-01-31"%string)
     = JSDate.parseIso "2024-01-31T02:59:59.999Z".
Proof. split; vm_compute; reflexivity. Qed.

End PeriodProps.

(** ** Monthly Aggregator *)

Module MonthlyProps.
Import FinancialDashboard.

Example civil_dates :
  JSDate.parseIso "1970-01-01" = Some 0
  /\ JSDate.parseIso "2024-02-29T23:59:59.999Z" = Some 1709251199999
  /\ JSDate.parseIso "2023-02-29" = None
  /\ (JSDate.getFullYear 0 1709251199999, JSDate.getMonth 0 1709251199999) = (2024, 1)
  /\ (JSDate.getFullYear 0 (-1), JSDate.getMonth 0 (-1)) = (1969, 11)
  /\ (JSDate.getFullYear Examples.utcMinus3 1704067200000,
      JSDate.getMonth Examples.utcMinus3 1704067200000) = (2023, 11).
Proof. repeat split; vm_compute; reflexivity. Qed.

Lemma civil_month_range (z : Z) : 1 <= snd (JSDate.civilFromDays z) <= 12.
Proof.
  unfold JSDate.civilFromDays. cbv zeta. cbn [snd].
  set (doe := z + 719468 - (z + 719468) / 146097 * 146097).
  assert (Hdoe : 0 <= doe < 146097)
    by (subst doe; Z.to_euclidean_division_equations; lia).
  clearbody doe.
  set (yoe := (doe - doe / 1460 + doe / 36524 - doe / 146096) / 365).
  set (doy := doe - (365 * yoe + yoe / 4 - yoe / 100)).
  assert (Hdoy : 0 <= doy <= 365)
    by (subst doy yoe; Z.to_euclidean_division_equations; lia).
  clearbody doy.
  destruct ((5 * doy + 2) / 153 <? 10) eqn:E;
    [apply Z.ltb_lt in E | apply Z.ltb_ge in E];
    Z.to_euclidean_division_equations; lia.
Qed.

Lemma getMonth_range (tz d : Z) : 0 <= JSDate.getMonth tz d < 12.
Proof.
  unfold JSDate.getMonth.
  pose proof (civil_month_range (JSDate.Day (JSDate.LocalTime tz d))). lia.
Qed.

Lemma sumIncome_insert (rows : list MonthRow) (i : nat) (r r' : MonthRow) :
  rows !! i = Some r ->
  SpecSide.sumIncome (<[i := r']> rows)
  = SpecSide.sumIncome rows - income r + income r'.
Proof.
  unfold SpecSide.sumIncome. revert i.
  induction rows as [| x rows IH]; intros [| i] H; try discriminate.
  - injection H as ->. cbn. lia.
  - change (<[S i := r']> (x :: rows)) with (x :: <[i := r']> rows).
    cbn [List.map fold_right]. rewrite (IH i H). lia.
Qed.

Lemma updateMonth_total (m : Z) (upd : MonthRow -> MonthRow) (rows : list MonthRow) :
  length rows = 12%nat -> 0 <= m < 12 ->
  exists r, rows !! Z.to_nat m = Some r
            /\ updateMonth m upd rows = Some (<[Z.to_nat m := upd r]> rows).
Proof.
  intros L Hm. unfold updateMonth.
  destruct (Z.ltb_spec m 0); [lia |].
  destruct (rows !! Z.to_nat m) as [r |] eqn:E.
  - exists r. split; reflexivity.
  - apply lookup_ge_None in E. lia.
Qed.

Lemma effective_truthy (c : Contract) :
  JS.truthyStr (effectiveDate c)
  = match effectiveDateStr c with
    | EmptyString => None
    | s => Some s
    end.
Proof.
  unfold effectiveDateStr.
  destruct (effectiveDate c) as [[| a s] |]; reflexivity.
Qed.

Section Host.
Variable newDate : string -> JSDate.t.
Variables tz now : Z.
Variable monthLabel : Z -> string.

Lemma isInPeriod_effective (period : Period) (c : Contract) :
  isInPeriod newDate tz now period (effectiveDate c)
  = match effectiveDateStr c with
    | EmptyString => false
    | s => isInPeriod newDate tz now period (Some s)
    end.
Proof.
  unfold isInPeriod at 1. rewrite effective_truthy.
  destruct (effectiveDateStr c) as [| a s]; reflexivity.
Qed.

Lemma isInPeriod_valid (period : Period) (s : string) :
  isInPeriod newDate tz now period (Some s) = true ->
  exists d, newDate s = Some d.
Proof.
  intros H. destruct (newDate s) as [d |] eqn:E; [now exists d |].
  now rewrite PeriodProps.isInPeriod_unparsable in H.
Qed.

Lemma monthlyContractStep_inv (period : Period) (rows : list MonthRow)
  (c : Contract) :
  length rows = 12%nat ->
  exists rows',
    monthlyContractStep newDate tz now period (Some rows) c = Some rows'
    /\ length rows' = 12%nat
    /\ SpecSide.sumIncome rows'
       = SpecSide.sumIncome rows
         + (if isInPeriod newDate tz now period (effectiveDate c)
            then a_total (contractAmounts c) else 0).
Proof.
  intros L. unfold monthlyContractStep. rewrite isInPeriod_effective.
  destruct (effectiveDateStr c) as [| a s].
  { exists rows. repeat split; [exact L | lia]. }
  destruct (isInPeriod newDate tz now period (Some (String a s))) eqn:P;
    cbn [negb].
  2:{ exists rows. repeat split; [exact L | lia]. }
  destruct (isInPeriod_valid _ _ P) as (d & Hd). rewrite Hd.
  match goal with |- context [updateMonth ?m ?u rows] =>
    destruct (updateMonth_total m u rows L (getMonth_range tz d))
      as (r & Hr & ->) end.
  eexists. split; [reflexivity |]. split.
  - now rewrite length_insert.
  - rewrite (sumIncome_insert _ _ _ _ Hr).
    destruct (JS.truthy (eventCompleted c)); [| destruct (JSDate.geb _ _)];
      cbn [income]; lia.
Qed.

Lemma monthlyContracts_inv (period : Period) (cs : list Contract) :
  forall rows, length rows = 12%nat ->
  exists rows',
    fold_left (monthlyContractStep newDate tz now period) cs (Some rows)
    = Some rows'
    /\ length rows' = 12%nat
    /\ SpecSide.sumIncome rows'
       = SpecSide.sumIncome rows
         + SpecSide.sumTotals (filteredContracts newDate tz now cs period).
Proof.
  induction cs as [| c cs IH]; intros rows L.
  - exists rows. cbn. repeat split; [exact L | lia].
  - destruct (monthlyContractStep_inv period rows c L) as (r1 & E1 & L1 & S1).
    destruct (IH r1 L1) as (r2 & E2 & L2 & S2).
    exists r2. cbn [fold_left]. rewrite E1. split; [exact E2 |].
    split; [exact L2 |]. rewrite S2, S1.
    unfold filteredContracts. cbn [List.filter].
    destruct (isInPeriod newDate tz now period (effectiveDate c));
      unfold SpecSide.sumTotals; cbn [List.map fold_right]; lia.
Qed.

Lemma monthlyInstallmentStep_inv (period : Period) (rows : list MonthRow)
  (inst : Installment) :
  length rows = 12%nat ->
  exists rows',
    monthlyInstallmentStep newDate tz now period (Some rows) inst = Some rows'
    /\ length rows' = 12%nat
    /\ SpecSide.sumIncome rows' = SpecSide.sumIncome rows.
Proof.
  intros L. unfold monthlyInstallmentStep.
  destruct (JS.truthyStr (dueDate inst)) as [s |].
  2:{ exists rows. repeat split; exact L. }
  destruct (isInPeriod newDate tz now period (Some s)) eqn:P; cbn [negb].
  2:{ exists rows. repeat split; exact L. }
  destruct (isInPeriod_valid _ _ P) as (d & Hd). rewrite Hd.
  match goal with |- context [updateMonth ?m ?u rows] =>
    destruct (updateMonth_total m u rows L (getMonth_range tz d))
      as (r & Hr & ->) end.
  eexists. split; [reflexivity |]. split.
  - now rewrite length_insert.
  - rewrite (sumIncome_insert _ _ _ _ Hr). cbn [income]. lia.
Qed.

Lemma monthlyInstallments_inv (period : Period) (insts : list Installment) :
  forall rows, length rows = 12%nat ->
  exists rows',
    fold_left (monthlyInstallmentStep newDate tz now period) insts (Some rows)
    = Some rows'
    /\ length rows' = 12%nat
    /\ SpecSide.sumIncome rows' = SpecSide.sumIncome rows.
Proof.
  induction insts as [| i insts IH]; intros rows L.
  - exists rows. repeat split; exact L.
  - destruct (monthlyInstallmentStep_inv period rows i L) as (r1 & E1 & L1 & S1).
    destruct (IH r1 L1) as (r2 & E2 & L2 & S2).
    exists r2. cbn [fold_left]. rewrite E1. split; [exact E2 |].
    split; [exact L2 | congruence].
Qed.

(** C6: [computeMonthlyData] returns twelve rows, and the sum of their
    income fields is the sum of the derived totals of the contracts whose
    effective date passes the Period Filter, completed or not. *)
Theorem monthly_income_sum (contracts : list Contract)
  (investmentInstallments : list Installment) (period : Period) :
  exists rows,
    computeMonthlyData newDate tz now monthLabel contracts
      investmentInstallments period = Some rows
    /\ length rows = 12%nat
    /\ SpecSide.sumIncome rows
       = SpecSide.sumTotals (filteredContracts newDate tz now contracts period).
Proof.
  unfold computeMonthlyData.
  destruct (monthlyContracts_inv period contracts (emptyMonths monthLabel) eq_refl)
    as (r1 & E1 & L1 & S1).
  destruct (monthlyInstallments_inv period investmentInstallments r1 L1)
    as (r2 & E2 & L2 & S2).
  exists r2. rewrite E1. split; [exact E2 |]. split; [exact L2 |].
  rewrite S2, S1. reflexivity.
Qed.

End Host.

(** Three contracts over all time: 10 in January, 200 in February and 300
    in March, whatever their year. *)
Example monthly_income_rows :
  option_map (List.map income)
    (computeMonthlyData JSDate.parseIso 0 Examples.midJune2024
       Examples.monthNumber
       [Examples.pastOpen; Examples.futureOpen; Examples.completedOne] []
       Examples.allTime)
  = Some [10; 200; 300; 0; 0; 0; 0; 0; 0; 0; 0; 0].
Proof. vm_compute. reflexivity. Qed.

End MonthlyProps.

(** ** Sorting *)

Module SortProps.

Section Sort.
Context {A : Type}.
Variable cmp : A -> A -> comparison.

Local Abbreviation before := (SpecSide.before cmp).

Lemma insert_perm (x : A) (l : list A) :
  Permutation (JSArray.insert cmp x l) (x :: l).
Proof.
  induction l as [| y l IH]; cbn [JSArray.insert]; [reflexivity |].
  destruct (cmp x y); try reflexivity.
  rewrite IH. apply perm_swap.
Qed.

Lemma sort_perm (l : list A) : Permutation (JSArray.sort cmp l) l.
Proof.
  unfold JSArray.sort. induction l as [| x l IH]; cbn [fold_right]; [reflexivity |].
  rewrite insert_perm. now constructor.
Qed.

Lemma sort_In (x : A) (l : list A) : In x (JSArray.sort cmp l) <-> In x l.
Proof.
  split; apply Permutation_in; [| symmetry]; apply sort_perm.
Qed.

(** A consistent comparator: any two elements are comparable one way or
    the other, and [before] is transitive. *)
Hypothesis cmp_total : forall a b, cmp a b = Gt -> cmp b a <> Gt.
Hypothesis cmp_trans : forall a b c, before a b -> before b c -> before a c.

Lemma insert_sorted (x : A) (l : list A) :
  StronglySorted before l -> StronglySorted before (JSArray.insert cmp x l).
Proof.
  induction 1 as [| y l Hl IH Hy]; cbn [JSArray.insert].
  - repeat constructor.
  - destruct (cmp x y) eqn:E.
    + constructor; [now constructor |].
      assert (B : before x y) by (unfold SpecSide.before; congruence).
      constructor; [exact B |].
      eapply List.Forall_impl; [| exact Hy]. intros z Hz. now apply cmp_trans with y.
    + constructor; [now constructor |].
      assert (B : before x y) by (unfold SpecSide.before; congruence).
      constructor; [exact B |].
      eapply List.Forall_impl; [| exact Hy]. intros z Hz. now apply cmp_trans with y.
    + constructor; [exact IH |].
      apply List.Forall_forall. intros z Hz.
      apply (Permutation_in _ (insert_perm x l)) in Hz.
      destruct Hz as [<- | Hz].
      * now apply cmp_total.
      * rewrite List.Forall_forall in Hy. now apply Hy.
Qed.

Lemma sort_sorted (l : list A) : StronglySorted before (JSArray.sort cmp l).
Proof.
  unfold JSArray.sort. induction l as [| x l IH]; cbn [fold_right].
  - constructor.
  - now apply insert_sorted.
Qed.
End Sort.

Lemma sorted_lookup {A} (R : A -> A -> Prop) (l : list A) :
  StronglySorted R l ->
  forall (i j : nat) (a b : A),
    (i < j)%nat -> l !! i = Some a -> l !! j = Some b -> R a b.
Proof.
  induction 1 as [| x l Hl IH Hx]; intros i j a b Hij Ha Hb.
  - discriminate.
  - destruct j as [| j]; [lia |]. cbn in Hb.
    destruct i as [| i].
    + injection Ha as <-. rewrite List.Forall_forall in Hx. apply Hx.
      apply list_elem_of_In. eapply list_elem_of_lookup_2. exact Hb.
    + cbn in Ha. apply (IH i j); [lia | assumption | assumption].
Qed.

End SortProps.

(** ** Financial Metrics Reducer *)

Module MetricsProps.
Import FinancialDashboard.

Lemma sumTotals_app (l1 l2 : list Contract) :
  SpecSide.sumTotals (l1 ++ l2) = SpecSide.sumTotals l1 + SpecSide.sumTotals l2.
Proof.
  unfold SpecSide.sumTotals. induction l1 as [| c l1 IH]; cbn; [reflexivity |].
  cbn in IH. rewrite IH. lia.
Qed.

(** The three classes split every list of contracts. *)
Lemma sumTotals_classes newDate tz now (cs : list Contract) :
  SpecSide.sumTotals cs
  = SpecSide.sumTotals (List.filter SpecSide.isCompleted cs)
    + SpecSide.sumTotals (List.filter (SpecSide.isUpcoming newDate tz now) cs)
    + SpecSide.sumTotals (List.filter (SpecSide.isStale newDate tz now) cs).
Proof.
  unfold SpecSide.sumTotals, SpecSide.isUpcoming, SpecSide.isStale.
  induction cs as [| c cs IH]; [reflexivity |].
  cbn [List.filter List.map fold_right].
  destruct (SpecSide.isCompleted c), (SpecSide.todayOrLater newDate tz now c);
    cbn [negb andb List.map fold_right]; lia.
Qed.

Section Host.
Variable newDate : string -> JSDate.t.
Variables tz now : Z.
Variable nowIsoDay : string.
Variable monthLabel : Z -> string.

Lemma revenueLoop_from (cs : list Contract) :
  forall acc,
    let rev := fold_left (revenueStep newDate tz now nowIsoDay) cs acc in
    totalRevenue rev = totalRevenue acc + SpecSide.sumTotals cs
    /\ completedRevenue rev
       = completedRevenue acc
         + SpecSide.sumTotals (List.filter SpecSide.isCompleted cs)
    /\ futureRevenue rev
       = futureRevenue acc
         + SpecSide.sumTotals (List.filter (SpecSide.isUpcoming newDate tz now) cs)
    /\ List.map SpecSide.invoiceKey (invoices rev)
       = List.map SpecSide.invoiceKey (invoices acc)
         ++ List.map SpecSide.contractKey
              (List.filter (SpecSide.isUpcoming newDate tz now) cs).
Proof.
  induction cs as [| c cs IH]; intros acc rev.
  - subst rev. cbn. rewrite app_nil_r. repeat split; lia.
  - subst rev. cbn [fold_left].
    destruct (IH (revenueStep newDate tz now nowIsoDay acc c))
      as (T & C & F & I).
    rewrite T, C, F, I. clear T C F I IH.
    unfold revenueStep, SpecSide.isUpcoming, SpecSide.isCompleted,
      SpecSide.todayOrLater, SpecSide.sumTotals.
    cbn [List.filter List.map fold_right].
    destruct (JS.truthy (eventCompleted c)); cbn [negb andb];
      [| destruct (effectiveDateStr c) as [| a s] eqn:E;
         [| destruct (JSDate.geb (newDate (String a s)) (today tz now))] ];
      cbn [totalRevenue completedRevenue futureRevenue invoices
           List.map fold_right];
      rewrite ?map_app, <- ?app_assoc; cbn [List.map app];
      repeat split; try lia; reflexivity.
Qed.

Lemma sumTotals_nonneg (cs : list Contract) :
  (forall c, In c cs -> 0 <= a_total (contractAmounts c)) ->
  0 <= SpecSide.sumTotals cs.
Proof.
  unfold SpecSide.sumTotals.
  induction cs as [| c cs IH]; intros H; cbn [List.map fold_right]; [lia |].
  pose proof (H c (or_introl eq_refl)).
  assert (0 <= fold_right Z.add 0
                 (List.map (fun c => a_total (contractAmounts c)) cs))
    by (apply IH; intros; apply H; now right).
  lia.
Qed.

Lemma sumTotals_pos (cs : list Contract) (c : Contract) :
  (forall c, In c cs -> 0 <= a_total (contractAmounts c)) ->
  In c cs -> 0 < a_total (contractAmounts c) ->
  0 < SpecSide.sumTotals cs.
Proof.
  intros H Hc Hp. apply in_split in Hc as (l1 & l2 & ->).
  rewrite sumTotals_app.
  assert (0 <= SpecSide.sumTotals l1)
    by (apply sumTotals_nonneg; intros; apply H, in_or_app; now left).
  assert (0 <= SpecSide.sumTotals l2)
    by (apply sumTotals_nonneg; intros; apply H, in_or_app; right; now right).
  unfold SpecSide.sumTotals in *. cbn [List.map fold_right]. lia.
Qed.

(** C9, as the code has it: over the period-matching contracts, total
    revenue is completed revenue plus future revenue plus the totals of
    the contracts that are neither completed nor upcoming, a contract
    being upcoming when the instant its date denotes is at or after the
    start of the current local day; the invoices are those of the
    upcoming contracts that are not completed, so a contract of the
    third kind gives rise to none.  When the totals of the contracts of
    the third kind are not negative, completed plus future revenue is at
    most total revenue, and strictly less as soon as one of them has a
    positive total. *)
Theorem revenue_split (contracts : list Contract)
  (investmentInstallments : list Installment) (period : Period) :
  let fc := filteredContracts newDate tz now contracts period in
  let rev := revenueLoop newDate tz now nowIsoDay fc in
  let m := metrics newDate tz now nowIsoDay monthLabel
             contracts investmentInstallments period in
  totalRevenue rev
  = completedRevenue rev + futureRevenue rev
    + SpecSide.sumTotals (List.filter (SpecSide.isStale newDate tz now) fc)
  /\ List.map SpecSide.invoiceKey (invoices rev)
     = List.map SpecSide.contractKey
         (List.filter (SpecSide.isUpcoming newDate tz now) fc)
  /\ (forall i, In i (outstandingInvoices m) ->
                In (SpecSide.invoiceKey i)
                   (List.map SpecSide.contractKey
                      (List.filter (SpecSide.isUpcoming newDate tz now) fc)))
  /\ currentMonthRevenue m = completedRevenue rev
  /\ ((forall c, In c fc -> SpecSide.isStale newDate tz now c = true ->
                 0 <= a_total (contractAmounts c)) ->
      completedRevenue rev + futureRevenue rev <= totalRevenue rev
      /\ (forall c, In c fc -> SpecSide.isStale newDate tz now c = true ->
                    0 < a_total (contractAmounts c) ->
                    completedRevenue rev + futureRevenue rev
                    < totalRevenue rev)).
Proof.
  intros fc rev m.
  destruct (revenueLoop_from fc
              {| totalRevenue := 0; completedRevenue := 0; futureRevenue := 0;
                 invoices := []; clientMap := [] |}) as (T & C & F & I).
  fold (revenueLoop newDate tz now nowIsoDay fc) in T, C, F, I. fold rev in T, C, F, I.
  cbn [totalRevenue completedRevenue futureRevenue invoices List.map app] in T, C, F, I.
  pose proof (sumTotals_classes newDate tz now fc) as S.
  set (stale := List.filter (SpecSide.isStale newDate tz now) fc) in *.
  split; [lia |]. split; [exact I |]. split.
  { intros i Hi. rewrite <- I. apply in_map.
    subst m. unfold metrics in Hi. cbn [outstandingInvoices] in Hi.
    fold fc in Hi. fold rev in Hi.
    apply list_elem_of_In in Hi. apply subseteq_take in Hi.
    apply list_elem_of_In in Hi. now apply SortProps.sort_In in Hi. }
  split; [reflexivity |].
  intros H.
  assert (N : forall c, In c stale -> 0 <= a_total (contractAmounts c)).
  { intros c Hc. apply filter_In in Hc as (Hc & Hs). now apply H. }
  pose proof (sumTotals_nonneg stale N) as P.
  split; [lia |].
  intros c Hc Hs Hp.
  assert (0 < SpecSide.sumTotals stale).
  { apply (sumTotals_pos stale c N); [| exact Hp].
    apply filter_In. now split. }
  lia.
Qed.

End Host.

(** The dashboard of 15 June 2024, UTC, over all time, with one open
    contract of 2020, one of 2030 and a completed one. *)
Lemma revenue_split_witness :
  let fc := filteredContracts JSDate.parseIso 0 Examples.midJune2024
              [Examples.pastOpen; Examples.futureOpen; Examples.completedOne]
              Examples.allTime in
  let rev := revenueLoop JSDate.parseIso 0 Examples.midJune2024 "2024-06-15" fc in
  (totalRevenue rev = 510 /\ completedRevenue rev = 200 /\ futureRevenue rev = 300)
  /\ completedRevenue rev + futureRevenue rev <= totalRevenue rev.
Proof.
  intros fc rev. split; [vm_compute; repeat split; reflexivity |].
  assert (H : forall c, In c fc ->
                SpecSide.isStale JSDate.parseIso 0 Examples.midJune2024 c = true ->
                0 <= a_total (contractAmounts c)).
  { intros c Hc _. vm_compute in Hc.
    repeat (destruct Hc as [<- | Hc]; [vm_compute; discriminate |]).
    destruct Hc. }
  exact (proj1 (proj2 (proj2 (proj2 (proj2
    (revenue_split JSDate.parseIso 0 Examples.midJune2024 "2024-06-15"
       Examples.monthNumber
       [Examples.pastOpen; Examples.futureOpen; Examples.completedOne]
       [] Examples.allTime)))) H)).
Defined.

(** For a date given as a day (00:00 UTC of that day) the test reads
    "today or later" at and east of UTC, and "tomorrow or later" west of
    UTC. *)
Lemma today_test_day (tz now day : Z) :
  - JSDate.msPerDay < tz < JSDate.msPerDay ->
  JSDate.geb (Some (day * JSDate.msPerDay)) (today tz now) = true
  <-> (if 0 <=? tz
       then JSDate.Day (JSDate.LocalTime tz now) <= day
       else JSDate.Day (JSDate.LocalTime tz now) < day).
Proof.
  intros Ht. unfold today, JSDate.setHours, JSDate.geb, JSDate.UTC, JSDate.Day,
    JSDate.LocalTime, JSDate.msPerDay in *.
  rewrite Z.leb_le.
  destruct (Z.leb_spec 0 tz); Z.to_euclidean_division_equations; lia.
Qed.

(** C9 fails as stated: one open contract of 2020 with a service line of
    10 and a travel fee of -100 makes total revenue -90 while completed
    and future revenue are both 0. *)
Lemma revenue_split_counterexample :
  let fc := filteredContracts JSDate.parseIso 0 Examples.midJune2024
              [Examples.negativeTravel] Examples.allTime in
  let rev := revenueLoop JSDate.parseIso 0 Examples.midJune2024 "2024-06-15" fc in
  fc = [Examples.negativeTravel]
  /\ totalRevenue rev = -90 /\ completedRevenue rev = 0 /\ futureRevenue rev = 0
  /\ ~ completedRevenue rev + futureRevenue rev <= totalRevenue rev.
Proof.
  vm_compute. repeat split. intros H. now apply H.
Qed.

(** The test is on instants, not on calendar days: three hours behind
    UTC, at 09:00 local time of 15 June 2024, an open contract dated
    2024-06-15 is not upcoming; its total of 300 is in total revenue and
    in neither of the other two, and it has no invoice. *)
Remark dated_today_behind_utc :
  let c := Examples.contractWith (Some [Examples.line "300" (Some 1%Q)])
             None None None (Some "2024-06-15"%string) None in
  let rev := revenueLoop JSDate.parseIso Examples.utcMinus3
               Examples.midJune2024 "2024-06-15" [c] in
  SpecSide.todayOrLater JSDate.parseIso Examples.utcMinus3
    Examples.midJune2024 c = false
  /\ totalRevenue rev = 300 /\ completedRevenue rev = 0
  /\ futureRevenue rev = 0 /\ invoices rev = [].
Proof. vm_compute. repeat split. Qed.

End MetricsProps.

(** ** Calendar summary *)

Module SummaryProps.
Import AdminCalendar.

Lemma buckets_exclusive (ev : ContractItem) :
  SpecSide.bucketsOf ev = if SpecSide.isUncounted ev then 0%nat else 1%nat.
Proof.
  unfold SpecSide.bucketsOf, SpecSide.isPending, SpecSide.isEditing,
    SpecSide.isFinished, SpecSide.isUncounted.
  destruct (JS.isTrue (depositPaid ev)), (JS.isTrue (finalPaymentPaid ev)),
    (JS.isTrue (eventCompleted ev)); reflexivity.
Qed.

Lemma summaryStep_spec (p e c : nat) (ev : ContractItem) :
  summaryStep (p, e, c) ev
  = ((p + if SpecSide.isPending ev then 1 else 0)%nat,
     (e + if SpecSide.isEditing ev then 1 else 0)%nat,
     (c + if SpecSide.isFinished ev then 1 else 0)%nat).
Proof.
  unfold summaryStep, SpecSide.isPending, SpecSide.isEditing, SpecSide.isFinished.
  destruct (JS.isTrue (depositPaid ev)), (JS.isTrue (finalPaymentPaid ev)),
    (JS.isTrue (eventCompleted ev));
    cbn [negb andb]; rewrite ?Nat.add_0_r, ?Nat.add_1_r; reflexivity.
Qed.

Lemma summary_fold (evs : list ContractItem) :
  forall p e c : nat,
    fold_left summaryStep evs (p, e, c)
    = ((p + SpecSide.countIf SpecSide.isPending evs)%nat,
       (e + SpecSide.countIf SpecSide.isEditing evs)%nat,
       (c + SpecSide.countIf SpecSide.isFinished evs)%nat).
Proof.
  unfold SpecSide.countIf.
  induction evs as [| ev evs IH]; intros p e c.
  - cbn. now rewrite !Nat.add_0_r.
  - cbn [fold_left List.filter]. rewrite summaryStep_spec, IH.
    destruct (SpecSide.isPending ev), (SpecSide.isEditing ev),
      (SpecSide.isFinished ev); cbn [length];
      repeat match goal with
             | |- (_, _) = (_, _) => apply f_equal2
             end; lia.
Qed.

Lemma count_buckets (evs : list ContractItem) :
  (SpecSide.countIf SpecSide.isPending evs
   + SpecSide.countIf SpecSide.isEditing evs
   + SpecSide.countIf SpecSide.isFinished evs
   + SpecSide.countIf SpecSide.isUncounted evs)%nat = length evs.
Proof.
  unfold SpecSide.countIf.
  induction evs as [| ev evs IH]; [reflexivity |].
  pose proof (buckets_exclusive ev) as B. unfold SpecSide.bucketsOf in B.
  cbn [List.filter length].
  destruct (SpecSide.isPending ev), (SpecSide.isEditing ev),
    (SpecSide.isFinished ev), (SpecSide.isUncounted ev);
    cbn [length]; cbn in B; try discriminate B; lia.
Qed.

(** C10: the summary counts every event in at most one of pending,
    editing and completed, and in none when the deposit is paid and the
    final payment is not; so the three counters add up to the number of
    events less the number of such events, at most the number of events,
    and strictly less when there is such an event. *)
Theorem summary_undercounts (evs : list ContractItem) :
  let s := eventSummary evs in
  (forall ev, (SpecSide.bucketsOf ev <= 1)%nat
              /\ (SpecSide.isUncounted ev = true -> SpecSide.bucketsOf ev = 0%nat))
  /\ pending s = SpecSide.countIf SpecSide.isPending evs
  /\ editing s = SpecSide.countIf SpecSide.isEditing evs
  /\ completed s = SpecSide.countIf SpecSide.isFinished evs
  /\ total s = (pending s + editing s + completed s)%nat
  /\ allTotal s = length evs
  /\ (total s + SpecSide.countIf SpecSide.isUncounted evs)%nat = allTotal s
  /\ (total s <= allTotal s)%nat
  /\ ((exists ev, In ev evs /\ SpecSide.isUncounted ev = true) ->
      (total s < allTotal s)%nat).
Proof.
  intros s. subst s. unfold eventSummary. rewrite summary_fold.
  cbn [pending editing completed total allTotal Nat.add].
  pose proof (count_buckets evs) as B.
  split.
  { intros ev. rewrite buckets_exclusive.
    destruct (SpecSide.isUncounted ev); split; auto; discriminate. }
  repeat (split; [first [reflexivity | lia] |]).
  intros (ev & Hin & Hu).
  assert (0 < SpecSide.countIf SpecSide.isUncounted evs)%nat; [| lia].
  unfold SpecSide.countIf.
  assert (Hf : In ev (List.filter SpecSide.isUncounted evs))
    by (apply filter_In; now split).
  destruct (List.filter SpecSide.isUncounted evs); [destruct Hf | cbn; lia].
Qed.

(** Of three events, one with the deposit paid and the final payment
    open: two are counted. *)
Lemma summary_undercounts_witness :
  let evs := [Examples.eventAt "Ana" None None None None;
              Examples.eventAt "Bea" None (Some true) (Some false) None;
              Examples.eventAt "Caio" None (Some true) (Some true) (Some true)] in
  (total (eventSummary evs) < allTotal (eventSummary evs))%nat.
Proof.
  intros evs.
  apply (summary_undercounts evs).
  exists (Examples.eventAt "Bea" None (Some true) (Some false) None).
  split; [right; left; reflexivity | reflexivity].
Defined.

End SummaryProps.

(** ** Day Bucketer *)

Module BucketProps.
Import AdminCalendar.

Lemma bucket_fold (k : string) (evs : list ContractItem) :
  forall m : gmap string (list ContractItem),
    fold_left bucketStep evs m !! k
    = match List.filter (SpecSide.isOn k) evs with
      | [] => m !! k
      | l => Some (default [] (m !! k) ++ l)
      end.
Proof.
  induction evs as [| ev evs IH]; intros m; [reflexivity |].
  cbn [fold_left List.filter]. rewrite IH. clear IH.
  unfold bucketStep, SpecSide.isOn.
  destruct (JS.truthyStr (eventDate ev)) as [d |].
  - destruct (String.eqb_spec d k) as [-> | Hne].
    + rewrite lookup_insert_eq. cbn [default].
      destruct (List.filter _ evs); [reflexivity |].
      unfold Datatypes.id. now rewrite <- app_assoc.
    + now rewrite lookup_insert_ne.
  - reflexivity.
Qed.

Section Host.
Variable toNumber : string -> option Q.
Variable localeCompare : string -> string -> comparison.

Lemma eventsByDay_lookup (k : string) (evs : list ContractItem) :
  eventsByDay toNumber localeCompare evs !! k
  = match List.filter (SpecSide.isOn k) evs with
    | [] => None
    | l => Some (JSArray.sort (eventCmp toNumber localeCompare) l)
    end.
Proof.
  unfold eventsByDay. rewrite lookup_fmap, bucket_fold, lookup_empty.
  destruct (List.filter _ evs); reflexivity.
Qed.

Lemma eventCmp_before (a b : ContractItem) :
  SpecSide.before (eventCmp toNumber localeCompare) a b
  <-> SpecSide.dayOrder toNumber localeCompare a b.
Proof.
  unfold SpecSide.before, SpecSide.dayOrder, eventCmp, SpecSide.minutesOf,
    SpecSide.nameOf.
  set (ta := toMinutes toNumber (eventTime a)).
  set (tb := toMinutes toNumber (eventTime b)).
  destruct (Qeq_bool ta tb) eqn:E; cbn [negb].
  - apply Qeq_bool_iff in E. split.
    + intros H. right. now split.
    + intros [H | [_ H]]; [| exact H]. rewrite E in H.
      now apply Qlt_irrefl in H.
  - apply Qeq_bool_neq in E. split.
    + intros H. left. destruct (ta ?= tb)%Q eqn:C.
      * now apply Qeq_alt in C.
      * now apply Qlt_alt.
      * congruence.
    + intros [H | [H _]]; [| contradiction].
      apply -> Qlt_alt in H. congruence.
Qed.

(** The collation is a consistent comparator. *)
Hypothesis lc_total :
  forall a b, localeCompare a b = Gt -> localeCompare b a <> Gt.
Hypothesis lc_trans :
  forall a b c, localeCompare a b <> Gt -> localeCompare b c <> Gt ->
                localeCompare a c <> Gt.

Lemma eventCmp_total (a b : ContractItem) :
  eventCmp toNumber localeCompare a b = Gt ->
  eventCmp toNumber localeCompare b a <> Gt.
Proof.
  intros H. apply eventCmp_before. unfold SpecSide.dayOrder.
  unfold eventCmp in H. fold (SpecSide.minutesOf toNumber a) in H.
  fold (SpecSide.minutesOf toNumber b) in H.
  fold (SpecSide.nameOf a) in H. fold (SpecSide.nameOf b) in H.
  destruct (Qeq_bool _ _) eqn:E; cbn [negb] in H.
  - apply Qeq_bool_iff in E. right. split; [now symmetry | now apply lc_total].
  - left. now apply Qgt_alt in H.
Qed.

Lemma eventCmp_trans (a b c : ContractItem) :
  SpecSide.before (eventCmp toNumber localeCompare) a b ->
  SpecSide.before (eventCmp toNumber localeCompare) b c ->
  SpecSide.before (eventCmp toNumber localeCompare) a c.
Proof.
  rewrite !eventCmp_before. unfold SpecSide.dayOrder.
  intros [H1 | [H1 N1]] [H2 | [H2 N2]].
  - left. now apply Qlt_trans with (SpecSide.minutesOf toNumber b).
  - left. now rewrite <- H2.
  - left. now rewrite H1.
  - right. split; [now rewrite H1 | now apply lc_trans with (SpecSide.nameOf b)].
Qed.

(** C7: a day bucket holds the events filed under that day, in an order
    where of any two the earlier in the list has the earlier time of day,
    or the same time and a name that does not sort after the other's. *)
Theorem day_bucket_sorted (evs : list ContractItem) (k : string)
  (bucket : list ContractItem) :
  eventsByDay toNumber localeCompare evs !! k = Some bucket ->
  (forall (i j : nat) (a b : ContractItem),
      (i < j)%nat -> bucket !! i = Some a -> bucket !! j = Some b ->
      SpecSide.dayOrder toNumber localeCompare a b)
  /\ Permutation bucket (List.filter (SpecSide.isOn k) evs).
Proof.
  rewrite eventsByDay_lookup. intros H.
  assert (E : bucket = JSArray.sort (eventCmp toNumber localeCompare)
                         (List.filter (SpecSide.isOn k) evs)).
  { destruct (List.filter _ evs); [discriminate | now injection H]. }
  clear H. subst bucket. split.
  - intros i j a b Hij Ha Hb. apply eventCmp_before.
    eapply SortProps.sorted_lookup; [| exact Hij | exact Ha | exact Hb].
    apply SortProps.sort_sorted; [exact eventCmp_total | exact eventCmp_trans].
  - apply SortProps.sort_perm.
Qed.

End Host.

Lemma codeUnitCompare_total (a b : string) :
  Examples.codeUnitCompare a b = Gt -> Examples.codeUnitCompare b a <> Gt.
Proof.
  unfold Examples.codeUnitCompare. intros H.
  destruct (String_as_OT.compare_spec a b) as [E | L | L]; try discriminate.
  unfold String_as_OT.lt in L. congruence.
Qed.

Lemma codeUnitCompare_trans (a b c : string) :
  Examples.codeUnitCompare a b <> Gt -> Examples.codeUnitCompare b c <> Gt ->
  Examples.codeUnitCompare a c <> Gt.
Proof.
  unfold Examples.codeUnitCompare. intros H1 H2.
  pose proof (String_as_OT.compare_spec a b) as S1.
  pose proof (String_as_OT.compare_spec b c) as S2.
  inversion S1 as [E1 C1 | L1 C1 | L1 C1];
    [unfold String_as_OT.eq in E1; now subst b | | congruence].
  inversion S2 as [E2 C2 | L2 C2 | L2 C2];
    [unfold String_as_OT.eq in E2; now subst c | | congruence].
  assert (L : String_as_OT.lt a c) by (etransitivity; eassumption).
  unfold String_as_OT.lt in L. congruence.
Qed.

(** Four events of one day: the two without a time come first, by name,
    then 09:00, then 10:30. *)
Lemma day_bucket_sorted_witness :
  eventsByDay Examples.decimalNumber Examples.codeUnitCompare Examples.sameDay
    !! "2024-01-31"%string
  = Some [Examples.eventAt "Abel" None None None None;
          Examples.eventAt "Caio" None None None None;
          Examples.eventAt "Bea" (Some "09:00"%string) None None None;
          Examples.eventAt "Ana" (Some "10:30"%string) None None None]
  /\ SpecSide.dayOrder Examples.decimalNumber Examples.codeUnitCompare
       (Examples.eventAt "Abel" None None None None)
       (Examples.eventAt "Caio" None None None None).
Proof.
  assert (E : eventsByDay Examples.decimalNumber Examples.codeUnitCompare
                Examples.sameDay !! "2024-01-31"%string
              = Some [Examples.eventAt "Abel" None None None None;
                      Examples.eventAt "Caio" None None None None;
                      Examples.eventAt "Bea" (Some "09:00"%string) None None None;
                      Examples.eventAt "Ana" (Some "10:30"%string) None None None])
    by (vm_compute; reflexivity).
  split; [exact E |].
  apply (proj1 (day_bucket_sorted Examples.decimalNumber Examples.codeUnitCompare
                  codeUnitCompare_total codeUnitCompare_trans
                  Examples.sameDay "2024-01-31" _ E) 0%nat 1%nat);
    [lia | reflexivity | reflexivity].
Defined.

End BucketProps.

(** ** Budget Envelope Ledger *)

Module LedgerProps.
Import BudgetPlanner.

Lemma orNum_some (v : Q) : (JS.orNum (Some v) 0 == v)%Q.
Proof.
  unfold JS.orNum. destruct (Qeq_bool v 0) eqn:E; [| reflexivity].
  apply Qeq_bool_iff in E. now symmetry.
Qed.

Lemma max0_of_nonneg (x : Q) : (0 <= x)%Q -> (JS.max0 x == x)%Q.
Proof.
  intros H. unfold JS.max0.
  destruct (Q.max_spec 0 x) as [[_ E] | [L E]]; rewrite E; [reflexivity | lra].
Qed.

Lemma load_envelope (d : Db) (i : string) :
  envelopes (loadBudgetData d) !! i = envelopeOfDoc i <$> budget_envelopes d !! i.
Proof.
  unfold loadBudgetData. cbn [envelopes]. rewrite map_lookup_imap.
  now destruct (budget_envelopes d !! i).
Qed.

Lemma load_transaction (d : Db) (i : string) :
  transactions (loadBudgetData d) !! i
  = transactionOfDoc i <$> budget_transactions d !! i.
Proof.
  unfold loadBudgetData. cbn [transactions]. rewrite map_lookup_imap.
  now destruct (budget_transactions d !! i).
Qed.

End LedgerProps.

(** ** The ledger on binary64 numbers *)

Module Ledger64Props.
Import PrimFloat BudgetPlanner64.

Lemma positive_not_le (a : float) :
  (0 <? a)%float = true -> (a <=? 0)%float = false.
Proof.
  rewrite FloatAxioms.ltb_spec, FloatAxioms.leb_spec.
  change (FloatOps.Prim2SF 0%float) with (SpecFloat.S754_zero false).
  destruct (FloatOps.Prim2SF a) as [s | s | | s m e]; try destruct s;
    cbn; congruence.
Qed.

Lemma SFcompare_refl (x : SpecFloat.spec_float) :
  x <> SpecFloat.S754_nan -> SpecFloat.SFcompare x x = Some Eq.
Proof.
  destruct x as [s | s | | s m e]; intros H; try destruct s; cbn;
    try reflexivity; try contradiction;
    rewrite Z.compare_refl;
    change (PosDef.Pos.compare_cont Eq m m) with (Pos.compare m m);
    now rewrite Pos.compare_refl.
Qed.

Lemma is_nan_spec (x : float) :
  is_nan x = true <-> FloatOps.Prim2SF x = SpecFloat.S754_nan.
Proof.
  unfold is_nan. rewrite FloatAxioms.eqb_spec. unfold SpecFloat.SFeqb.
  split.
  - intros H. destruct (FloatOps.Prim2SF x) as [s | s | | s m e] eqn:E;
      try reflexivity;
      rewrite SFcompare_refl in H by discriminate; discriminate.
  - intros ->. reflexivity.
Qed.

Lemma positive_not_nan (a : float) :
  (0 <? a)%float = true -> is_nan a = false.
Proof.
  intros H. destruct (is_nan a) eqn:E; [| reflexivity].
  apply is_nan_spec in E. rewrite FloatAxioms.ltb_spec, E in H.
  change (FloatOps.Prim2SF 0%float) with (SpecFloat.S754_zero false) in H.
  discriminate.
Qed.

Lemma between_zeros (s : float) :
  (s <=? 0)%float = true -> (0 <=? s)%float = true -> (s =? 0)%float = true.
Proof.
  rewrite !FloatAxioms.leb_spec, FloatAxioms.eqb_spec.
  change (FloatOps.Prim2SF 0%float) with (SpecFloat.S754_zero false).
  destruct (FloatOps.Prim2SF s) as [z | z | | z m e]; try destruct z;
    cbn; congruence.
Qed.

(** A sum that reads as falsy cannot give back a number that is not
    negative once a positive amount is taken off it. *)
Lemma falsy_less_positive (x a : float) :
  is_nan x || (x =? 0)%float = true -> (0 <? a)%float = true ->
  (0 <=? x - a)%float = false.
Proof.
  intros H Ha.
  rewrite FloatAxioms.leb_spec, FloatAxioms.sub_spec.
  rewrite FloatAxioms.ltb_spec in Ha.
  change (FloatOps.Prim2SF 0%float) with (SpecFloat.S754_zero false) in *.
  apply orb_true_iff in H as [H | H].
  - apply is_nan_spec in H. rewrite H. reflexivity.
  - rewrite FloatAxioms.eqb_spec in H.
    change (FloatOps.Prim2SF 0%float) with (SpecFloat.S754_zero false) in H.
    destruct (FloatOps.Prim2SF x) as [sx | sx | | sx mx ex];
      try destruct sx; try discriminate H;
      destruct (FloatOps.Prim2SF a) as [sa | sa | | sa ma ea];
      try destruct sa; try discriminate Ha; reflexivity.
Qed.

Lemma orNum_truthy (v : float) :
  is_nan v || (v =? 0)%float = false -> orNum (Some v) 0 = v.
Proof. intros H. unfold orNum. now rewrite H. Qed.

Lemma orNum_idem (x : option float) :
  orNum (Some (orNum x 0)) 0 = orNum x 0.
Proof.
  destruct x as [v |]; [| reflexivity].
  destruct (is_nan v || (v =? 0)%float) eqn:E.
  - assert (Z : orNum (Some v) 0 = 0%float) by (unfold orNum; now rewrite E).
    rewrite Z. reflexivity.
  - rewrite (orNum_truthy v E). now apply orNum_truthy.
Qed.

Lemma max0_normal (x : option float) :
  (0 <=? orNum x 0)%float = true -> max0 (orNum x 0) = orNum x 0.
Proof.
  intros H. unfold max0.
  destruct (orNum x 0 <=? 0)%float eqn:L; [| reflexivity].
  pose proof (between_zeros _ L H) as Z.
  destruct x as [v |]; [| reflexivity]. unfold orNum in *.
  destruct (is_nan v || (v =? 0)%float) eqn:E; [reflexivity |].
  apply orb_false_iff in E as [_ E]. congruence.
Qed.

Section Queries.
Variable envelopesQuery : gmap string EnvelopeDoc -> list (string * EnvelopeDoc).
Variable transactionsQuery :
  gmap string TransactionDoc -> list (string * TransactionDoc).

Local Abbreviation load := (loadBudgetData envelopesQuery transactionsQuery).

Lemma load64_envelope (d : Db) (i : string) :
  envelopes (load d) !! i = envelopeOfDoc i <$> budget_envelopes d !! i.
Proof.
  unfold loadBudgetData. cbn [envelopes]. rewrite map_lookup_imap.
  now destruct (budget_envelopes d !! i).
Qed.

Lemma load64_transaction (d : Db) (i : string) :
  transactions (load d) !! i
  = transactionOfDoc i <$> budget_transactions d !! i.
Proof.
  unfold loadBudgetData. cbn [transactions]. rewrite map_lookup_imap.
  now destruct (budget_transactions d !! i).
Qed.

(** C8, on the numbers of the code.  On a ledger whose view is up to
    date, for an envelope whose spent total is not negative and a
    positive amount such that the sum of the two less the amount is the
    spent total again, adding the expense sets the spent total to the
    sum, and deleting the transaction just created brings the spent
    total, the available balance and the transactions of the store back
    to what they were; the other envelopes are as before. *)
Theorem expense_add_delete (st : State) (sel : string) (envelope : Envelope)
  (amt : float) (descriptionInput newId nowIsoDay nowIso : string) :
  budgetData st = load (db st) ->
  sel <> EmptyString ->
  envelopes (budgetData st) !! sel = Some envelope ->
  (0 <=? spent envelope)%float = true ->
  (0 <? amt)%float = true ->
  budget_transactions (db st) !! newId = None ->
  ((spent envelope + amt) - amt)%float = spent envelope ->
  let st1 := handleAddExpense envelopesQuery transactionsQuery (Some sel)
               (Some amt) descriptionInput newId nowIsoDay nowIso st in
  let st2 := handleDeleteTransaction envelopesQuery transactionsQuery
               true newId st1 in
  (exists e1 tx,
      envelopes (budgetData st1) !! sel = Some e1
      /\ spent e1 = (spent envelope + amt)%float
      /\ available e1 = (allocated envelope - (spent envelope + amt))%float
      /\ transactions (budgetData st1) !! newId = Some tx
      /\ amount tx = amt /\ type tx = BudgetPlanner.expense
      /\ envelopeId tx = Some sel)
  /\ (exists e2,
        envelopes (budgetData st2) !! sel = Some e2
        /\ spent e2 = spent envelope
        /\ available e2 = available envelope
        /\ allocated e2 = allocated envelope)
  /\ budget_transactions (db st2) = budget_transactions (db st)
  /\ (forall other, other <> sel ->
        envelopes (budgetData st2) !! other = envelopes (budgetData st) !! other).
Proof.
  intros Hsync Hsel Henv Hspent Hamt Hfresh Hexact st1 st2.
  rewrite Hsync, load64_envelope in Henv.
  destruct (budget_envelopes (db st) !! sel) as [data |] eqn:Hdoc;
    [| discriminate].
  injection Henv as <-.
  assert (Ht : JS.truthyStr (Some sel) = Some sel) by (now destruct sel).
  cbn [spent allocated available envelopeOfDoc] in *.
  set (s0 := orNum (d_spent data) 0) in *.
  set (a0 := orNum (d_allocated data) 0).
  (* the sum is a number other than zero *)
  assert (Hx : is_nan (s0 + amt) || (s0 + amt =? 0)%float = false).
  { destruct (is_nan (s0 + amt) || (s0 + amt =? 0)%float) eqn:E;
      [| reflexivity].
    pose proof (falsy_less_positive _ _ E Hamt) as C.
    rewrite Hexact in C. congruence. }
  (* the state after the expense *)
  set (tx := {| d_date := nowIsoDay;
                d_description := match descriptionInput with
                                 | EmptyString => "Gasto"%string
                                 | _ => descriptionInput
                                 end;
                d_category := name (envelopeOfDoc sel data);
                d_type := BudgetPlanner.expense; d_amount := amt;
                d_envelopeId := Some sel; d_timestamp := Some nowIso |}).
  set (data1 := {| d_name := d_name data; d_percentage := d_percentage data;
                   d_allocated := d_allocated data;
                   d_spent := Some (s0 + amt)%float |}).
  set (d1 := {| budget_envelopes := <[sel := data1]> (budget_envelopes (db st));
                budget_transactions := <[newId := tx]> (budget_transactions (db st)) |}).
  assert (E1 : st1 = {| db := d1; budgetData := load d1 |}).
  { subst st1. unfold handleAddExpense. rewrite Ht.
    rewrite (positive_not_nan amt Hamt), (positive_not_le amt Hamt).
    rewrite Hsync, load64_envelope, Hdoc. cbn [fmap option_fmap option_map].
    unfold updateSpent, addTransaction. cbn [budget_envelopes budget_transactions].
    rewrite Hdoc. reflexivity. }
  assert (S1 : spent (envelopeOfDoc sel data1) = (s0 + amt)%float)
    by (apply orNum_truthy, Hx).
  (* the state after the deletion *)
  set (data2 := {| d_name := d_name data1; d_percentage := d_percentage data1;
                   d_allocated := d_allocated data1; d_spent := Some s0 |}).
  set (d2 := {| budget_envelopes := <[sel := data2]> (budget_envelopes d1);
                budget_transactions := delete newId (budget_transactions d1) |}).
  assert (E2 : st2 = {| db := d2; budgetData := load d2 |}).
  { subst st2. rewrite E1. unfold handleDeleteTransaction.
    cbn [negb db budgetData]. rewrite load64_transaction.
    rewrite (lookup_insert_eq (budget_transactions (db st)) newId tx
             : budget_transactions d1 !! newId = Some tx).
    cbn [fmap option_fmap option_map transactionOfDoc envelopeId type tx
         d_envelopeId d_type amount d_amount].
    rewrite Ht, load64_envelope.
    rewrite (lookup_insert_eq (budget_envelopes (db st)) sel data1
             : budget_envelopes d1 !! sel = Some data1).
    cbn [fmap option_fmap option_map].
    rewrite S1, Hexact. unfold s0. rewrite (max0_normal _ Hspent). fold s0.
    unfold updateSpent.
    rewrite (lookup_insert_eq (budget_envelopes (db st)) sel data1
             : budget_envelopes d1 !! sel = Some data1).
    reflexivity. }
  assert (S2 : spent (envelopeOfDoc sel data2) = s0)
    by (apply orNum_idem).
  split; [| split; [| split]].
  - exists (envelopeOfDoc sel data1), (transactionOfDoc newId tx).
    rewrite E1. cbn [budgetData].
    rewrite load64_envelope, load64_transaction.
    cbn [d1 budget_envelopes budget_transactions].
    rewrite !lookup_insert_eq.
    repeat split; try reflexivity; [exact S1 |].
    cbn [available envelopeOfDoc] in *. cbn [spent envelopeOfDoc] in S1.
    now rewrite S1.
  - exists (envelopeOfDoc sel data2).
    rewrite E2. cbn [budgetData]. rewrite load64_envelope.
    cbn [d2 budget_envelopes]. rewrite lookup_insert_eq.
    repeat split; try reflexivity; [exact S2 |].
    cbn [available envelopeOfDoc] in *. cbn [spent envelopeOfDoc] in S2.
    now rewrite S2.
  - rewrite E2. cbn [db d2 d1 budget_transactions].
    now apply delete_insert_id.
  - intros other Hne. rewrite E2, Hsync. cbn [budgetData].
    rewrite !load64_envelope. cbn [d2 d1 budget_envelopes].
    now rewrite !lookup_insert_ne by congruence.
Qed.

End Queries.

(** The scenario of the specification: 1000 allocated and 600 spent; an
    expense of 200 gives 800 spent and 200 available; deleting it gives
    600 spent and 400 available again. *)
Lemma expense_add_delete_witness :
  let st1 := handleAddExpense Budget64Examples.envelopesInOrder Budget64Examples.transactionsInOrder (Some "env1"%string)
               (Some 200%float) "Lente" "tx1" "2024-06-15"
               "2024-06-15T12:00:00.000Z" (Budget64Examples.ledgerWith 600) in
  let st2 := handleDeleteTransaction Budget64Examples.envelopesInOrder Budget64Examples.transactionsInOrder true "tx1" st1 in
  (exists e1, envelopes (budgetData st1) !! "env1"%string = Some e1
              /\ spent e1 = 800%float /\ available e1 = 200%float)
  /\ (exists e2, envelopes (budgetData st2) !! "env1"%string = Some e2
                 /\ spent e2 = 600%float /\ available e2 = 400%float).
Proof.
  intros st1 st2.
  assert (H0 : (0 <=? spent (Budget64Examples.envelopeWith 600))%float = true)
    by (vm_compute; reflexivity).
  assert (H1 : (0 <? 200)%float = true) by (vm_compute; reflexivity).
  assert (E : envelopes (budgetData (Budget64Examples.ledgerWith 600))
              !! "env1"%string
              = Some (Budget64Examples.envelopeWith 600))
    by (vm_compute; reflexivity).
  assert (F : budget_transactions (db (Budget64Examples.ledgerWith 600))
              !! "tx1"%string = None)
    by (vm_compute; reflexivity).
  assert (N : "env1"%string <> EmptyString) by discriminate.
  assert (X : ((spent (Budget64Examples.envelopeWith 600) + 200) - 200)%float
              = spent (Budget64Examples.envelopeWith 600))
    by (vm_compute; reflexivity).
  destruct (expense_add_delete Budget64Examples.envelopesInOrder Budget64Examples.transactionsInOrder
              (Budget64Examples.ledgerWith 600) "env1"
              (Budget64Examples.envelopeWith 600) 200 "Lente" "tx1"
              "2024-06-15" "2024-06-15T12:00:00.000Z" eq_refl N E H0 H1 F X)
    as ((e1 & tx & L1 & S1 & A1 & _) & (e2 & L2 & S2 & A2 & _) & _).
  split.
  - exists e1. split; [exact L1 |]. split.
    + rewrite S1. vm_compute. reflexivity.
    + rewrite A1. vm_compute. reflexivity.
  - exists e2. split; [exact L2 |]. split.
    + rewrite S2. reflexivity.
    + rewrite A2. vm_compute. reflexivity.
Defined.

(** C8 fails as stated.  With 0.1 spent, an expense of 0.2 added and
    then deleted leaves 0.10000000000000003 spent.  And on a view that
    shows 600 spent while the store holds 700, an expense of 200 added
    and then deleted leaves 600 in the store. *)
#[warnings="-inexact-float"]
Lemma expense_add_delete_counterexample :
  (let st := Budget64Examples.ledgerWith 0.1 in
   let st2 := Budget64Examples.addThenDelete 0.2 st in
   (0 <=? 0.1)%float = true /\ (0 <? 0.2)%float = true
   /\ envelopes (budgetData st) !! "env1"%string
      = Some (Budget64Examples.envelopeWith 0.1)
   /\ envelopes (budgetData st2) !! "env1"%string
      = Some (Budget64Examples.envelopeWith 0.10000000000000003)
   /\ (0.10000000000000003 =? 0.1)%float = false)
  /\ (let st := Budget64Examples.staleLedger in
      let st2 := Budget64Examples.addThenDelete 200 st in
      envelopes (budgetData st) !! "env1"%string
      = Some (Budget64Examples.envelopeWith 600)
      /\ budget_envelopes (db st) !! "env1"%string
         = budget_envelopes (Budget64Examples.storeWith 700) !! "env1"%string
      /\ budget_envelopes (db st2) !! "env1"%string
         = budget_envelopes (Budget64Examples.storeWith 600) !! "env1"%string).
Proof.
  split; vm_compute; repeat split.
Qed.

End Ledger64Props.


(** ** Period Filter, further properties *)

Module PeriodMore.
Import FinancialDashboard.

Section Host.
Variable newDate : string -> JSDate.t.
Variables tz now : Z.

Lemma isInPeriod_all (p : Period) (d : option string) :
  p_type p = PAll ->
  isInPeriod newDate tz now p d = true
  <-> exists s tv, JS.truthyStr d = Some s /\ newDate s = Some tv.
Proof.
  intros Hp. unfold isInPeriod. rewrite Hp.
  destruct (JS.truthyStr d) as [s |].
  - destruct (newDate s) as [tv |] eqn:E.
    + split; [intros _; now exists s, tv | reflexivity].
    + split; [discriminate | intros (s' & tv & H & H'); congruence].
  - split; [discriminate | intros (s' & tv & H & _); discriminate].
Qed.

(** X1: the periods are nested: what the current month accepts the current
    year accepts, and what any period accepts the period [all] accepts. *)
Theorem periods_nested (pm py pa p : Period) (d : option string) :
  p_type pm = PMonth -> p_type py = PYear -> p_type pa = PAll ->
  (isInPeriod newDate tz now pm d = true ->
   isInPeriod newDate tz now py d = true)
  /\ (isInPeriod newDate tz now p d = true ->
      isInPeriod newDate tz now pa d = true).
Proof.
  intros Hm Hy Ha. split.
  - unfold isInPeriod. rewrite Hm, Hy.
    destruct (JS.truthyStr d) as [s |]; [| discriminate].
    destruct (newDate s) as [tv |]; [| discriminate].
    intros H. now apply andb_true_iff in H.
  - intros H. apply (isInPeriod_all pa d Ha).
    unfold isInPeriod in H.
    destruct (JS.truthyStr d) as [s |]; [| discriminate].
    destruct (newDate s) as [tv |] eqn:E; [| discriminate].
    now exists s, tv.
Qed.

End Host.

Lemma periods_nested_witness :
  isInPeriod JSDate.parseIso 0 Examples.midJune2024 Examples.january2024
    (Some "2024-01-15"%string) = true
  /\ isInPeriod JSDate.parseIso 0 Examples.midJune2024 Examples.allTime
       (Some "2024-01-15"%string) = true.
Proof.
  assert (H : isInPeriod JSDate.parseIso 0 Examples.midJune2024
                Examples.january2024 (Some "2024-01-15"%string) = true)
    by (vm_compute; reflexivity).
  split; [exact H |].
  exact (proj2 (periods_nested JSDate.parseIso 0 Examples.midJune2024
                  {| p_type := PMonth; p_start := None; p_end := None |}
                  {| p_type := PYear; p_start := None; p_end := None |}
                  Examples.allTime Examples.january2024
                  (Some "2024-01-15"%string) eq_refl eq_refl eq_refl) H).
Defined.

End PeriodMore.

(** ** Monthly Aggregator, further properties *)

Module MonthlyMore.
Import FinancialDashboard.

Lemma sumZ_insert (f : MonthRow -> Z) (rows : list MonthRow) (i : nat)
  (r r' : MonthRow) :
  rows !! i = Some r ->
  DashboardSpec.sumZ f (<[i := r']> rows) = DashboardSpec.sumZ f rows - f r + f r'.
Proof.
  unfold DashboardSpec.sumZ. revert i.
  induction rows as [| x rows IH]; intros [| i] H; try discriminate.
  - injection H as ->. cbn. lia.
  - change (<[S i := r']> (x :: rows)) with (x :: <[i := r']> rows).
    cbn [List.map fold_right]. rewrite (IH i H). lia.
Qed.

Lemma sumQ_insert (f : MonthRow -> Q) (rows : list MonthRow) (i : nat)
  (r r' : MonthRow) :
  rows !! i = Some r ->
  (DashboardSpec.sumQ f (<[i := r']> rows)
   == DashboardSpec.sumQ f rows - f r + f r')%Q.
Proof.
  unfold DashboardSpec.sumQ. revert i.
  induction rows as [| x rows IH]; intros [| i] H; try discriminate.
  - injection H as ->. cbn [List.map fold_right list_insert insert]. cbn. lra.
  - change (<[S i := r']> (x :: rows)) with (x :: <[i := r']> rows).
    cbn [List.map fold_right]. rewrite (IH i H). lra.
Qed.

(** What replacing one row by a bumped one does to a table. *)
Lemma bump_table (monthLabel : Z -> string) (rows : list MonthRow) (m : nat)
  (r r' : MonthRow) (di de df : Z) (dx : Q) :
  rows !! m = Some r ->
  DashboardSpec.bumped r r' di de df dx ->
  let rows' := <[m := r']> rows in
  length rows' = length rows
  /\ DashboardSpec.sumZ income rows' = DashboardSpec.sumZ income rows + di
  /\ DashboardSpec.sumZ earned rows' = DashboardSpec.sumZ earned rows + de
  /\ DashboardSpec.sumZ forecast rows' = DashboardSpec.sumZ forecast rows + df
  /\ (DashboardSpec.sumQ expenses rows'
      == DashboardSpec.sumQ expenses rows + dx)%Q
  /\ (DashboardSpec.tableOk monthLabel rows ->
      DashboardSpec.tableOk monthLabel rows').
Proof.
  intros Hr (Bk & Bm & Bi & Be & Bf & Bx & Bp). cbv zeta.
  split; [apply length_insert |].
  rewrite !(sumZ_insert _ _ _ _ _ Hr), Bi, Be, Bf.
  split; [lia |]. split; [lia |]. split; [lia |].
  split; [rewrite (sumQ_insert _ _ _ _ _ Hr), Bx; lra |].
  intros Ok i x Hx.
  destruct (Nat.eq_dec m i) as [<- | Hne].
  - rewrite list_lookup_insert_eq in Hx by (now apply lookup_lt_Some in Hr).
    injection Hx as <-.
    destruct (Ok m r Hr) as (K & M & P).
    rewrite Bk, Bm, Bp, Bx, P, Be, inject_Z_plus.
    repeat split; [assumption | assumption | lra].
  - rewrite list_lookup_insert_ne in Hx by assumption. now apply Ok.
Qed.

Lemma emptyMonths_ok (monthLabel : Z -> string) :
  DashboardSpec.tableOk monthLabel (emptyMonths monthLabel).
Proof.
  intros i r H. unfold emptyMonths in H.
  do 12 (destruct i as [| i];
         [injection H as <-; repeat split; reflexivity |]).
  discriminate.
Qed.

Section Host.
Variable newDate : string -> JSDate.t.
Variables tz now : Z.
Variable monthLabel : Z -> string.

Let counted (period : Period) (c : Contract) : bool :=
  isInPeriod newDate tz now period (effectiveDate c).

(** One contract leaves the table as it is, or bumps one row. *)
Lemma monthlyContractStep_bump (period : Period) (rows : list MonthRow)
  (c : Contract) :
  length rows = 12%nat ->
  let a := a_total (contractAmounts c) in
  (counted period c = false
   /\ monthlyContractStep newDate tz now period (Some rows) c = Some rows)
  \/ (counted period c = true
      /\ exists (m : nat) (r r' : MonthRow),
           rows !! m = Some r
           /\ monthlyContractStep newDate tz now period (Some rows) c
              = Some (<[m := r']> rows)
           /\ DashboardSpec.bumped r r' a
                (if SpecSide.isCompleted c then a else 0)
                (if SpecSide.isUpcoming newDate tz now c then a else 0) 0).
Proof.
  intros L a. unfold counted, monthlyContractStep.
  rewrite (MonthlyProps.isInPeriod_effective newDate tz now period c).
  unfold SpecSide.isUpcoming, SpecSide.todayOrLater, SpecSide.isCompleted.
  destruct (effectiveDateStr c) as [| ch s]; [left; now split |].
  destruct (isInPeriod newDate tz now period (Some (String ch s))) eqn:P;
    cbn [negb]; [| left; now split].
  right. split; [reflexivity |].
  destruct (MonthlyProps.isInPeriod_valid newDate tz now _ _ P) as (d & Hd).
  rewrite Hd.
  match goal with |- context [updateMonth ?m ?u rows] =>
    destruct (MonthlyProps.updateMonth_total m u rows L
                (MonthlyProps.getMonth_range tz d)) as (r & Hr & ->) end.
  eexists _, r, _. split; [exact Hr |]. split; [reflexivity |].
  fold a. unfold DashboardSpec.bumped.
  destruct (JS.truthy (eventCompleted c)); cbn [negb andb];
    [| destruct (JSDate.geb (Some d) (today tz now))];
    cbn [key month income earned forecast expenses profit];
    repeat split; try lia; try reflexivity; change (inject_Z 0) with 0%Q; lra.
Qed.

(** One installment leaves the table as it is, or bumps one row. *)
Lemma monthlyInstallmentStep_bump (period : Period) (rows : list MonthRow)
  (inst : Installment) :
  length rows = 12%nat ->
  (DashboardSpec.installmentCounts newDate tz now period inst = false
   /\ monthlyInstallmentStep newDate tz now period (Some rows) inst = Some rows)
  \/ (DashboardSpec.installmentCounts newDate tz now period inst = true
      /\ exists (m : nat) (r r' : MonthRow),
           rows !! m = Some r
           /\ monthlyInstallmentStep newDate tz now period (Some rows) inst
              = Some (<[m := r']> rows)
           /\ DashboardSpec.bumped r r' 0 0 0
                (DashboardSpec.installmentAmount inst)).
Proof.
  intros L. unfold DashboardSpec.installmentCounts, monthlyInstallmentStep.
  destruct (JS.truthyStr (dueDate inst)) as [s |]; [| left; now split].
  destruct (isInPeriod newDate tz now period (Some s)) eqn:P;
    cbn [negb]; [| left; now split].
  right. split; [reflexivity |].
  destruct (MonthlyProps.isInPeriod_valid newDate tz now _ _ P) as (d & Hd).
  rewrite Hd.
  match goal with |- context [updateMonth ?m ?u rows] =>
    destruct (MonthlyProps.updateMonth_total m u rows L
                (MonthlyProps.getMonth_range tz d)) as (r & Hr & ->) end.
  eexists _, r, _. split; [exact Hr |]. split; [reflexivity |].
  unfold DashboardSpec.bumped, DashboardSpec.installmentAmount.
  cbn [key month income earned forecast expenses profit].
  repeat split; try lia; try reflexivity; change (inject_Z 0) with 0%Q; lra.
Qed.

(** The state of the table: its size, the sums of its columns and its
    row invariant. *)
Let tableIs (rows : list MonthRow) (i e f : Z) (x : Q) : Prop :=
  length rows = 12%nat
  /\ DashboardSpec.sumZ income rows = i
  /\ DashboardSpec.sumZ earned rows = e
  /\ DashboardSpec.sumZ forecast rows = f
  /\ (DashboardSpec.sumQ expenses rows == x)%Q
  /\ DashboardSpec.tableOk monthLabel rows.

Lemma monthlyContracts_table (period : Period) (cs : list Contract) :
  forall rows i e f x,
    tableIs rows i e f x ->
    exists rows',
      fold_left (monthlyContractStep newDate tz now period) cs (Some rows)
      = Some rows'
      /\ tableIs rows'
           (i + SpecSide.sumTotals (filteredContracts newDate tz now cs period))
           (e + SpecSide.sumTotals
                  (List.filter SpecSide.isCompleted
                     (filteredContracts newDate tz now cs period)))
           (f + SpecSide.sumTotals
                  (List.filter (SpecSide.isUpcoming newDate tz now)
                     (filteredContracts newDate tz now cs period)))
           x.
Proof.
  unfold tableIs.
  induction cs as [| c cs IH]; intros rows i e f x T.
  - exists rows. split; [reflexivity |]. cbn. now rewrite !Z.add_0_r.
  - destruct T as (L & Si & Se & Sf & Sx & Ok).
    cbn [fold_left]. unfold filteredContracts. cbn [List.filter].
    fold (counted period c).
    destruct (monthlyContractStep_bump period rows c L)
      as [(Hc & ->) | (Hc & m & r & r' & Hr & -> & B)]; rewrite Hc.
    + apply IH. repeat apply conj; assumption.
    + destruct (bump_table monthLabel rows m r r' _ _ _ _ Hr B)
        as (L' & Bi & Be & Bf & Bx & Bok).
      destruct (IH (<[m := r']> rows)
                  (i + a_total (contractAmounts c))
                  (e + if SpecSide.isCompleted c
                       then a_total (contractAmounts c) else 0)
                  (f + if SpecSide.isUpcoming newDate tz now c
                       then a_total (contractAmounts c) else 0)
                  x) as (rows' & E & T').
      { repeat apply conj; try lia; [rewrite Bx, Sx; lra | now apply Bok]. }
      exists rows'. split; [exact E |].
      destruct T' as (L2 & Ti & Te & Tf & Tx & Tok).
      repeat apply conj; try assumption.
      * rewrite Ti. unfold SpecSide.sumTotals, filteredContracts.
        cbn [List.map fold_right]. lia.
      * rewrite Te. cbn [List.filter].
        destruct (SpecSide.isCompleted c); unfold SpecSide.sumTotals,
          filteredContracts; cbn [List.map fold_right]; lia.
      * rewrite Tf. cbn [List.filter].
        destruct (SpecSide.isUpcoming newDate tz now c);
          unfold SpecSide.sumTotals, filteredContracts;
          cbn [List.map fold_right]; lia.
Qed.

Lemma monthlyInstallments_table (period : Period) (insts : list Installment) :
  forall rows i e f x,
    tableIs rows i e f x ->
    exists rows',
      fold_left (monthlyInstallmentStep newDate tz now period) insts (Some rows)
      = Some rows'
      /\ tableIs rows' i e f
           (x + DashboardSpec.sumInstallments
                  (List.filter
                     (DashboardSpec.installmentCounts newDate tz now period)
                     insts))%Q.
Proof.
  unfold tableIs.
  induction insts as [| inst insts IH]; intros rows i e f x T.
  - exists rows. split; [reflexivity |].
    destruct T as (L & Si & Se & Sf & Sx & Ok).
    repeat apply conj; try assumption. cbn. rewrite Sx. lra.
  - destruct T as (L & Si & Se & Sf & Sx & Ok).
    cbn [fold_left List.filter].
    destruct (monthlyInstallmentStep_bump period rows inst L)
      as [(Hc & ->) | (Hc & m & r & r' & Hr & -> & B)]; rewrite Hc.
    + apply IH. repeat apply conj; assumption.
    + destruct (bump_table monthLabel rows m r r' _ _ _ _ Hr B)
        as (L' & Bi & Be & Bf & Bx & Bok).
      destruct (IH (<[m := r']> rows) i e f
                  (x + DashboardSpec.installmentAmount inst)%Q)
        as (rows' & E & T').
      { repeat apply conj; try lia; [rewrite Bx, Sx; lra | now apply Bok]. }
      exists rows'. split; [exact E |].
      destruct T' as (L2 & Ti & Te & Tf & Tx & Tok).
      repeat apply conj; try assumption.
      rewrite Tx. unfold DashboardSpec.sumInstallments.
      cbn [List.map fold_right]. lra.
Qed.

End Host.

Lemma filter_idem {A} (f : A -> bool) (l : list A) :
  List.filter f (List.filter f l) = List.filter f l.
Proof.
  induction l as [| x l IH]; [reflexivity |].
  cbn [List.filter]. destruct (f x) eqn:E; [| exact IH].
  cbn [List.filter]. now rewrite E, IH.
Qed.

Lemma profit_sum (rows : list MonthRow) :
  (forall r, In r rows -> (profit r == inject_Z (earned r) - expenses r)%Q) ->
  (DashboardSpec.sumQ profit rows
   == inject_Z (DashboardSpec.sumZ earned rows)
      - DashboardSpec.sumQ expenses rows)%Q.
Proof.
  unfold DashboardSpec.sumQ, DashboardSpec.sumZ.
  induction rows as [| r rows IH]; intros H; [reflexivity |].
  cbn [List.map fold_right]. rewrite inject_Z_plus, IH, (H r).
  - lra.
  - now left.
  - intros x Hx. apply H. now right.
Qed.

Section Table.
Variable newDate : string -> JSDate.t.
Variables tz now : Z.
Variable nowIsoDay : string.
Variable monthLabel : Z -> string.

Lemma monthly_full (contracts : list Contract) (insts : list Installment)
  (period : Period) :
  let fc := filteredContracts newDate tz now contracts period in
  exists rows,
    computeMonthlyData newDate tz now monthLabel contracts insts period
    = Some rows
    /\ length rows = 12%nat
    /\ DashboardSpec.sumZ income rows = SpecSide.sumTotals fc
    /\ DashboardSpec.sumZ earned rows
       = SpecSide.sumTotals (List.filter SpecSide.isCompleted fc)
    /\ DashboardSpec.sumZ forecast rows
       = SpecSide.sumTotals
           (List.filter (SpecSide.isUpcoming newDate tz now) fc)
    /\ (DashboardSpec.sumQ expenses rows
        == DashboardSpec.sumInstallments
             (List.filter
                (DashboardSpec.installmentCounts newDate tz now period) insts))%Q
    /\ DashboardSpec.tableOk monthLabel rows.
Proof.
  intros fc. unfold computeMonthlyData.
  destruct (monthlyContracts_table newDate tz now monthLabel period contracts
              (emptyMonths monthLabel) 0 0 0 0%Q) as (r1 & E1 & T1).
  { repeat apply conj; try reflexivity. apply emptyMonths_ok. }
  destruct (monthlyInstallments_table newDate tz now monthLabel period insts
              r1 _ _ _ _ T1) as (r2 & E2 & L & Si & Se & Sf & Sx & Ok).
  exists r2. rewrite E1. split; [exact E2 |].
  repeat apply conj; try assumption. rewrite Sx. lra.
Qed.

(** X2: the monthly table is always returned, and every row keeps its
    place: row [i] has key [i] and the label of month [i].  When the
    amounts are whole numbers adding up to at most 2^53 in magnitude, the
    profit of every row is what it earned less its expenses. *)
Theorem monthly_rows_wellformed (contracts : list Contract)
  (insts : list Installment) (period : Period) :
  exists rows,
    computeMonthlyData newDate tz now monthLabel contracts insts period
    = Some rows
    /\ forall (i : nat) (r : MonthRow),
         rows !! i = Some r ->
         key r = Z.of_nat i /\ month r = monthLabel (Z.of_nat i)
         /\ (Exact.exact (DashboardSpec.amountsOf contracts insts) = true ->
             (profit r == inject_Z (earned r) - expenses r)%Q).
Proof.
  destruct (monthly_full contracts insts period) as (rows & E & _ & _ & _ & _ & _ & Ok).
  exists rows. split; [exact E |].
  intros i r Hr. destruct (Ok i r Hr) as (K & M & P).
  split; [exact K |]. split; [exact M |]. intros _. exact P.
Qed.

(** X3: over the twelve rows, earned adds up to the totals of the
    period-matching completed contracts, and forecast to the totals of
    the period-matching contracts that are not completed and whose date
    denotes an instant at or after the start of the current local day.
    When the amounts are whole numbers adding up to at most 2^53 in
    magnitude, expenses adds up to the amounts of the installments whose
    due date passes the period filter. *)
Theorem monthly_column_sums (contracts : list Contract)
  (insts : list Installment) (period : Period) :
  let fc := filteredContracts newDate tz now contracts period in
  exists rows,
    computeMonthlyData newDate tz now monthLabel contracts insts period
    = Some rows
    /\ DashboardSpec.sumZ earned rows
       = SpecSide.sumTotals (List.filter SpecSide.isCompleted fc)
    /\ DashboardSpec.sumZ forecast rows
       = SpecSide.sumTotals
           (List.filter (SpecSide.isUpcoming newDate tz now) fc)
    /\ (Exact.exact (DashboardSpec.amountsOf contracts insts) = true ->
        (DashboardSpec.sumQ expenses rows
         == DashboardSpec.sumInstallments
              (List.filter
                 (DashboardSpec.installmentCounts newDate tz now period)
                 insts))%Q).
Proof.
  intros fc.
  destruct (monthly_full contracts insts period)
    as (rows & E & _ & _ & Se & Sf & Sx & _).
  exists rows. repeat apply conj; try assumption. intros _. exact Sx.
Qed.

Lemma expenses_fold (period : Period) (insts : list Installment) :
  forall acc : Q,
    (fold_left (expensesStep newDate tz now period) insts acc
     == acc + DashboardSpec.sumInstallments
                (List.filter
                   (DashboardSpec.installmentCounts newDate tz now period)
                   insts))%Q.
Proof.
  induction insts as [| inst insts IH]; intros acc.
  - cbn. lra.
  - cbn [fold_left List.filter]. rewrite IH.
    unfold expensesStep, DashboardSpec.installmentCounts.
    destruct (JS.truthyStr (dueDate inst)) as [s |]; [| lra].
    destruct (isInPeriod newDate tz now period (Some s)) eqn:P;
      cbn [negb]; [| lra].
    destruct (MonthlyProps.isInPeriod_valid newDate tz now _ _ P) as (d & ->).
    unfold DashboardSpec.sumInstallments, DashboardSpec.installmentAmount.
    cbn [List.map fold_right]. lra.
Qed.

(** X4: the monthly table inside the metrics agrees with the headline
    figures: its earned column adds up to the revenue shown, the net
    profit shown is the revenue shown less the expenses shown, and the
    cash balance is the revenue.  When the amounts are whole numbers
    adding up to at most 2^53 in magnitude, the expenses column adds up
    to the expenses shown and the profit column to the net profit
    shown. *)
Theorem metrics_agree_with_table (contracts : list Contract)
  (insts : list Installment) (period : Period) :
  let m := metrics newDate tz now nowIsoDay monthLabel contracts insts period in
  exists rows,
    monthlyData m = Some rows
    /\ DashboardSpec.sumZ earned rows = currentMonthRevenue m
    /\ (currentMonthNetProfit m
        == inject_Z (currentMonthRevenue m) - currentMonthExpenses m)%Q
    /\ currentCashBalance m = currentMonthRevenue m
    /\ (Exact.exact (DashboardSpec.amountsOf contracts insts) = true ->
        (DashboardSpec.sumQ expenses rows == currentMonthExpenses m)%Q
        /\ (DashboardSpec.sumQ profit rows == currentMonthNetProfit m)%Q).
Proof.
  intros m. subst m. unfold metrics.
  cbn [monthlyData currentMonthRevenue currentMonthExpenses
       currentMonthNetProfit currentCashBalance].
  set (fc := filteredContracts newDate tz now contracts period).
  destruct (monthly_full fc insts period)
    as (rows & E & _ & _ & Se & _ & Sx & Ok).
  assert (Hidem : filteredContracts newDate tz now fc period = fc)
    by (unfold fc, filteredContracts; apply filter_idem).
  rewrite Hidem in Se.
  exists rows. split; [exact E |].
  destruct (MetricsProps.revenueLoop_from newDate tz now nowIsoDay fc
              {| totalRevenue := 0; completedRevenue := 0; futureRevenue := 0;
                 invoices := []; clientMap := [] |}) as (_ & C & _ & _).
  fold (revenueLoop newDate tz now nowIsoDay fc) in C.
  cbn [completedRevenue] in C.
  assert (Hx : (DashboardSpec.sumQ expenses rows
                == fold_left (expensesStep newDate tz now period) insts 0)%Q).
  { rewrite Sx, expenses_fold. lra. }
  assert (He : DashboardSpec.sumZ earned rows
               = completedRevenue (revenueLoop newDate tz now nowIsoDay fc))
    by (rewrite Se, C; lia).
  split; [exact He |]. split; [reflexivity |]. split; [reflexivity |].
  intros _. split; [exact Hx |].
  rewrite <- Hx, <- He. apply profit_sum.
  intros r Hr. apply list_elem_of_In, list_elem_of_lookup in Hr as (i & Hi).
  now destruct (Ok i r Hi) as (_ & _ & P).
Qed.

End Table.

End MonthlyMore.

(** ** Sorting, further properties *)

Module SortMore.

Section SortOn.
Context {A : Type}.
Variable cmp : A -> A -> comparison.
Variable P : A -> Prop.

Local Abbreviation before := (SpecSide.before cmp).

(** The comparator is consistent on the elements that satisfy [P]. *)
Hypothesis total_on : forall a b, P a -> P b -> cmp a b = Gt -> cmp b a <> Gt.
Hypothesis trans_on :
  forall a b c, P a -> P b -> P c -> before a b -> before b c -> before a c.

Lemma insert_sorted_on (x : A) (l : list A) :
  P x -> List.Forall P l -> StronglySorted before l ->
  StronglySorted before (JSArray.insert cmp x l).
Proof.
  intros Px Pl S. induction S as [| y l Hl IH Hy]; cbn [JSArray.insert].
  - repeat constructor.
  - apply List.Forall_cons_iff in Pl as (Py & Pl).
    assert (Keep : before x y ->
                   StronglySorted before (x :: y :: l)).
    { intros B. constructor; [constructor; assumption |].
      constructor; [exact B |].
      rewrite List.Forall_forall in Hy, Pl |- *. intros z Hz.
      apply trans_on with y; auto. }
    destruct (cmp x y) eqn:E;
      [apply Keep; unfold SpecSide.before; congruence
      | apply Keep; unfold SpecSide.before; congruence |].
    constructor; [now apply IH |].
    apply List.Forall_forall. intros z Hz.
    apply (Permutation_in _ (SortProps.insert_perm cmp x l)) in Hz.
    destruct Hz as [<- | Hz].
    + now apply total_on.
    + rewrite List.Forall_forall in Hy. now apply Hy.
Qed.

Lemma sort_sorted_on (l : list A) :
  List.Forall P l -> StronglySorted before (JSArray.sort cmp l).
Proof.
  induction l as [| x l IH]; intros Pl.
  - constructor.
  - change (JSArray.sort cmp (x :: l))
      with (JSArray.insert cmp x (JSArray.sort cmp l)).
    apply List.Forall_cons_iff in Pl as (Px & Pl).
    apply insert_sorted_on; [exact Px | | now apply IH].
    apply List.Forall_forall. intros z Hz.
    apply (proj1 (SortProps.sort_In cmp z l)) in Hz.
    rewrite List.Forall_forall in Pl. now apply Pl.
Qed.
End SortOn.

Lemma in_firstn {A} (n : nat) (l : list A) (x : A) :
  In x (firstn n l) -> In x l.
Proof.
  revert l. induction n as [| n IH]; intros [| y l] H; cbn in H; try contradiction.
  destruct H as [-> | H]; [now left | right; now apply IH].
Qed.

Lemma in_skipn {A} (n : nat) (l : list A) (x : A) :
  In x (skipn n l) -> In x l.
Proof.
  revert l. induction n as [| n IH]; intros [| y l] H; cbn in H;
    try contradiction; try exact H.
  right. now apply IH.
Qed.

(** In a sorted list every element of a prefix stands before every
    element of the rest. *)
Lemma sorted_split {A} (R : A -> A -> Prop) (n : nat) (l : list A) :
  StronglySorted R l ->
  StronglySorted R (firstn n l)
  /\ forall a b, In a (firstn n l) -> In b (skipn n l) -> R a b.
Proof.
  intros S. revert n.
  induction S as [| x l Hl IH Hx]; intros [| n]; cbn [firstn skipn].
  - split; [constructor | intros a b []].
  - split; [constructor | intros a b []].
  - split; [constructor | intros a b []].
  - destruct (IH n) as (S1 & S2). split.
    + constructor; [exact S1 |].
      rewrite List.Forall_forall in Hx |- *. intros z Hz.
      apply Hx. now apply (in_firstn n).
    + intros a b [<- | Ha] Hb.
      * rewrite List.Forall_forall in Hx. apply Hx. now apply (in_skipn n).
      * now apply S2.
Qed.

End SortMore.

(** ** Financial Metrics Reducer, further properties *)

Module MetricsMore.
Import FinancialDashboard.

Section Host.
Variable newDate : string -> JSDate.t.
Variables tz now : Z.
Variable nowIsoDay : string.
Variable monthLabel : Z -> string.

(** X5: the profit margin is 0 when no revenue is completed; otherwise it
    is the net profit as a percentage of the completed revenue, at most
    100 when the expenses are not negative and not negative when the
    expenses do not exceed the revenue. *)
Theorem profit_margin_bounds (contracts : list Contract)
  (insts : list Installment) (period : Period) :
  let m := metrics newDate tz now nowIsoDay monthLabel contracts insts period in
  (currentMonthRevenue m <= 0 -> profitMargin m = 0%Q)
  /\ (0 < currentMonthRevenue m ->
      (profitMargin m * inject_Z (currentMonthRevenue m)
       == currentMonthNetProfit m * 100)%Q
      /\ ((0 <= currentMonthExpenses m)%Q -> (profitMargin m <= 100)%Q)
      /\ ((currentMonthExpenses m <= inject_Z (currentMonthRevenue m))%Q ->
          (0 <= profitMargin m)%Q)).
Proof.
  intros m. subst m. unfold metrics.
  cbn [currentMonthRevenue currentMonthExpenses currentMonthNetProfit
       profitMargin].
  set (rev := completedRevenue _).
  set (exps := fold_left _ insts 0%Q).
  split.
  - intros H. destruct (Z.ltb_spec 0 rev); [lia | reflexivity].
  - intros H. destruct (Z.ltb_spec 0 rev); [| lia].
    assert (P : (0 < inject_Z rev)%Q)
      by (pose proof H as H'; rewrite Zlt_Qlt in H'; exact H').
    assert (N : ~ (inject_Z rev == 0)%Q) by lra.
    assert (E : ((inject_Z rev - exps) / inject_Z rev * 100
                 == (inject_Z rev - exps) * 100 / inject_Z rev)%Q)
      by (field; exact N).
    split; [field; exact N |]. split; intros Hx; rewrite E.
    + apply Qle_shift_div_r; [exact P | lra].
    + apply Qle_shift_div_l; [exact P | lra].
Qed.

Lemma max0_pos (x : Q) : (0 < JS.max0 x)%Q <-> (0 < x)%Q.
Proof.
  unfold JS.max0.
  destruct (Q.max_spec 0 x) as [[L E] | [L E]]; rewrite E; lra.
Qed.

(** X6: the expense breakdown lists only positive amounts; "Inversiones"
    is listed exactly when the expenses are positive, with the expenses
    as its amount, and "Otros Gastos" exactly when the completed revenue
    is positive, with a tenth of it as its amount. *)
Theorem expense_breakdown (contracts : list Contract)
  (insts : list Installment) (period : Period) :
  let m := metrics newDate tz now nowIsoDay monthLabel contracts insts period in
  (forall cat amt, In (cat, amt) (expensesByCategory m) ->
     (0 < amt)%Q
     /\ ((cat = "Inversiones"%string /\ amt = currentMonthExpenses m)
         \/ (cat = "Otros Gastos"%string
             /\ (amt == inject_Z (currentMonthRevenue m) * (1 # 10))%Q)))
  /\ ((exists amt, In ("Inversiones"%string, amt) (expensesByCategory m))
      <-> (0 < currentMonthExpenses m)%Q)
  /\ ((exists amt, In ("Otros Gastos"%string, amt) (expensesByCategory m))
      <-> 0 < currentMonthRevenue m).
Proof.
  intros m. subst m. unfold metrics.
  cbn [currentMonthRevenue currentMonthExpenses expensesByCategory].
  set (rev := completedRevenue _).
  set (exps := fold_left _ insts 0%Q).
  assert (R : (0 < inject_Z rev * (1 # 10))%Q <-> 0 < rev).
  { rewrite (Zlt_Qlt 0 rev). change (inject_Z 0) with 0%Q. split; intros; lra. }
  set (other := JS.max0 (inject_Z rev * (1 # 10))%Q).
  assert (Ho : (0 < other)%Q <-> 0 < rev)
    by (unfold other; rewrite max0_pos; exact R).
  assert (Char : forall cat amt,
             In (cat, amt)
                (List.filter (fun e => JS.gtb (snd e) 0)
                   [("Inversiones"%string, exps); ("Otros Gastos"%string, other)])
             <-> ((0 < exps)%Q /\ cat = "Inversiones"%string /\ amt = exps)
                 \/ ((0 < other)%Q /\ cat = "Otros Gastos"%string /\ amt = other)).
  { intros cat amt. rewrite filter_In. cbn [In snd]. rewrite gtb_true. split.
    - intros ([E | [E | []]] & Hp); injection E as <- <-; [left | right];
        repeat split; exact Hp.
    - intros [(Hp & -> & ->) | (Hp & -> & ->)]; (split; [| exact Hp]);
        [left | right; left]; reflexivity. }
  split; [| split].
  - intros cat amt Hin. apply Char in Hin.
    destruct Hin as [(Hp & -> & ->) | (Hp & -> & ->)]; (split; [exact Hp |]).
    + left. now split.
    + right. split; [reflexivity |]. unfold other.
      apply LedgerProps.max0_of_nonneg. apply Ho, R in Hp. lra.
  - split.
    + intros (amt & Hin). apply Char in Hin.
      destruct Hin as [(Hp & _) | (_ & E & _)]; [exact Hp | discriminate E].
    + intros Hp. exists exps. apply Char. left. now repeat split.
  - split.
    + intros (amt & Hin). apply Char in Hin.
      destruct Hin as [(_ & E & _) | (Hp & _)]; [discriminate E | now apply Ho].
    + intros Hp. exists other. apply Char. right. repeat split. now apply Ho.
Qed.

(** An invoice as the loop of [metrics] makes them: pending, and due
    today or later. *)
Let dueOk (i : Invoice) : Prop :=
  inv_status i = Pendiente
  /\ JSDate.geb (DashboardSpec.dueTime newDate i) (today tz now) = true.

Lemma revenueStep_invoices (acc : Revenue) (c : Contract) :
  List.Forall dueOk (invoices acc) ->
  List.Forall dueOk (invoices (revenueStep newDate tz now nowIsoDay acc c)).
Proof.
  intros H. unfold revenueStep.
  destruct (JS.truthy (eventCompleted c)); cbn [invoices]; [exact H |].
  destruct (effectiveDateStr c) as [| ch s]; cbn [invoices]; [exact H |].
  destruct (JSDate.geb (newDate (String ch s)) (today tz now)) eqn:G;
    cbn [invoices]; [| exact H].
  apply List.Forall_app. split; [exact H |].
  constructor; [| constructor]. split; [reflexivity | exact G].
Qed.

Lemma revenueLoop_invoices (cs : list Contract) :
  forall acc,
    List.Forall dueOk (invoices acc) ->
    List.Forall dueOk
      (invoices (fold_left (revenueStep newDate tz now nowIsoDay) cs acc)).
Proof.
  induction cs as [| c cs IH]; intros acc H; [exact H |].
  cbn [fold_left]. apply IH. now apply revenueStep_invoices.
Qed.

Lemma dueOk_time (i : Invoice) :
  dueOk i -> exists x, DashboardSpec.dueTime newDate i = Some x.
Proof.
  intros (_ & G). destruct (DashboardSpec.dueTime newDate i) as [x |];
    [now exists x | discriminate].
Qed.

Lemma invoice_before (a b : Invoice) :
  dueOk a -> dueOk b -> SpecSide.before (invoiceCmp newDate) a b ->
  exists x y, DashboardSpec.dueTime newDate a = Some x
              /\ DashboardSpec.dueTime newDate b = Some y /\ x <= y.
Proof.
  intros Ha Hb B.
  destruct (dueOk_time a Ha) as (x & Hx), (dueOk_time b Hb) as (y & Hy).
  exists x, y. split; [exact Hx |]. split; [exact Hy |].
  unfold SpecSide.before, invoiceCmp in B.
  unfold DashboardSpec.dueTime in Hx, Hy. rewrite Hx, Hy in B.
  destruct (Z.compare_spec x y); [lia | lia | congruence].
Qed.

Lemma invoiceCmp_total_on (a b : Invoice) :
  dueOk a -> dueOk b ->
  invoiceCmp newDate a b = Gt -> invoiceCmp newDate b a <> Gt.
Proof.
  intros Ha Hb.
  destruct (dueOk_time a Ha) as (x & Hx), (dueOk_time b Hb) as (y & Hy).
  unfold invoiceCmp. unfold DashboardSpec.dueTime in Hx, Hy. rewrite Hx, Hy.
  rewrite (Z.compare_antisym x y). destruct (x ?= y); cbn; congruence.
Qed.

Lemma invoiceCmp_trans_on (a b c : Invoice) :
  dueOk a -> dueOk b -> dueOk c ->
  SpecSide.before (invoiceCmp newDate) a b ->
  SpecSide.before (invoiceCmp newDate) b c ->
  SpecSide.before (invoiceCmp newDate) a c.
Proof.
  intros Ha Hb Hc B1 B2.
  destruct (invoice_before a b Ha Hb B1) as (x & y & Hx & Hy & L1).
  destruct (invoice_before b c Hb Hc B2) as (y' & z & Hy' & Hz & L2).
  assert (y' = y) as -> by congruence.
  unfold SpecSide.before, invoiceCmp.
  unfold DashboardSpec.dueTime in Hx, Hz. rewrite Hx, Hz.
  destruct (Z.compare_spec x z); [congruence | congruence | lia].
Qed.

(** X7: the outstanding invoices are at most ten, each pending and due
    today or later, in ascending order of due date; they are the
    earliest of all the invoices made: none left out is due before one
    that is kept. *)
Theorem outstanding_invoices (contracts : list Contract)
  (insts : list Installment) (period : Period) :
  let m := metrics newDate tz now nowIsoDay monthLabel contracts insts period in
  let rev := revenueLoop newDate tz now nowIsoDay
               (filteredContracts newDate tz now contracts period) in
  (length (outstandingInvoices m) <= 10)%nat
  /\ (forall i, In i (outstandingInvoices m) ->
        inv_status i = Pendiente
        /\ JSDate.geb (DashboardSpec.dueTime newDate i) (today tz now) = true)
  /\ (forall (i j : nat) (a b : Invoice),
        (i < j)%nat ->
        outstandingInvoices m !! i = Some a ->
        outstandingInvoices m !! j = Some b ->
        exists x y, DashboardSpec.dueTime newDate a = Some x
                    /\ DashboardSpec.dueTime newDate b = Some y /\ x <= y)
  /\ exists rest,
       Permutation (outstandingInvoices m ++ rest) (invoices rev)
       /\ forall a b, In a (outstandingInvoices m) -> In b rest ->
            exists x y, DashboardSpec.dueTime newDate a = Some x
                        /\ DashboardSpec.dueTime newDate b = Some y /\ x <= y.
Proof.
  intros m rev. subst m. unfold metrics. cbn [outstandingInvoices].
  fold rev.
  set (sorted := JSArray.sort (invoiceCmp newDate) (invoices rev)).
  assert (Hall : List.Forall dueOk (invoices rev))
    by (apply revenueLoop_invoices; constructor).
  assert (Hsall : forall i, In i sorted -> dueOk i).
  { intros i Hi.
    apply (proj1 (SortProps.sort_In (invoiceCmp newDate) i (invoices rev))) in Hi.
    rewrite List.Forall_forall in Hall. now apply Hall. }
  assert (S : StronglySorted (SpecSide.before (invoiceCmp newDate)) sorted)
    by (apply (SortMore.sort_sorted_on (invoiceCmp newDate) dueOk
                 invoiceCmp_total_on invoiceCmp_trans_on); exact Hall).
  destruct (SortMore.sorted_split _ 10 sorted S) as (S1 & S2).
  split; [apply firstn_le_length |]. split; [| split].
  - intros i Hi. apply Hsall. now apply (SortMore.in_firstn 10).
  - intros i j a b Hij Ha Hb.
    apply invoice_before.
    + apply Hsall, (SortMore.in_firstn 10), list_elem_of_In.
      eapply list_elem_of_lookup_2. exact Ha.
    + apply Hsall, (SortMore.in_firstn 10), list_elem_of_In.
      eapply list_elem_of_lookup_2. exact Hb.
    + exact (SortProps.sorted_lookup _ _ S1 i j a b Hij Ha Hb).
  - exists (skipn 10 sorted). split.
    + rewrite firstn_skipn. apply SortProps.sort_perm.
    + intros a b Ha Hb. apply invoice_before.
      * apply Hsall. now apply (SortMore.in_firstn 10).
      * apply Hsall. now apply (SortMore.in_skipn 10).
      * now apply S2.
Qed.

Lemma totalOfClient_app (n : string) (l1 l2 : list Contract) :
  DashboardSpec.totalOfClient n (l1 ++ l2)
  = DashboardSpec.totalOfClient n l1 + DashboardSpec.totalOfClient n l2.
Proof.
  unfold DashboardSpec.totalOfClient.
  now rewrite List.filter_app, MetricsProps.sumTotals_app.
Qed.

Lemma totalOfClient_none (n : string) (cs : list Contract) :
  (forall c, In c cs -> DashboardSpec.clientOf c <> n) ->
  DashboardSpec.totalOfClient n cs = 0.
Proof.
  unfold DashboardSpec.totalOfClient.
  induction cs as [| c cs IH]; intros H; [reflexivity |].
  cbn [List.filter].
  destruct (String.eqb_spec (DashboardSpec.clientOf c) n) as [E | _].
  - exfalso. now apply (H c (or_introl eq_refl)).
  - apply IH. intros c' Hc'. apply H. now right.
Qed.

Lemma clientMapAdd_keys (client : string) (a : Z) (m : list (string * Z)) :
  (In client (List.map fst m) ->
   List.map fst (clientMapAdd client a m) = List.map fst m)
  /\ (~ In client (List.map fst m) ->
      List.map fst (clientMapAdd client a m) = List.map fst m ++ [client]).
Proof.
  induction m as [| [k w] m (IH1 & IH2)]; cbn [clientMapAdd List.map fst].
  - split; [intros [] | reflexivity].
  - destruct (String.eqb_spec k client) as [-> | Hne]; cbn [List.map fst].
    + split; [reflexivity | intros H; exfalso; apply H; now left].
    + split.
      * intros [E | H]; [congruence | now rewrite IH1].
      * intros H. cbn [app]. rewrite IH2; [reflexivity |].
        intros H'. apply H. now right.
Qed.

Lemma clientMapAdd_in (client : string) (a : Z) (m : list (string * Z))
  (n : string) (v : Z) :
  List.NoDup (List.map fst m) ->
  In (n, v) (clientMapAdd client a m) ->
  (n <> client /\ In (n, v) m)
  \/ (n = client
      /\ ((exists v0, In (client, v0) m /\ v = v0 + a)
          \/ (~ In client (List.map fst m) /\ v = a))).
Proof.
  induction m as [| [k w] m IH]; cbn [clientMapAdd]; intros ND.
  - intros [E | []]. injection E as <- <-. right. split; [reflexivity |].
    right. split; [intros [] | reflexivity].
  - cbn [List.map fst] in ND. apply List.NoDup_cons_iff in ND as (Hk & ND).
    destruct (String.eqb_spec k client) as [-> | Hne].
    + intros [E | H].
      * injection E as <- <-. right. split; [reflexivity |].
        left. exists w. split; [now left | reflexivity].
      * destruct (String.eqb_spec n client) as [-> | Hn].
        -- exfalso. apply Hk. now apply (in_map fst) in H.
        -- left. split; [exact Hn | now right].
    + intros [E | H].
      * injection E as <- <-. left. split; [exact Hne | now left].
      * destruct (IH ND H) as [(Hn & Hin) | (-> & [(v0 & Hin & ->) | (Hnot & ->)])].
        -- left. split; [exact Hn | now right].
        -- right. split; [reflexivity |]. left. exists v0.
           split; [now right | reflexivity].
        -- right. split; [reflexivity |]. right. split; [| reflexivity].
           cbn [List.map fst In]. intros [E | E]; [congruence | contradiction].
Qed.

Lemma clientMapAdd_for (m : list (string * Z)) (cs : list Contract)
  (c : Contract) :
  DashboardSpec.clientMapFor m cs ->
  DashboardSpec.clientMapFor
    (clientMapAdd (DashboardSpec.clientOf c) (a_total (contractAmounts c)) m)
    (cs ++ [c]).
Proof.
  intros (ND & Hv & Hk).
  set (client := DashboardSpec.clientOf c).
  set (a := a_total (contractAmounts c)).
  assert (Tc : DashboardSpec.totalOfClient client [c] = a).
  { unfold DashboardSpec.totalOfClient, SpecSide.sumTotals. cbn [List.filter].
    fold client. rewrite String.eqb_refl. cbn [List.map fold_right]. lia. }
  assert (To : forall n, n <> client -> DashboardSpec.totalOfClient n [c] = 0).
  { intros n Hn. apply totalOfClient_none. intros c' [<- | []]. fold client.
    congruence. }
  destruct (clientMapAdd_keys client a m) as (K1 & K2).
  split; [| split].
  - destruct (in_dec string_dec client (List.map fst m)) as [Hin | Hnot].
    + now rewrite K1.
    + rewrite K2 by exact Hnot. apply List.NoDup_app; [exact ND | |].
      * constructor; [intros [] | constructor].
      * intros x Hx [<- | []]. contradiction.
  - intros n v Hin.
    destruct (clientMapAdd_in client a m n v ND Hin)
      as [(Hn & Hold) | (-> & [(v0 & Hold & ->) | (Hnot & ->)])].
    + destruct (Hv n v Hold) as (-> & c' & Hc' & E). split.
      * rewrite totalOfClient_app, (To n Hn). lia.
      * exists c'. split; [apply in_or_app; now left | exact E].
    + destruct (Hv client v0 Hold) as (-> & _). split.
      * rewrite totalOfClient_app, Tc. lia.
      * exists c. split; [apply in_or_app; right; now left | reflexivity].
    + split.
      * rewrite totalOfClient_app, Tc, totalOfClient_none; [lia |].
        intros c' Hc' E. apply Hnot. rewrite <- E. now apply Hk.
      * exists c. split; [apply in_or_app; right; now left | reflexivity].
  - intros c' Hc'. apply in_app_or in Hc' as [Hc' | [<- | []]].
    + destruct (in_dec string_dec client (List.map fst m)) as [Hin | Hnot].
      * rewrite K1 by exact Hin. now apply Hk.
      * rewrite K2 by exact Hnot. apply in_or_app. left. now apply Hk.
    + fold client.
      destruct (in_dec string_dec client (List.map fst m)) as [Hin | Hnot].
      * now rewrite K1.
      * rewrite K2 by exact Hnot. apply in_or_app. right. now left.
Qed.

Lemma revenueStep_clientMap (acc : Revenue) (c : Contract) :
  clientMap (revenueStep newDate tz now nowIsoDay acc c)
  = clientMapAdd (DashboardSpec.clientOf c) (a_total (contractAmounts c))
      (clientMap acc).
Proof.
  unfold revenueStep, DashboardSpec.clientOf. cbn [clientMap].
  destruct (JS.truthy (eventCompleted c)); [reflexivity |].
  destruct (match effectiveDateStr c with
            | EmptyString => None
            | _ => Some (newDate (effectiveDateStr c))
            end) as [d |]; [destruct (JSDate.geb d (today tz now)) |];
    reflexivity.
Qed.

Lemma revenueLoop_clientMap (cs : list Contract) :
  forall acc seen,
    DashboardSpec.clientMapFor (clientMap acc) seen ->
    DashboardSpec.clientMapFor
      (clientMap (fold_left (revenueStep newDate tz now nowIsoDay) cs acc))
      (seen ++ cs).
Proof.
  induction cs as [| c cs IH]; intros acc seen H.
  - now rewrite app_nil_r.
  - cbn [fold_left].
    replace (seen ++ c :: cs) with ((seen ++ [c]) ++ cs)
      by (now rewrite <- app_assoc).
    apply IH. rewrite revenueStep_clientMap. now apply clientMapAdd_for.
Qed.

Lemma topClientCmp_before (a b : TopClient) :
  SpecSide.before topClientCmp a b <-> tc_totalValue b <= tc_totalValue a.
Proof.
  unfold SpecSide.before, topClientCmp.
  destruct (Z.compare_spec (tc_totalValue b) (tc_totalValue a));
    split; intros; try lia; congruence.
Qed.

(** X8: the top clients are at most five, with distinct names, in
    descending order of value; the value of each is the sum of the totals
    of the period-matching contracts of that client, and every other
    client of a period-matching contract has a value no greater than any
    of theirs. *)
Theorem top_clients (contracts : list Contract)
  (insts : list Installment) (period : Period) :
  let m := metrics newDate tz now nowIsoDay monthLabel contracts insts period in
  let fc := filteredContracts newDate tz now contracts period in
  (length (topClients m) <= 5)%nat
  /\ List.NoDup (List.map tc_clientName (topClients m))
  /\ (forall t, In t (topClients m) ->
        tc_totalValue t = DashboardSpec.totalOfClient (tc_clientName t) fc
        /\ exists c, In c fc /\ DashboardSpec.clientOf c = tc_clientName t)
  /\ (forall (i j : nat) (a b : TopClient),
        (i < j)%nat -> topClients m !! i = Some a -> topClients m !! j = Some b ->
        tc_totalValue b <= tc_totalValue a)
  /\ (forall c, In c fc ->
        In (DashboardSpec.clientOf c) (List.map tc_clientName (topClients m))
        \/ forall t, In t (topClients m) ->
             DashboardSpec.totalOfClient (DashboardSpec.clientOf c) fc
             <= tc_totalValue t).
Proof.
  intros m fc. subst m. unfold metrics. cbn [topClients]. fold fc.
  set (rev := revenueLoop newDate tz now nowIsoDay fc).
  set (mk := fun kv : string * Z =>
               {| tc_clientName := fst kv; tc_totalValue := snd kv |}).
  set (all := List.map mk (clientMap rev)).
  set (sorted := JSArray.sort topClientCmp all).
  assert (Inv : DashboardSpec.clientMapFor (clientMap rev) fc).
  { apply (revenueLoop_clientMap fc
             {| totalRevenue := 0; completedRevenue := 0; futureRevenue := 0;
                invoices := []; clientMap := [] |} []).
    cbn [clientMap]. split; [constructor |].
    split; [intros n v [] | intros c []]. }
  destruct Inv as (ND & Hv & Hk).
  assert (Names : List.map tc_clientName all = List.map fst (clientMap rev)).
  { unfold all. rewrite List.map_map. reflexivity. }
  assert (Perm : Permutation sorted all) by apply SortProps.sort_perm.
  assert (S : StronglySorted (SpecSide.before topClientCmp) sorted).
  { apply SortProps.sort_sorted.
    - intros a b. unfold topClientCmp. rewrite (Z.compare_antisym _ (tc_totalValue b)).
      destruct (tc_totalValue a ?= tc_totalValue b); cbn; congruence.
    - intros a b c. rewrite !topClientCmp_before. lia. }
  destruct (SortMore.sorted_split _ 5 sorted S) as (S1 & S2).
  assert (InAll : forall t, In t all ->
            tc_totalValue t = DashboardSpec.totalOfClient (tc_clientName t) fc
            /\ exists c, In c fc /\ DashboardSpec.clientOf c = tc_clientName t).
  { intros t Ht. unfold all in Ht. apply in_map_iff in Ht as ([n v] & <- & Hin).
    cbn [mk tc_totalValue tc_clientName fst snd]. now apply Hv. }
  assert (Sub : forall t, In t (firstn 5 sorted) -> In t all).
  { intros t Ht. apply (Permutation_in _ Perm). now apply (SortMore.in_firstn 5). }
  split; [apply firstn_le_length |]. split; [| split; [| split]].
  - rewrite <- firstn_map.
    apply (NoDup_app_remove_r _ (skipn 5 (List.map tc_clientName sorted))).
    rewrite firstn_skipn.
    apply (Permutation_NoDup (l := List.map tc_clientName all)).
    + apply Permutation_map. now symmetry.
    + now rewrite Names.
  - intros t Ht. now apply InAll, Sub.
  - intros i j a b Hij Ha Hb. apply topClientCmp_before.
    exact (SortProps.sorted_lookup _ _ S1 i j a b Hij Ha Hb).
  - intros c Hc.
    assert (Hin : In (DashboardSpec.clientOf c) (List.map tc_clientName sorted)).
    { apply (Permutation_in (l := List.map tc_clientName all)).
      - apply Permutation_map. now symmetry.
      - rewrite Names. now apply Hk. }
    apply in_map_iff in Hin as (t & Et & Ht).
    rewrite <- (firstn_skipn 5 sorted) in Ht.
    apply in_app_or in Ht as [Ht | Ht].
    + left. apply in_map_iff. now exists t.
    + right. intros t' Ht'.
      assert (V : tc_totalValue t
                  = DashboardSpec.totalOfClient (DashboardSpec.clientOf c) fc).
      { rewrite <- Et. apply InAll. apply (Permutation_in _ Perm).
        now apply (SortMore.in_skipn 5). }
      rewrite <- V. apply (proj1 (topClientCmp_before t' t)). now apply S2.
Qed.

Lemma undated_rejected (period : Period) (c : Contract) :
  DashboardSpec.undated newDate c ->
  isInPeriod newDate tz now period (effectiveDate c) = false.
Proof.
  intros U. rewrite (MonthlyProps.isInPeriod_effective newDate tz now period c).
  destruct U as [-> | U]; [reflexivity |].
  destruct (effectiveDateStr c) as [| ch s]; [reflexivity |].
  now apply PeriodProps.isInPeriod_unparsable.
Qed.

Lemma monthlyContractStep_skip (period : Period) (c : Contract)
  (months : option (list MonthRow)) :
  isInPeriod newDate tz now period (effectiveDate c) = false ->
  monthlyContractStep newDate tz now period months c = months.
Proof.
  rewrite (MonthlyProps.isInPeriod_effective newDate tz now period c).
  intros H. unfold monthlyContractStep.
  destruct months as [rows |]; [| reflexivity].
  destruct (effectiveDateStr c) as [| ch s]; [reflexivity |].
  now rewrite H.
Qed.

(** X9: a contract without a usable date (no date field set, or a first
    date that denotes no date) is ignored under every period, the period
    [all] included: with or without it the metrics and the monthly table
    are the same. *)
Theorem undated_ignored (c : Contract) (before after : list Contract)
  (insts : list Installment) (period : Period) :
  DashboardSpec.undated newDate c ->
  metrics newDate tz now nowIsoDay monthLabel (before ++ c :: after) insts period
  = metrics newDate tz now nowIsoDay monthLabel (before ++ after) insts period
  /\ computeMonthlyData newDate tz now monthLabel (before ++ c :: after)
       insts period
     = computeMonthlyData newDate tz now monthLabel (before ++ after)
         insts period.
Proof.
  intros U. pose proof (undated_rejected period c U) as R.
  assert (F : filteredContracts newDate tz now (before ++ c :: after) period
              = filteredContracts newDate tz now (before ++ after) period).
  { unfold filteredContracts. rewrite !List.filter_app. cbn [List.filter].
    now rewrite R. }
  split.
  - unfold metrics. now rewrite F.
  - unfold computeMonthlyData. rewrite !fold_left_app. cbn [fold_left].
    now rewrite (monthlyContractStep_skip period c _ R).
Qed.

End Host.

Lemma undated_ignored_witness :
  metrics JSDate.parseIso 0 Examples.midJune2024 "2024-06-15"
    Examples.monthNumber ([] ++ Examples.noContract :: [Examples.pastOpen]) []
    Examples.allTime
  = metrics JSDate.parseIso 0 Examples.midJune2024 "2024-06-15"
      Examples.monthNumber ([] ++ [Examples.pastOpen]) [] Examples.allTime.
Proof.
  apply (undated_ignored JSDate.parseIso 0 Examples.midJune2024 "2024-06-15"
           Examples.monthNumber Examples.noContract [] [Examples.pastOpen] []
           Examples.allTime).
  left. reflexivity.
Defined.

End MetricsMore.

(** ** Amount Deriver, further properties *)

Module AmountMore.

Lemma keepDigits_app (s1 s2 : string) :
  JS.keepDigits (s1 ++ s2) = (JS.keepDigits s1 ++ JS.keepDigits s2)%list.
Proof.
  induction s1 as [| c s1 IH]; [reflexivity |].
  change (String c s1 ++ s2)%string with (String c (s1 ++ s2)).
  cbn [JS.keepDigits]. rewrite IH. now destruct (JS.isDigit c).
Qed.

Lemma digitVal_nonneg (c : ascii) : JS.isDigit c = true -> 0 <= JS.digitVal c <= 9.
Proof.
  unfold JS.isDigit, JS.digitVal. intros H.
  apply andb_true_iff in H as (H1 & H2).
  apply Nat.leb_le in H1, H2. lia.
Qed.

Lemma keepDigits_digits (s : string) :
  List.Forall (fun c => JS.isDigit c = true) (JS.keepDigits s).
Proof.
  induction s as [| c s IH]; cbn [JS.keepDigits]; [constructor |].
  destruct (JS.isDigit c) eqn:E; [now constructor | exact IH].
Qed.

Lemma digitsToZ_nonneg (ds : list ascii) :
  List.Forall (fun c => JS.isDigit c = true) ds -> 0 <= JS.digitsToZ ds.
Proof.
  unfold JS.digitsToZ. intros H.
  assert (G : forall acc, 0 <= acc ->
                0 <= fold_left (fun acc c => 10 * acc + JS.digitVal c) ds acc).
  { induction H as [| c ds Hc Hds IH]; intros acc Ha; [exact Ha |].
    cbn [fold_left]. apply IH. pose proof (digitVal_nonneg c Hc). lia. }
  now apply G.
Qed.

(** X10: a price is read from its digits alone: it is a non-negative
    integer, and a character that is not a digit (a currency sign, a
    space, a thousands or a decimal separator) changes nothing wherever
    it stands. *)
Theorem price_reads_digits_only (s1 s2 : string) (c : ascii) :
  JS.isDigit c = false ->
  JS.priceNumber (Some (s1 ++ String c s2)%string)
  = JS.priceNumber (Some (s1 ++ s2)%string)
  /\ (exists n : Z, 0 <= n
                    /\ JS.priceNumber (Some (s1 ++ s2)%string) = inject_Z n)
  /\ JS.priceNumber None = 0%Q /\ JS.priceNumber (Some EmptyString) = 0%Q.
Proof.
  intros H. unfold JS.priceNumber. split; [| split; [| split; reflexivity]].
  - rewrite !keepDigits_app. cbn [JS.keepDigits]. now rewrite H.
  - eexists. split; [| reflexivity].
    apply digitsToZ_nonneg, keepDigits_digits.
Qed.

(** A decimal point is dropped like any other separator: 19.99 is read
    as 1999. *)
Lemma price_reads_digits_only_witness :
  JS.priceNumber (Some ("19" ++ String "."%char "99")%string) = 1999%Q.
Proof.
  rewrite (proj1 (price_reads_digits_only "19" "99" "."%char eq_refl)).
  reflexivity.
Defined.

Lemma servicesEstimate_fallback (raw doc store travel : Q) :
  (raw <= 0)%Q ->
  (servicesEstimate raw doc store travel + store + travel
   == Qmax (store + travel) doc)%Q.
Proof.
  intros H. unfold servicesEstimate.
  apply gtb_false in H. rewrite H. unfold JS.max0.
  destruct (Q.max_spec 0 (doc - store - travel)) as [[L E] | [L E]];
    destruct (Q.max_spec (store + travel) doc) as [[L' E'] | [L' E']];
    rewrite E, E'; lra.
Qed.

(** X11: when the service lines add up to nothing (no line, or a sum that
    is not positive) and the quantities, prices, travel fee and stored
    total are whole numbers adding up to at most 2^53 in magnitude, the
    derived total is the stored totalAmount or the store total plus the
    travel fee, whichever is greater; this is so in the calendar and in
    the dashboard. *)
Theorem total_falls_back_to_stored (c : AdminCalendar.ContractItem)
  (d : FinancialDashboard.Contract) :
  (servicesTotalRawOf
     (svcListOf (AdminCalendar.services c) (AdminCalendar.cartItems c)) <= 0)%Q ->
  (servicesTotalRawOf (SpecSide.serviceLines d) <= 0)%Q ->
  Exact.exact
    (AmountSpec.numbersOf
       (svcListOf (AdminCalendar.services c) (AdminCalendar.cartItems c))
       (AdminCalendar.storeItems c) (AdminCalendar.travelFee c)
       (AdminCalendar.totalAmount c)) = true ->
  Exact.exact
    (AmountSpec.numbersOf (SpecSide.serviceLines d)
       (FinancialDashboard.storeItems d) (FinancialDashboard.travelFee d)
       (FinancialDashboard.totalAmount d)) = true ->
  AdminCalendar.Calc.totalAmount (AdminCalendar.computeAmounts c)
  = JS.round
      (Qmax (storeTotalOf (AdminCalendar.storeItems c)
             + JS.orNum (AdminCalendar.travelFee c) 0)
            (JS.orNum (AdminCalendar.totalAmount c) 0))%Q
  /\ FinancialDashboard.a_total (FinancialDashboard.contractAmounts d)
     = JS.round
         (Qmax (storeTotalOf (FinancialDashboard.storeItems d)
                + JS.orNum (FinancialDashboard.travelFee d) 0)
               (JS.orNum (FinancialDashboard.totalAmount d) 0))%Q.
Proof.
  intros Hc Hd _ _.
  unfold AdminCalendar.computeAmounts, FinancialDashboard.contractAmounts,
    SpecSide.serviceLines in *.
  cbn [AdminCalendar.Calc.totalAmount FinancialDashboard.a_total].
  unfold JS.round.
  split; apply Qfloor_comp;
    (rewrite servicesEstimate_fallback; [reflexivity | assumption]).
Qed.

(** A stored total of 500 with store items worth 100 and no service line
    gives 500; the free service line of the examples gives its stored
    total. *)
Lemma total_falls_back_to_stored_witness :
  AdminCalendar.Calc.totalAmount
    (AdminCalendar.computeAmounts
       (Examples.eventWith None (Some [Examples.item 50 (Some 2%Q)]) None
          (Some 500%Q))) = 500
  /\ FinancialDashboard.a_total
       (FinancialDashboard.contractAmounts (Examples.freeLine 100)) = 100.
Proof.
  assert (H1 : (servicesTotalRawOf
                  (svcListOf
                     (AdminCalendar.services
                        (Examples.eventWith None
                           (Some [Examples.item 50 (Some 2%Q)]) None (Some 500%Q)))
                     (AdminCalendar.cartItems
                        (Examples.eventWith None
                           (Some [Examples.item 50 (Some 2%Q)]) None (Some 500%Q))))
                <= 0)%Q) by (vm_compute; discriminate).
  assert (H2 : (servicesTotalRawOf (SpecSide.serviceLines (Examples.freeLine 100))
                <= 0)%Q) by (vm_compute; discriminate).
  assert (X1 : Exact.exact
                 (AmountSpec.numbersOf
                    (svcListOf
                       (AdminCalendar.services
                          (Examples.eventWith None
                             (Some [Examples.item 50 (Some 2%Q)]) None (Some 500%Q)))
                       (AdminCalendar.cartItems
                          (Examples.eventWith None
                             (Some [Examples.item 50 (Some 2%Q)]) None (Some 500%Q))))
                    (AdminCalendar.storeItems
                       (Examples.eventWith None
                          (Some [Examples.item 50 (Some 2%Q)]) None (Some 500%Q)))
                    (AdminCalendar.travelFee
                       (Examples.eventWith None
                          (Some [Examples.item 50 (Some 2%Q)]) None (Some 500%Q)))
                    (AdminCalendar.totalAmount
                       (Examples.eventWith None
                          (Some [Examples.item 50 (Some 2%Q)]) None (Some 500%Q))))
               = true) by (vm_compute; reflexivity).
  assert (X2 : Exact.exact
                 (AmountSpec.numbersOf
                    (SpecSide.serviceLines (Examples.freeLine 100))
                    (FinancialDashboard.storeItems (Examples.freeLine 100))
                    (FinancialDashboard.travelFee (Examples.freeLine 100))
                    (FinancialDashboard.totalAmount (Examples.freeLine 100)))
               = true) by (vm_compute; reflexivity).
  destruct (total_falls_back_to_stored _ _ H1 H2 X1 X2) as (E1 & E2).
  split; [rewrite E1 | rewrite E2]; vm_compute; reflexivity.
Defined.

Lemma sum_from (A : Type) (f : A -> Q) (l : list A) (acc : Q) :
  (fold_left (fun sum x => sum + f x) l acc
   == acc + fold_left (fun sum x => sum + f x) l 0)%Q.
Proof.
  revert acc. induction l as [| x l IH]; intros acc; cbn [fold_left]; [lra |].
  rewrite (IH (acc + f x)%Q), (IH (0 + f x)%Q). lra.
Qed.

Lemma sum_app (A : Type) (f : A -> Q) (l1 l2 : list A) :
  (fold_left (fun sum x => sum + f x) (l1 ++ l2) 0
   == fold_left (fun sum x => sum + f x) l1 0
      + fold_left (fun sum x => sum + f x) l2 0)%Q.
Proof.
  rewrite fold_left_app. apply sum_from.
Qed.

(** X12: a quantity of 0 is read differently in the two lists: a store
    item with quantity 0 counts as one unit, like an item without a
    quantity, while a service line with quantity 0 counts for nothing. *)
Theorem zero_quantity (q : Q) (p : Q) (price : option string)
  (items1 items2 : list StoreItem) (lines1 lines2 : list ServiceLine) :
  (q == 0)%Q ->
  (storeTotalOf
     (Some (items1 ++ {| item_price := p; item_quantity := Some q |} :: items2))
   == storeTotalOf
        (Some (items1 ++ {| item_price := p; item_quantity := None |} :: items2)))%Q
  /\ (storeTotalOf
        (Some (items1 ++ {| item_price := p; item_quantity := Some q |} :: items2))
      == storeTotalOf (Some (items1 ++ items2)) + p)%Q
  /\ (servicesTotalRawOf
        (lines1 ++ {| svc_price := price; svc_quantity := Some q |} :: lines2)
      == servicesTotalRawOf (lines1 ++ lines2))%Q.
Proof.
  intros Hq.
  assert (Z : JS.orNum (Some q) 1 = 1%Q).
  { unfold JS.orNum. apply Qeq_bool_iff in Hq. now rewrite Hq. }
  unfold storeTotalOf, servicesTotalRawOf.
  rewrite !(sum_app StoreItem), !(sum_app ServiceLine). cbn [fold_left].
  rewrite !(sum_from StoreItem _ items2 (0 + _)%Q).
  rewrite (sum_from ServiceLine _ lines2 (0 + _)%Q).
  cbn [item_price item_quantity svc_price svc_quantity JS.nullish].
  rewrite Z. cbn [JS.orNum]. rewrite Hq.
  repeat split; lra.
Qed.

Lemma zero_quantity_witness :
  (storeTotalOf
     (Some ([] ++ {| item_price := 80; item_quantity := Some 0%Q |} :: []))
   == storeTotalOf (Some ([] ++ [])) + 80)%Q
  /\ (servicesTotalRawOf
        ([] ++ {| svc_price := Some "80"%string; svc_quantity := Some 0%Q |} :: [])
      == servicesTotalRawOf ([] ++ []))%Q.
Proof.
  destruct (zero_quantity 0 80 (Some "80"%string) [] [] [] [] (Qeq_refl 0))
    as (_ & S & L).
  split; [exact S | exact L].
Defined.

End AmountMore.

(** ** Day Bucketer, further properties *)

Module BucketMore.
Import AdminCalendar.

Lemma isOn_dayOf (k : string) (ev : ContractItem) :
  SpecSide.isOn k ev = true <-> CalendarSpec.dayOf ev = Some k.
Proof.
  unfold SpecSide.isOn, CalendarSpec.dayOf.
  destruct (JS.truthyStr (eventDate ev)) as [d |]; [| split; discriminate].
  destruct (String.eqb_spec d k) as [-> | Hne]; split;
    try reflexivity; try discriminate; congruence.
Qed.

Lemma truthyStr_nonempty (a : option string) (s : string) :
  JS.truthyStr a = Some s -> s <> EmptyString.
Proof. destruct a as [[| c r] |]; cbn; intros H; congruence. Qed.

Section Host.
Variable toNumber : string -> option Q.
Variable localeCompare : string -> string -> comparison.

(** X13: the day buckets hold exactly the events that have a date: an
    event is in the bucket of a day exactly when that day is its
    (non-empty) date, so it is in one bucket at most and an event without
    a date is in none; there is no empty bucket and no bucket for the
    empty date. *)
Theorem day_buckets_contents (evs : list ContractItem) (k : string) :
  (forall ev,
      (exists bucket,
          eventsByDay toNumber localeCompare evs !! k = Some bucket
          /\ In ev bucket)
      <-> In ev evs /\ CalendarSpec.dayOf ev = Some k)
  /\ eventsByDay toNumber localeCompare evs !! k <> Some []
  /\ (eventsByDay toNumber localeCompare evs !! k = None
      <-> forall ev, In ev evs -> CalendarSpec.dayOf ev <> Some k)
  /\ eventsByDay toNumber localeCompare evs !! EmptyString = None.
Proof.
  assert (Hl := BucketProps.eventsByDay_lookup toNumber localeCompare).
  assert (F : forall k' ev,
            In ev (List.filter (SpecSide.isOn k') evs)
            <-> In ev evs /\ CalendarSpec.dayOf ev = Some k').
  { intros k' ev. rewrite filter_In, isOn_dayOf. reflexivity. }
  assert (N : forall k',
            eventsByDay toNumber localeCompare evs !! k' = None
            <-> forall ev, In ev evs -> CalendarSpec.dayOf ev <> Some k').
  { intros k'. rewrite Hl. split.
    - destruct (List.filter (SpecSide.isOn k') evs) as [| x l] eqn:E;
        [| discriminate].
      intros _ ev Hin Hd. assert (In ev []) as []. rewrite <- E. now apply F.
    - intros H. destruct (List.filter (SpecSide.isOn k') evs) as [| x l] eqn:E;
        [reflexivity |].
      exfalso. assert (Hx : In x (x :: l)) by now left.
      rewrite <- E in Hx. apply F in Hx as (Hin & Hd). now apply (H x). }
  split; [| split; [| split]].
  - intros ev. rewrite <- F, Hl. split.
    + intros (bucket & E & Hin).
      destruct (List.filter (SpecSide.isOn k) evs) as [| x l]; [discriminate |].
      injection E as <-.
      exact (proj1 (SortProps.sort_In (eventCmp toNumber localeCompare) ev
                      (x :: l)) Hin).
    + intros Hin.
      destruct (List.filter (SpecSide.isOn k) evs) as [| x l] eqn:E;
        [destruct Hin |].
      eexists. split; [reflexivity |].
      exact (proj2 (SortProps.sort_In (eventCmp toNumber localeCompare) ev
                      (x :: l)) Hin).
  - rewrite Hl.
    destruct (List.filter (SpecSide.isOn k) evs) as [| x l]; [discriminate |].
    intros E. injection E as E.
    change (JSArray.sort (eventCmp toNumber localeCompare) (x :: l) = []) in E.
    assert (Hx : In x (JSArray.sort (eventCmp toNumber localeCompare) (x :: l)))
      by (apply (proj2 (SortProps.sort_In (eventCmp toNumber localeCompare) x _));
          now left).
    rewrite E in Hx. destruct Hx.
  - apply N.
  - apply N. intros ev _ Hd. now apply truthyStr_nonempty in Hd.
Qed.

Lemma splitColon_single (s : string) :
  CalendarSpec.noColon s = true -> splitColon s = [s].
Proof.
  induction s as [| c s IH]; [reflexivity |].
  cbn [CalendarSpec.noColon splitColon]. intros H.
  apply andb_true_iff in H as (Hc & Hs). apply negb_true_iff in Hc.
  rewrite Hc, (IH Hs). reflexivity.
Qed.

Lemma splitColon_cons (h rest : string) :
  CalendarSpec.noColon h = true ->
  splitColon (h ++ String ":"%char rest) = h :: splitColon rest.
Proof.
  induction h as [| c h IH]; intros H.
  - reflexivity.
  - cbn [CalendarSpec.noColon] in H.
    apply andb_true_iff in H as (Hc & Hs). apply negb_true_iff in Hc.
    change (String c h ++ String ":"%char rest)%string
      with (String c (h ++ String ":"%char rest)).
    cbn [splitColon]. rewrite Hc, (IH Hs). reflexivity.
Qed.

(** X14: the time of day is read as hours times 60 plus minutes, from the
    text before the first colon and the text between the first and the
    second; a part that is not a finite number counts as 0, further parts
    are ignored, a time without a colon is hours only, and a missing or
    empty time is 0. *)
Theorem toMinutes_reads_hours_and_minutes (h m rest : string) :
  CalendarSpec.noColon h = true -> CalendarSpec.noColon m = true ->
  (toMinutes toNumber (Some (h ++ String ":"%char m)%string)
   == default 0 (toNumber h) * 60 + default 0 (toNumber m))%Q
  /\ (toMinutes toNumber
        (Some (h ++ String ":"%char (m ++ String ":"%char rest))%string)
      == default 0 (toNumber h) * 60 + default 0 (toNumber m))%Q
  /\ (h <> EmptyString ->
      (toMinutes toNumber (Some h) == default 0 (toNumber h) * 60)%Q)
  /\ toMinutes toNumber None = 0%Q
  /\ toMinutes toNumber (Some EmptyString) = 0%Q.
Proof.
  intros Hh Hm.
  assert (T : forall r, JS.truthyStr (Some (h ++ String ":"%char r)%string)
                        = Some (h ++ String ":"%char r)%string)
    by (intros r; destruct h; reflexivity).
  split; [| split; [| split; [| split; reflexivity]]].
  - unfold toMinutes. rewrite T, (splitColon_cons h m Hh), (splitColon_single m Hm).
    cbn. destruct (toNumber h), (toNumber m); cbn; lra.
  - unfold toMinutes. rewrite T, (splitColon_cons h _ Hh), (splitColon_cons m rest Hm).
    cbn. destruct (toNumber h), (toNumber m); cbn; lra.
  - intros Hne. unfold toMinutes.
    assert (JS.truthyStr (Some h) = Some h) as ->
      by (destruct h; [contradiction | reflexivity]).
    rewrite (splitColon_single h Hh). cbn. destruct (toNumber h); cbn; lra.
Qed.

End Host.

Lemma toMinutes_reads_hours_and_minutes_witness :
  (toMinutes Examples.decimalNumber (Some ("10" ++ String ":"%char "30")%string)
   == 630)%Q.
Proof.
  destruct (toMinutes_reads_hours_and_minutes Examples.decimalNumber
              "10" "30" "00" eq_refl eq_refl) as (E & _).
  rewrite E. reflexivity.
Defined.

End BucketMore.

(** ** The calendar view: navigation, colours, loading and deleting *)

Module ViewProps.
Import CalendarView.

(** X15.  Month navigation: from a month 0..11, [nextMonth] and
    [prevMonth] undo each other, keep the month within 0..11, and move
    the month counted from year 0 by exactly one. *)
Theorem month_navigation (c : Current) :
  0 <= m c <= 11 ->
  prevMonth (nextMonth c) = c
  /\ nextMonth (prevMonth c) = c
  /\ 0 <= m (nextMonth c) <= 11
  /\ 0 <= m (prevMonth c) <= 11
  /\ CalendarSpec.monthIndex (nextMonth c) = CalendarSpec.monthIndex c + 1
  /\ CalendarSpec.monthIndex (prevMonth c) = CalendarSpec.monthIndex c - 1.
Proof.
  destruct c as [cy cm]. unfold prevMonth, nextMonth, CalendarSpec.monthIndex.
  cbn [y m]. intros H.
  repeat match goal with
         | |- context [?a =? ?b] => destruct (Z.eqb_spec a b); cbv iota
         end;
    repeat apply conj; try lia; try (f_equal; lia).
Qed.

Lemma month_navigation_witness :
  prevMonth (nextMonth {| y := 2024; m := 11 |}) = {| y := 2024; m := 11 |}
  /\ m (nextMonth {| y := 2024; m := 11 |}) = 0.
Proof.
  assert (H : 0 <= m {| y := 2024; m := 11 |} <= 11) by (cbn; lia).
  split.
  - exact (proj1 (month_navigation {| y := 2024; m := 11 |} H)).
  - reflexivity.
Defined.

(** X16.  Colour and status of an event agree one way only: an event
    that counts as completed is shown green or, when released, light
    gray; for an event without a stored status, green and completed are
    the same thing; a cancelled event is red whatever its payment flags
    say, and never counts as completed. *)
Theorem completed_colour (c : CalendarEvent) :
  (getEventStatus c = completed ->
   getEventColor c = "bg-green-600 text-white hover:opacity-90"%string
   \/ getEventColor c = "bg-gray-200 text-gray-700 hover:opacity-90"%string)
  /\ (status c = None ->
      (getEventColor c = "bg-green-600 text-white hover:opacity-90"%string
       <-> getEventStatus c = completed))
  /\ (status c = Some cancelled ->
      getEventColor c = "bg-red-500 text-white hover:opacity-90"%string
      /\ getEventStatus c = pendingStatus).
Proof.
  destruct c as [it st ph sp]. destruct it as [i cn ed et dp fp ec ta tf si sv ci].
  unfold getEventStatus, getEventColor, statusOf, isStatus.
  cbn [item status AdminCalendar.eventCompleted AdminCalendar.finalPaymentPaid
       AdminCalendar.depositPaid].
  destruct st as [[] |]; destruct ec as [[] |]; destruct fp as [[] |];
    destruct dp as [[] |]; cbn;
    repeat apply conj; try split; intros; try discriminate; auto.
Qed.

Lemma baseIdOf_plain (s : string) :
  CalendarSpec.plainId s = true -> baseIdOf s = s.
Proof.
  induction s as [| c r IH]; [reflexivity |].
  cbn [CalendarSpec.plainId baseIdOf].
  destruct (Ascii.eqb c "_"%char).
  - destruct r as [| c' r']; [discriminate |].
    intros H. apply andb_prop in H as [H1 H2].
    apply negb_true_iff in H1. rewrite H1. cbn [andb].
    now rewrite IH.
  - cbn [andb]. intros H. now rewrite IH.
Qed.

Lemma baseIdOf_suffix (s t : string) :
  CalendarSpec.plainId s = true -> baseIdOf (s ++ "__" ++ t) = s.
Proof.
  induction s as [| c r IH]; [reflexivity |].
  change (String c r ++ "__" ++ t)%string with (String c (r ++ "__" ++ t)).
  cbn [CalendarSpec.plainId baseIdOf].
  destruct (Ascii.eqb c "_"%char).
  - destruct r as [| c' r']; [discriminate |].
    intros H. apply andb_prop in H as [H1 H2].
    apply negb_true_iff in H1.
    change (String c' r' ++ "__" ++ t)%string with (String c' (r' ++ "__" ++ t)) in *.
    cbn [underscoreFirst] in *. rewrite H1. cbn [andb].
    now rewrite IH.
  - cbn [andb]. intros H. now rewrite IH.
Qed.

(** The rows of a document have the document's id as their base id. *)
Lemma expand_baseId (c : ContractDoc) (r : Row) :
  CalendarSpec.plainId (c_id c) = true ->
  In r (expand c) -> baseIdOf (rowId r) = c_id c.
Proof.
  intros P. unfold expand. fold (CalendarSpec.linesOf c).
  destruct (CalendarSpec.linesOf c) as [| x l] eqn:E.
  - intros [<- | []]. now apply baseIdOf_plain.
  - intros H. apply (proj2 (list_elem_of_In _ _)) in H.
    apply elem_of_lookup_imap in H as (k & it & -> & _).
    unfold rowId, lineRow. cbn [event item AdminCalendar.id].
    now apply baseIdOf_suffix.
Qed.

Lemma filter_all {A} (f : A -> bool) (l : list A) :
  (forall x, In x l -> f x = true) -> List.filter f l = l.
Proof.
  induction l as [| x l IH]; [reflexivity |]. intros H. cbn [List.filter].
  rewrite (H x (or_introl eq_refl)). f_equal. apply IH.
  intros z Hz. apply H. now right.
Qed.

Lemma filter_none {A} (f : A -> bool) (l : list A) :
  (forall x, In x l -> f x = false) -> List.filter f l = [].
Proof.
  induction l as [| x l IH]; [reflexivity |]. intros H. cbn [List.filter].
  rewrite (H x (or_introl eq_refl)). apply IH.
  intros z Hz. apply H. now right.
Qed.

Lemma load_cons (c : ContractDoc) (docs : list ContractDoc) :
  load (c :: docs) = expand c ++ load docs.
Proof. reflexivity. Qed.

Lemma drop_rows (i : string) (docs : list ContractDoc) :
  List.Forall (fun c => CalendarSpec.plainId (c_id c) = true) docs ->
  List.filter (fun ev => negb (String.eqb (baseIdOf (rowId ev)) i)) (load docs)
  = load (CalendarSpec.without i docs).
Proof.
  induction 1 as [| c docs P _ IH]; [reflexivity |].
  rewrite load_cons, List.filter_app, IH.
  unfold CalendarSpec.without. cbn [List.filter].
  destruct (String.eqb_spec (c_id c) i) as [E | N]; cbn [negb].
  - rewrite filter_none; [reflexivity |].
    intros r Hr. rewrite (expand_baseId c r P Hr), E.
    now rewrite String.eqb_refl.
  - rewrite filter_all; [reflexivity |].
    intros r Hr. rewrite (expand_baseId c r P Hr).
    now destruct (String.eqb_spec (c_id c) i).
Qed.

(** X17.  Loading then handling [contractDeleted]: when no contract id
    holds a double underscore or ends in an underscore, the handler
    leaves exactly the rows of the other contracts, as if the deleted
    contract had not been loaded; without a contract id in the event it
    removes nothing. *)
Theorem delete_handler_drops_contract (i : string) (docs : list ContractDoc) :
  List.Forall (fun c => CalendarSpec.plainId (c_id c) = true) docs ->
  deleteHandler (Some i) (load docs) = load (CalendarSpec.without i docs)
  /\ deleteHandler None (load docs) = load docs.
Proof.
  intros P. split.
  - exact (drop_rows i docs P).
  - unfold deleteHandler. now apply filter_all.
Qed.

Lemma expand_length (c : ContractDoc) :
  length (expand c) = Nat.max 1 (length (CalendarSpec.linesOf c)).
Proof.
  unfold expand. fold (CalendarSpec.linesOf c).
  destruct (CalendarSpec.linesOf c) as [| x l]; [reflexivity |].
  rewrite length_imap. reflexivity.
Qed.

(** X18.  A contract with service lines is loaded as one row per line, a
    contract without any as a single row.  Every row carries the
    payment flags, the status and the amounts of the whole contract: the
    amounts computed for a row are those of the contract, not of its
    line. *)
Theorem rows_carry_contract (c : ContractDoc) :
  length (expand c) = Nat.max 1 (length (CalendarSpec.linesOf c))
  /\ forall r, In r (expand c) ->
       AdminCalendar.computeAmounts (item (event r))
       = AdminCalendar.computeAmounts (item (event (rowOf c)))
       /\ statusOf (event r) = statusOf (event (rowOf c))
       /\ getEventColor (event r) = getEventColor (event (rowOf c))
       /\ AdminCalendar.summaryStep (0, 0, 0)%nat (item (event r))
          = AdminCalendar.summaryStep (0, 0, 0)%nat (item (event (rowOf c))).
Proof.
  split; [apply expand_length |].
  intros r. unfold expand. fold (CalendarSpec.linesOf c).
  destruct (CalendarSpec.linesOf c) as [| x l].
  - intros [<- | []]. repeat split.
  - intros H. apply (proj2 (list_elem_of_In _ _)) in H.
    apply elem_of_lookup_imap in H as (k & it & -> & _).
    repeat split.
Qed.

(** X19.  When the contract ids are not empty, hold no double underscore
    and do not end in an underscore, confirming the deletion of a row of
    the calendar deletes its contract from the store and removes every
    row of that contract, the rows of its other service lines included;
    declining the confirmation changes nothing. *)
Theorem delete_event_drops_contract (contracts : gmap string ContractDoc)
  (docs : list ContractDoc) (c : ContractDoc) (r : Row) :
  List.Forall (fun c => CalendarSpec.plainId (c_id c) = true) docs ->
  In c docs -> In r (expand c) -> c_id c <> EmptyString ->
  deleteEvent true r (contracts, load docs)
  = (delete (c_id c) contracts, load (CalendarSpec.without (c_id c) docs))
  /\ deleteEvent false r (contracts, load docs) = (contracts, load docs).
Proof.
  intros P Hc Hr N. split; [| reflexivity].
  unfold deleteEvent. cbn [negb fst snd].
  assert (Pc : CalendarSpec.plainId (c_id c) = true).
  { exact (proj1 (List.Forall_forall _ docs) P c Hc). }
  rewrite (expand_baseId c r Pc Hr).
  destruct (c_id c) as [| a s] eqn:E; [contradiction |].
  f_equal. apply (drop_rows (String a s) docs P).
Qed.

Lemma delete_handler_drops_contract_witness :
  deleteHandler (Some "abc"%string) (load ViewExamples.bothContracts)
  = load (CalendarSpec.without "abc" ViewExamples.bothContracts)
  /\ length (load ViewExamples.bothContracts) = 3%nat
  /\ length (load (CalendarSpec.without "abc" ViewExamples.bothContracts)) = 1%nat.
Proof.
  assert (P : List.Forall (fun c => CalendarSpec.plainId (c_id c) = true)
                ViewExamples.bothContracts)
    by (repeat constructor).
  split.
  - exact (proj1 (delete_handler_drops_contract "abc"
                    ViewExamples.bothContracts P)).
  - split; vm_compute; reflexivity.
Defined.

Lemma delete_event_drops_contract_witness :
  deleteEvent true ViewExamples.videoRow
    (ViewExamples.contractStore, load ViewExamples.bothContracts)
  = (delete (c_id ViewExamples.wedding) ViewExamples.contractStore,
     load (CalendarSpec.without (c_id ViewExamples.wedding)
             ViewExamples.bothContracts))
  /\ ViewExamples.contractStore !! "abc"%string = Some ViewExamples.wedding
  /\ fst (deleteEvent true ViewExamples.videoRow
            (ViewExamples.contractStore, load ViewExamples.bothContracts))
     !! "abc"%string = None
  /\ fst (deleteEvent true ViewExamples.videoRow
            (ViewExamples.contractStore, load ViewExamples.bothContracts))
     !! "x_y"%string = Some ViewExamples.session
  /\ List.map rowId
       (snd (deleteEvent true ViewExamples.videoRow
               (ViewExamples.contractStore, load ViewExamples.bothContracts)))
     = ["x_y"%string].
Proof.
  assert (P : List.Forall (fun c => CalendarSpec.plainId (c_id c) = true)
                ViewExamples.bothContracts)
    by (repeat constructor).
  assert (Hc : In ViewExamples.wedding ViewExamples.bothContracts)
    by (left; reflexivity).
  assert (Hr : In ViewExamples.videoRow (expand ViewExamples.wedding))
    by (right; left; reflexivity).
  assert (N : c_id ViewExamples.wedding <> EmptyString) by discriminate.
  split.
  - exact (proj1 (delete_event_drops_contract ViewExamples.contractStore
                    ViewExamples.bothContracts
                    ViewExamples.wedding ViewExamples.videoRow P Hc Hr N)).
  - repeat split; vm_compute; reflexivity.
Defined.

(** Outside that condition the id is cut short: deleting the only row
    of a contract whose id is [a__b] deletes the document [a] and leaves
    the document [a__b] in the store, while the row leaves the
    calendar. *)
Remark delete_event_cut_id :
  let other := ViewExamples.contract "a" "Caio" "2024-07-01" None None None in
  let odd := ViewExamples.contract "a__b" "Dora" "2024-07-02" None None None in
  let store : gmap string ContractDoc :=
    {[ "a"%string := other; "a__b"%string := odd ]} in
  let st := deleteEvent true (rowOf odd) (store, load [odd]) in
  fst st !! "a"%string = None
  /\ fst st !! "a__b"%string = Some odd
  /\ snd st = [].
Proof. vm_compute. repeat split. Qed.

End ViewProps.

(** ** Calendar arithmetic and the month grid *)

Module GridProps.
Import CalendarView.

Lemma isLeap_spec (y : Z) :
  JSDate.isLeap y = true
  <-> (y mod 4 = 0 /\ y mod 100 <> 0) \/ y mod 400 = 0.
Proof.
  unfold JSDate.isLeap.
  rewrite orb_true_iff, andb_true_iff, negb_true_iff, !Z.eqb_eq, Z.eqb_neq.
  tauto.
Qed.

Lemma year_of_era (yoe doy : Z) :
  0 <= yoe <= 399 -> 0 <= doy ->
  (doy <= 364
   \/ (doy = 365 /\ yoe mod 4 = 3 /\ (yoe mod 100 <> 99 \/ yoe = 399))) ->
  let doe := yoe * 365 + yoe / 4 - yoe / 100 + doy in
  0 <= doe <= 146096
  /\ (doe - doe / 1460 + doe / 36524 - doe / 146096) / 365 = yoe.
Proof.
  intros Hy Hd Hl. cbv zeta.
  split; Z.to_euclidean_division_equations; lia.
Qed.

Lemma feb_length (y d : Z) :
  1 <= d <= (if JSDate.isLeap y then 29 else 28) ->
  let y' := y - 1 in
  let yoe := y' - y' / 400 * 400 in
  let doy := 337 + d - 1 in
  doy <= 364
  \/ (doy = 365 /\ yoe mod 4 = 3 /\ (yoe mod 100 <> 99 \/ yoe = 399)).
Proof.
  intros Hd. cbv zeta. destruct (JSDate.isLeap y) eqn:L.
  - apply isLeap_spec in L.
    Z.to_euclidean_division_equations; lia.
  - left. lia.
Qed.

Ltac decide_if_hyps :=
  repeat match goal with
         | H : context [if ?c then ?a else ?b] |- _ =>
             let v := eval cbv in c in
             match v with
             | true => change (if c then a else b) with a in H
             | false => change (if c then a else b) with b in H
             end
         end.

Ltac decide_if_goal :=
  repeat match goal with
         | |- context [if ?c then ?a else ?b] =>
             let v := eval cbv in c in
             match v with
             | true => change (if c then a else b) with a
             | false => change (if c then a else b) with b
             end
         end.

(** A civil date is read back from its day number. *)
Lemma civil_roundtrip (y m d : Z) :
  1 <= m <= 12 -> 1 <= d <= JSDate.daysInMonth y m ->
  JSDate.civilFromDays (JSDate.daysFromCivil y m d) = (y, m)
  /\ dateFromDays (JSDate.daysFromCivil y m d) = d.
Proof.
  intros Hm Hd.
  unfold JSDate.civilFromDays, dateFromDays, JSDate.daysFromCivil. cbv zeta.
  set (y' := if m <=? 2 then y - 1 else y).
  set (era := y' / 400). set (yoe := y' - era * 400).
  set (mp := if 2 <? m then m - 3 else m + 9).
  set (doy := (153 * mp + 2) / 5 + d - 1).
  set (doe := yoe * 365 + yoe / 4 - yoe / 100 + doy).
  assert (Hyoe : 0 <= yoe <= 399)
    by (subst yoe era; Z.to_euclidean_division_equations; lia).
  assert (Hy' : y' = yoe + era * 400) by (subst yoe; lia).
  assert (Hdoy : 0 <= doy
                 /\ (doy <= 364
                     \/ (doy = 365 /\ yoe mod 4 = 3
                         /\ (yoe mod 100 <> 99 \/ yoe = 399)))
                 /\ (5 * doy + 2) / 153 = mp
                 /\ doy - (153 * mp + 2) / 5 + 1 = d
                 /\ (if (if mp <? 10 then mp + 3 else mp - 9) <=? 2
                     then y' + 1 else y') = y
                 /\ (if mp <? 10 then mp + 3 else mp - 9) = m).
  { assert (M : m = 1 \/ m = 2 \/ m = 3 \/ m = 4 \/ m = 5 \/ m = 6 \/ m = 7
                \/ m = 8 \/ m = 9 \/ m = 10 \/ m = 11 \/ m = 12) by lia.
    assert (m = 2 \/ m <> 2) as [-> | M2] by lia.
    - pose proof (feb_length y d Hd) as F. cbv zeta in F.
      change (if 2 <=? 2 then y - 1 else y) with (y - 1) in *.
      change (if 2 <? 2 then 2 - 3 else 2 + 9) with 11 in *.
      change ((153 * 11 + 2) / 5) with 337 in *.
      subst doy mp. fold era in F. fold yoe in F.
      change (if (if 11 <? 10 then 11 + 3 else 11 - 9) <=? 2
              then y' + 1 else y') with (y' + 1).
      change (if 11 <? 10 then 11 + 3 else 11 - 9) with 2.
      subst y'.
      repeat split; try lia; try exact F;
        Z.to_euclidean_division_equations; lia.
    - unfold JSDate.daysInMonth in Hd.
      repeat (destruct M as [-> | M]); try subst m; try lia;
        decide_if_hyps; subst doy mp y'; decide_if_goal;
        (split; [| split; [left |]]; repeat split; try lia;
         Z.to_euclidean_division_equations; lia). }
  destruct Hdoy as (D0 & D1 & D2 & D3 & D4 & D5).
  clearbody doy mp y' era yoe.
  destruct (year_of_era yoe doy Hyoe D0 D1) as (C1 & C2). fold doe in C1, C2.
  replace (era * 146097 + doe - 719468 + 719468) with (doe + era * 146097)
    by lia.
  assert (Q : (doe + era * 146097) / 146097 = era)
    by (Z.to_euclidean_division_equations; lia).
  rewrite Q.
  replace (doe + era * 146097 - era * 146097) with doe by lia.
  rewrite C2.
  replace (doe - (365 * yoe + yoe / 4 - yoe / 100)) with doy
    by (subst doe; lia).
  rewrite D2. split; [| exact D3].
  f_equal; [| exact D5]. rewrite <- Hy'. exact D4.
Qed.

(** Day numbers count on within a month. *)
Lemma daysFromCivil_day (y m d : Z) :
  JSDate.daysFromCivil y m d = JSDate.daysFromCivil y m 1 + (d - 1).
Proof. unfold JSDate.daysFromCivil. cbv zeta. lia. Qed.

(** The first of the next month comes a month's length after the first
    of this one. *)
Lemma month_length (y m : Z) :
  1 <= m <= 12 ->
  JSDate.daysFromCivil (fst (CalendarSpec.monthAfter y m))
    (snd (CalendarSpec.monthAfter y m)) 1
  = JSDate.daysFromCivil y m 1 + JSDate.daysInMonth y m.
Proof.
  intros Hm.
  assert (M : m = 1 \/ m = 2 \/ m = 3 \/ m = 4 \/ m = 5 \/ m = 6 \/ m = 7
              \/ m = 8 \/ m = 9 \/ m = 10 \/ m = 11 \/ m = 12) by lia.
  unfold CalendarSpec.monthAfter, JSDate.daysFromCivil, JSDate.daysInMonth.
  cbv zeta.
  assert (m = 2 \/ m <> 2) as [-> | M2] by lia.
  - decide_if_goal. cbn [fst snd]. decide_if_goal.
    destruct (JSDate.isLeap y) eqn:L.
    + apply isLeap_spec in L. Z.to_euclidean_division_equations; lia.
    + assert (N : ~ ((y mod 4 = 0 /\ y mod 100 <> 0) \/ y mod 400 = 0)).
      { intros H. apply isLeap_spec in H. congruence. }
      Z.to_euclidean_division_equations; lia.
  - repeat (destruct M as [-> | M]); try subst m; try lia;
      decide_if_goal; cbn [fst snd]; decide_if_goal;
      Z.to_euclidean_division_equations; lia.
Qed.

Lemma MakeDay_month (y m d : Z) :
  0 <= m <= 11 -> MakeDay y m d = JSDate.daysFromCivil y (m + 1) d.
Proof.
  intros Hm. unfold MakeDay. cbv zeta.
  rewrite (daysFromCivil_day y (m + 1) d).
  replace (m / 12) with 0 by (Z.to_euclidean_division_equations; lia).
  replace (m mod 12) with m by (Z.to_euclidean_division_equations; lia).
  replace (y + 0) with y by lia. lia.
Qed.

Lemma MakeDay_last (y m : Z) :
  0 <= m <= 11 ->
  MakeDay y (m + 1) 0
  = JSDate.daysFromCivil y (m + 1) (JSDate.daysInMonth y (m + 1)).
Proof.
  intros Hm. unfold MakeDay. cbv zeta.
  rewrite (daysFromCivil_day y (m + 1) (JSDate.daysInMonth y (m + 1))).
  pose proof (month_length y (m + 1) ltac:(lia)) as L.
  unfold CalendarSpec.monthAfter in L.
  destruct (Z.eqb_spec (m + 1) 12) as [E | N]; cbn [fst snd] in L.
  - replace m with 11 in * by lia.
    change ((11 + 1) / 12) with 1. change ((11 + 1) mod 12 + 1) with 1. lia.
  - replace ((m + 1) / 12) with 0 by (Z.to_euclidean_division_equations; lia).
    replace ((m + 1) mod 12) with (m + 1)
      by (Z.to_euclidean_division_equations; lia).
    replace (y + 0) with y by lia. lia.
Qed.

Lemma daysInMonth_range (y m : Z) : 28 <= JSDate.daysInMonth y m <= 31.
Proof.
  unfold JSDate.daysInMonth.
  destruct (m =? 2); [destruct (JSDate.isLeap y); lia |].
  destruct ((m =? 4) || (m =? 6) || (m =? 9) || (m =? 11)); lia.
Qed.

Lemma days_bound (y m d : Z) :
  100 <= y <= 200000 -> 1 <= m <= 12 -> 0 <= d <= 32 ->
  - 719468 <= JSDate.daysFromCivil y m d <= 99000000.
Proof.
  intros Hy Hm Hd. unfold JSDate.daysFromCivil. cbv zeta.
  destruct (m <=? 2); destruct (2 <? m);
    Z.to_euclidean_division_equations; lia.
Qed.

Lemma TimeClip_day (tz n : Z) :
  - JSDate.msPerDay <= tz <= JSDate.msPerDay ->
  - 719468 <= n <= 99000000 ->
  TimeClip (JSDate.UTC tz (n * JSDate.msPerDay))
  = Some (JSDate.UTC tz (n * JSDate.msPerDay)).
Proof.
  unfold TimeClip, JSDate.UTC, JSDate.msPerDay. intros Ht Hn.
  destruct (Z.leb_spec (Z.abs (n * 86400000 - tz)) 8640000000000000);
    [reflexivity | lia].
Qed.

Lemma Day_local (tz n : Z) :
  JSDate.Day (JSDate.LocalTime tz (JSDate.UTC tz (n * JSDate.msPerDay))) = n.
Proof.
  unfold JSDate.Day, JSDate.LocalTime, JSDate.UTC, JSDate.msPerDay.
  replace (n * 86400000 - tz + tz) with (n * 86400000) by lia.
  now rewrite Z.div_mul.
Qed.

(** The date object of a day of the month on display. *)
Lemma newDateZ_day (tz y m d : Z) :
  0 <= m <= 11 -> 100 <= y <= 200000 ->
  - JSDate.msPerDay <= tz <= JSDate.msPerDay -> 0 <= d <= 32 ->
  newDateZ tz y m d
  = Some (JSDate.UTC tz (JSDate.daysFromCivil y (m + 1) d * JSDate.msPerDay)).
Proof.
  intros Hm Hy Ht Hd. unfold newDateZ. cbv zeta.
  replace ((0 <=? y) && (y <=? 99)) with false
    by (symmetry; apply andb_false_iff; right; apply Z.leb_gt; lia).
  rewrite MakeDay_month by exact Hm.
  apply TimeClip_day; [exact Ht |]. apply days_bound; lia.
Qed.

Lemma blank_repeat (n : nat) (l : list JSDate.t) :
  CalendarSpec.blankCells (List.repeat None n ++ List.map Some l) = n.
Proof.
  unfold CalendarSpec.blankCells. rewrite List.filter_app, List.length_app.
  rewrite ViewProps.filter_all.
  2: { intros x Hx. apply List.repeat_spec in Hx. now subst. }
  rewrite ViewProps.filter_none.
  2: { intros x Hx. apply List.in_map_iff in Hx as (z & <- & _). reflexivity. }
  rewrite List.repeat_length. cbn. lia.
Qed.

Lemma newDateZ_last (tz y m : Z) :
  0 <= m <= 11 -> 100 <= y <= 200000 ->
  - JSDate.msPerDay <= tz <= JSDate.msPerDay ->
  newDateZ tz y (m + 1) 0
  = Some (JSDate.UTC tz (JSDate.daysFromCivil y (m + 1)
                           (JSDate.daysInMonth y (m + 1)) * JSDate.msPerDay)).
Proof.
  intros Hm Hy Ht. unfold newDateZ. cbv zeta.
  replace ((0 <=? y) && (y <=? 99)) with false
    by (symmetry; apply andb_false_iff; right; apply Z.leb_gt; lia).
  rewrite MakeDay_last by exact Hm.
  pose proof (daysInMonth_range y (m + 1)).
  apply TimeClip_day; [exact Ht |]. apply days_bound; lia.
Qed.

Lemma monthDays_shape (tz : Z) (c : Current) :
  0 <= m c <= 11 -> 100 <= y c <= 200000 ->
  - JSDate.msPerDay <= tz <= JSDate.msPerDay ->
  monthDays tz c
  = List.repeat None
      (Z.to_nat ((JSDate.daysFromCivil (y c) (m c + 1) 1 + 4) mod 7))
    ++ List.map (CalendarSpec.dayCell tz (y c) (m c))
         (seqZ 1 (JSDate.daysInMonth (y c) (m c + 1))).
Proof.
  intros Hm Hy Ht. unfold monthDays, startOfMonth, endOfMonth. cbv zeta.
  pose proof (daysInMonth_range (y c) (m c + 1)) as R.
  rewrite newDateZ_last by assumption.
  rewrite (newDateZ_day tz (y c) (m c) 1) by (assumption || lia).
  cbn [fmap option_fmap option_map default].
  unfold getDay, getDate. rewrite !Day_local.
  rewrite (proj2 (civil_roundtrip (y c) (m c + 1)
                    (JSDate.daysInMonth (y c) (m c + 1)) ltac:(lia) ltac:(lia))).
  f_equal. apply List.map_ext_in. intros d Hd.
  apply (proj2 (list_elem_of_In _ _)) in Hd. apply elem_of_seqZ in Hd.
  unfold CalendarSpec.dayCell. f_equal. apply newDateZ_day; assumption || lia.
Qed.

(** X20.  The month grid, for a month 0..11 of a year from 100 to
    200000 and a time zone within a day of UTC: up to six blank cells,
    then one cell for each day of the month, in order; the cell of day
    [d] holds a valid date whose local year, month and day are the year
    and month on display and [d]. *)
Theorem month_grid (tz : Z) (c : Current) :
  0 <= m c <= 11 -> 100 <= y c <= 200000 ->
  - JSDate.msPerDay <= tz <= JSDate.msPerDay ->
  let cells := monthDays tz c in
  let n := JSDate.daysInMonth (y c) (m c + 1) in
  let w := CalendarSpec.blankCells cells in
  (w <= 6)%nat
  /\ length cells = (w + Z.to_nat n)%nat
  /\ (forall k, (k < w)%nat -> cells !! k = Some None)
  /\ forall d, 1 <= d <= n ->
       exists tv,
         cells !! (w + Z.to_nat (d - 1))%nat = Some (Some (Some tv))
         /\ JSDate.getFullYear tz tv = y c
         /\ JSDate.getMonth tz tv = m c
         /\ getDate tz tv = d.
Proof.
  intros Hm Hy Ht. cbv zeta.
  rewrite (monthDays_shape tz c Hm Hy Ht).
  set (w := Z.to_nat ((JSDate.daysFromCivil (y c) (m c + 1) 1 + 4) mod 7)).
  set (n := JSDate.daysInMonth (y c) (m c + 1)).
  assert (B : CalendarSpec.blankCells
                (List.repeat None w ++ List.map (CalendarSpec.dayCell tz (y c) (m c)) (seqZ 1 n))
              = w).
  { unfold CalendarSpec.dayCell. rewrite <- (List.map_map _ Some). apply blank_repeat. }
  rewrite B. repeat apply conj.
  - subst w. pose proof (Z.mod_pos_bound
      (JSDate.daysFromCivil (y c) (m c + 1) 1 + 4) 7 ltac:(lia)). lia.
  - rewrite List.length_app, List.repeat_length, List.length_map, length_seqZ.
    reflexivity.
  - intros k Hk. rewrite lookup_app_l by (rewrite List.repeat_length; exact Hk).
    clear B. revert k Hk. induction w as [| w' IH]; intros k Hk; [lia |].
    destruct k as [| k]; [reflexivity |]. cbn. apply IH. lia.
  - intros d Hd.
    exists (JSDate.UTC tz (JSDate.daysFromCivil (y c) (m c + 1) d * JSDate.msPerDay)).
    split.
    + rewrite lookup_app_r by (rewrite List.repeat_length; lia).
      rewrite List.repeat_length.
      replace (w + Z.to_nat (d - 1) - w)%nat with (Z.to_nat (d - 1)) by lia.
      change (List.map ?f ?l) with (f <$> l).
      rewrite list_lookup_fmap, lookup_seqZ_lt by lia.
      cbn [fmap option_fmap option_map].
      replace (1 + Z.of_nat (Z.to_nat (d - 1))) with d by lia. reflexivity.
    + unfold JSDate.getFullYear, JSDate.getMonth, getDate.
      rewrite !Day_local.
      destruct (civil_roundtrip (y c) (m c + 1) d ltac:(lia) Hd) as [E1 E2].
      rewrite E1, E2. cbn [fst snd]. repeat apply conj; lia.
Qed.

(** X21.  Consecutive grids fit together: the number of blank cells
    before the first of the next month is the number of cells of this
    month's grid, modulo 7; so the next month starts in the column after
    the one this month ends in. *)
Theorem next_grid_continues (tz : Z) (c : Current) :
  0 <= m c <= 11 -> 100 <= y c < 200000 ->
  - JSDate.msPerDay <= tz <= JSDate.msPerDay ->
  CalendarSpec.blankCells (monthDays tz (nextMonth c))
  = (length (monthDays tz c) mod 7)%nat.
Proof.
  intros Hm Hy Ht.
  assert (Hm' : 0 <= m (nextMonth c) <= 11).
  { unfold nextMonth. cbn [m]. destruct (Z.eqb_spec (m c) 11); lia. }
  assert (Hy' : 100 <= y (nextMonth c) <= 200000).
  { unfold nextMonth. cbn [y]. destruct (Z.eqb_spec (m c) 11); lia. }
  rewrite (monthDays_shape tz (nextMonth c) Hm' Hy' Ht).
  rewrite (monthDays_shape tz c Hm ltac:(lia) Ht).
  unfold CalendarSpec.dayCell at 1. rewrite <- (List.map_map _ Some), blank_repeat.
  rewrite List.length_app, List.repeat_length, List.length_map, length_seqZ.
  pose proof (month_length (y c) (m c + 1) ltac:(lia)) as L.
  assert (E : JSDate.daysFromCivil (y (nextMonth c)) (m (nextMonth c) + 1) 1
              = JSDate.daysFromCivil (y c) (m c + 1) 1
                + JSDate.daysInMonth (y c) (m c + 1)).
  { rewrite <- L. unfold CalendarSpec.monthAfter, nextMonth. cbn [y m].
    destruct (Z.eqb_spec (m c) 11) as [E | N].
    - rewrite E. reflexivity.
    - destruct (Z.eqb_spec (m c + 1) 12); [lia |]. reflexivity. }
  rewrite E.
  pose proof (daysInMonth_range (y c) (m c + 1)) as R.
  set (f := JSDate.daysFromCivil (y c) (m c + 1) 1) in *.
  set (n := JSDate.daysInMonth (y c) (m c + 1)) in *.
  apply Nat2Z.inj. rewrite Nat2Z.inj_mod, Nat2Z.inj_add, !Z2Nat.id.
  - change (Z.of_nat 7) with 7. Z.to_euclidean_division_equations; lia.
  - lia.
  - apply Z.mod_pos_bound. lia.
  - apply Z.mod_pos_bound. lia.
Qed.

Lemma month_grid_witness :
  (CalendarSpec.blankCells
     (monthDays Examples.utcMinus3 ViewExamples.february2024) <= 6)%nat
  /\ length (monthDays Examples.utcMinus3 ViewExamples.february2024)
     = (4 + 29)%nat.
Proof.
  assert (Hm : 0 <= m ViewExamples.february2024 <= 11) by (cbn; lia).
  assert (Hy : 100 <= y ViewExamples.february2024 <= 200000) by (cbn; lia).
  assert (Ht : - JSDate.msPerDay <= Examples.utcMinus3 <= JSDate.msPerDay)
    by (unfold JSDate.msPerDay, Examples.utcMinus3; lia).
  split.
  - exact (proj1 (month_grid Examples.utcMinus3 ViewExamples.february2024
                    Hm Hy Ht)).
  - vm_compute. reflexivity.
Defined.

Lemma next_grid_continues_witness :
  CalendarSpec.blankCells
    (monthDays Examples.utcMinus3 (nextMonth ViewExamples.february2024))
  = (length (monthDays Examples.utcMinus3 ViewExamples.february2024) mod 7)%nat
  /\ CalendarSpec.blankCells
       (monthDays Examples.utcMinus3 (nextMonth ViewExamples.february2024))
     = 5%nat.
Proof.
  assert (Hm : 0 <= m ViewExamples.february2024 <= 11) by (cbn; lia).
  assert (Hy : 100 <= y ViewExamples.february2024 < 200000) by (cbn; lia).
  assert (Ht : - JSDate.msPerDay <= Examples.utcMinus3 <= JSDate.msPerDay)
    by (unfold JSDate.msPerDay, Examples.utcMinus3; lia).
  split.
  - exact (next_grid_continues Examples.utcMinus3 ViewExamples.february2024
             Hm Hy Ht).
  - vm_compute. reflexivity.
Defined.

End GridProps.

(** ** The event filter *)

Module FilterProps.
Import CalendarView.

Lemma splitOn_single (s : string) :
  CalendarSpec.noDash s = true -> splitOn "-"%char s = [s].
Proof.
  induction s as [| c r IH]; [reflexivity |].
  cbn [CalendarSpec.noDash splitOn]. intros H.
  apply andb_prop in H as [H1 H2]. apply negb_true_iff in H1.
  rewrite H1, (IH H2). reflexivity.
Qed.

Lemma splitOn_cons (a b : string) :
  CalendarSpec.noDash a = true ->
  splitOn "-"%char (a ++ "-" ++ b) = a :: splitOn "-"%char b.
Proof.
  induction a as [| c r IH]; [reflexivity |].
  change (String c r ++ "-" ++ b)%string with (String c (r ++ "-" ++ b)).
  cbn [CalendarSpec.noDash splitOn]. intros H.
  apply andb_prop in H as [H1 H2]. apply negb_true_iff in H1.
  rewrite H1, (IH H2). reflexivity.
Qed.

Lemma includes_nil (hay : list ascii) : includes hay [] = true.
Proof. destruct hay; reflexivity. Qed.

Lemma trunc_Z (z : Z) : trunc (inject_Z z) = z.
Proof.
  unfold trunc. destruct (Qle_bool 0 (inject_Z z)).
  - apply Qfloor_Z.
  - apply Qceiling_Z.
Qed.

Lemma trunc_pred (z : Z) : trunc (inject_Z z - 1) = z - 1.
Proof.
  assert (E : (inject_Z z - 1 == inject_Z (z - 1))%Q).
  { unfold Z.sub. rewrite inject_Z_plus, inject_Z_opp. reflexivity. }
  unfold trunc.
  destruct (Qle_bool 0 (inject_Z z - 1)).
  - rewrite (Qfloor_comp _ _ E). apply Qfloor_Z.
  - rewrite (Qceiling_comp _ _ E). apply Qceiling_Z.
Qed.

Section Host.
Variable tz : Z.
Variable toNumber : string -> Num.
Variable trim : string -> string.

(** X22.  The phone filter reads digits only: two filter texts with the
    same digits select the same events, provided that, when they hold a
    digit at all, both or neither are blank after trimming; in
    particular a text without any digit filters nothing out by phone. *)
Theorem phone_filter_reads_digits (fm fy : Z) (fs : StatusFilter)
  (p1 p2 : string) (events : list CalendarEvent) :
  JS.keepDigits p1 = JS.keepDigits p2 ->
  (JS.keepDigits p1 <> [] ->
   (trim p1 = EmptyString <-> trim p2 = EmptyString)) ->
  filteredEvents tz toNumber trim fm fy fs p1 events
  = filteredEvents tz toNumber trim fm fy fs p2 events.
Proof.
  intros D T. unfold filteredEvents. apply List.filter_ext. intros ev.
  unfold shown.
  destruct (toLocalDate tz toNumber (AdminCalendar.eventDate (item ev)));
    [| reflexivity].
  cbv zeta. do 3 f_equal. rewrite <- D.
  destruct (JS.keepDigits p1) as [| c ds] eqn:E.
  - rewrite includes_nil. now destruct (trim p1), (trim p2).
  - specialize (T ltac:(discriminate)).
    destruct (trim p1) eqn:E1, (trim p2) eqn:E2; try reflexivity.
    + discriminate (proj1 T eq_refl).
    + discriminate (proj2 T eq_refl).
Qed.

(** X23.  A date text needs three parts: a text with no dash, or with
    one dash only, gives no date, whatever [Number] makes of its parts,
    and the event is shown under no filter. *)
Theorem date_needs_three_parts (a b : string) (ev : CalendarEvent)
  (fm fy : Z) (fs : StatusFilter) (p : string) :
  CalendarSpec.noDash a = true -> CalendarSpec.noDash b = true ->
  (AdminCalendar.eventDate (item ev) = Some a
   \/ AdminCalendar.eventDate (item ev) = Some (a ++ "-" ++ b)%string) ->
  toLocalDate tz toNumber (AdminCalendar.eventDate (item ev)) = None
  /\ shown tz toNumber trim fm fy fs p ev = false.
Proof.
  intros Ha Hb H.
  assert (N : toLocalDate tz toNumber (AdminCalendar.eventDate (item ev)) = None).
  { destruct H as [-> | ->]; unfold toLocalDate.
    - destruct (JS.truthyStr (Some a)) as [s |] eqn:E; [| reflexivity].
      assert (s = a) as -> by (destruct a; [discriminate | now injection E]).
      rewrite (splitOn_single a Ha). cbn.
      now rewrite orb_true_r.
    - destruct (JS.truthyStr (Some (a ++ "-" ++ b)%string)) as [s |] eqn:E;
        [| reflexivity].
      assert (s = (a ++ "-" ++ b)%string) as ->.
      { destruct (a ++ "-" ++ b)%string; [discriminate | now injection E]. }
      rewrite (splitOn_cons a b Ha), (splitOn_single b Hb). cbn.
      now rewrite orb_true_r. }
  split; [exact N |]. unfold shown. now rewrite N.
Qed.

Lemma truthy_Z (z : Z) : z <> 0 -> truthyNum (Some (Fin (inject_Z z))) = true.
Proof.
  intros H. cbn [truthyNum]. apply negb_true_iff.
  destruct (Qeq_bool (inject_Z z) 0) eqn:E; [| reflexivity].
  apply Qeq_bool_eq in E. unfold Qeq in E. cbn in E. lia.
Qed.

(** X24.  A date text [Y-M-D] whose three parts are the numbers of a
    year from 100 on, a month 1..12 and a day of that month is read as
    local midnight of that day.  One day past the end of the month is
    accepted too, and read as the first of the following month. *)
Theorem date_text_parses (ys ms ds : string) (Y M D : Z) :
  CalendarSpec.noDash ys = true -> CalendarSpec.noDash ms = true ->
  CalendarSpec.noDash ds = true ->
  toNumber ys = Fin (inject_Z Y) -> toNumber ms = Fin (inject_Z M) ->
  toNumber ds = Fin (inject_Z D) ->
  100 <= Y < 200000 -> 1 <= M <= 12 ->
  1 <= D <= JSDate.daysInMonth Y M + 1 ->
  - JSDate.msPerDay <= tz <= JSDate.msPerDay ->
  exists tv,
    toLocalDate tz toNumber (Some (ys ++ "-" ++ ms ++ "-" ++ ds)%string)
    = Some (Some tv)
    /\ (D <= JSDate.daysInMonth Y M ->
        JSDate.getFullYear tz tv = Y /\ JSDate.getMonth tz tv = M - 1
        /\ getDate tz tv = D)
    /\ (D = JSDate.daysInMonth Y M + 1 ->
        (JSDate.getFullYear tz tv, JSDate.getMonth tz tv + 1)
        = CalendarSpec.monthAfter Y M
        /\ getDate tz tv = 1).
Proof.
  intros Hy Hm Hd Ny Nm Nd RY RM RD Ht.
  pose proof (GridProps.daysInMonth_range Y M) as R.
  exists (JSDate.UTC tz (JSDate.daysFromCivil Y M D * JSDate.msPerDay)).
  split; [| split].
  - unfold toLocalDate.
    destruct (JS.truthyStr (Some (ys ++ "-" ++ ms ++ "-" ++ ds)%string))
      as [s |] eqn:E.
    2: { destruct ys; discriminate. }
    assert (s = (ys ++ "-" ++ ms ++ "-" ++ ds)%string) as ->.
    { destruct ys; now injection E. }
    rewrite (splitOn_cons ys _ Hy), (splitOn_cons ms ds Hm),
      (splitOn_single ds Hd).
    cbn [List.map]. rewrite Ny, Nm, Nd.
    change ([Fin (inject_Z Y); Fin (inject_Z M); Fin (inject_Z D)] !! 0%nat)
      with (Some (Fin (inject_Z Y))).
    change ([Fin (inject_Z Y); Fin (inject_Z M); Fin (inject_Z D)] !! 1%nat)
      with (Some (Fin (inject_Z M))).
    change ([Fin (inject_Z Y); Fin (inject_Z M); Fin (inject_Z D)] !! 2%nat)
      with (Some (Fin (inject_Z D))).
    cbv zeta.
    rewrite !truthy_Z by lia. cbn [negb orb].
    unfold newDate, pred. rewrite !trunc_Z, trunc_pred.
    rewrite (GridProps.newDateZ_day tz Y (M - 1) D) by lia.
    now replace (M - 1 + 1) with M by lia.
  - intros HD. unfold JSDate.getFullYear, JSDate.getMonth, getDate.
    rewrite !GridProps.Day_local.
    destruct (GridProps.civil_roundtrip Y M D RM ltac:(lia)) as [E1 E2].
    rewrite E1, E2. cbn [fst snd]. repeat apply conj; lia.
  - intros HD. unfold JSDate.getFullYear, JSDate.getMonth, getDate.
    rewrite !GridProps.Day_local.
    rewrite (GridProps.daysFromCivil_day Y M D), HD.
    replace (JSDate.daysFromCivil Y M 1 + (JSDate.daysInMonth Y M + 1 - 1))
      with (JSDate.daysFromCivil Y M 1 + JSDate.daysInMonth Y M) by lia.
    rewrite <- (GridProps.month_length Y M RM).
    set (n := CalendarSpec.monthAfter Y M).
    assert (Hn : 1 <= snd n <= 12).
    { subst n. unfold CalendarSpec.monthAfter.
      destruct (Z.eqb_spec M 12); cbn [snd]; lia. }
    pose proof (GridProps.daysInMonth_range (fst n) (snd n)) as R'.
    destruct (GridProps.civil_roundtrip (fst n) (snd n) 1 Hn ltac:(lia))
      as [E1 E2].
    rewrite E1, E2. cbn [fst snd]. split; [| reflexivity].
    destruct n as [ny nm]. cbn [fst snd]. f_equal. lia.
Qed.

(** X25.  A derived status is delivered, pending payment or booked, so
    the filters for pending, cancelled, pending approval and released
    show stored statuses only: every event they keep has that status
    stored. *)
Theorem stored_status_filters (fm fy : Z) (fs : StatusFilter) (p : string)
  (events : list CalendarEvent) (ev : CalendarEvent) :
  CalendarSpec.storedOnly fs = true ->
  In ev (filteredEvents tz toNumber trim fm fy fs p events) ->
  exists s, status ev = Some s /\ sameStatus s fs = true.
Proof.
  intros S H. unfold filteredEvents in H. apply List.filter_In in H as [_ H].
  unfold shown in H.
  destruct (toLocalDate tz toNumber (AdminCalendar.eventDate (item ev)));
    [| discriminate].
  cbv zeta in H. apply andb_prop in H as [H _]. apply andb_prop in H as [_ H].
  unfold statusOf in H.
  destruct (status ev) as [s |] eqn:E.
  - exists s. split; [reflexivity |]. now destruct fs.
  - destruct fs; try discriminate;
      destruct (JS.truthy (AdminCalendar.eventCompleted (item ev))
                && JS.truthy (AdminCalendar.finalPaymentPaid (item ev)));
      try discriminate;
      destruct (AdminCalendar.depositPaid (item ev)) as [[] |]; discriminate.
Qed.

End Host.

Lemma phone_filter_reads_digits_witness :
  filteredEvents Examples.utcMinus3 ViewExamples.numberOf
    ViewExamples.trimSpaces 5 2024 all "(11) 98765"
    (List.map event (load ViewExamples.bothContracts))
  = filteredEvents Examples.utcMinus3 ViewExamples.numberOf
      ViewExamples.trimSpaces 5 2024 all " 1198765 "
      (List.map event (load ViewExamples.bothContracts))
  /\ length (filteredEvents Examples.utcMinus3 ViewExamples.numberOf
               ViewExamples.trimSpaces 5 2024 all "(11) 98765"
               (List.map event (load ViewExamples.bothContracts))) = 2%nat.
Proof.
  assert (D : JS.keepDigits "(11) 98765" = JS.keepDigits " 1198765 ")
    by (vm_compute; reflexivity).
  assert (T : JS.keepDigits "(11) 98765" <> [] ->
              (ViewExamples.trimSpaces "(11) 98765" = EmptyString
               <-> ViewExamples.trimSpaces " 1198765 " = EmptyString)).
  { intros _. split; intros H; vm_compute in H; discriminate H. }
  split.
  - exact (phone_filter_reads_digits Examples.utcMinus3 ViewExamples.numberOf
             ViewExamples.trimSpaces 5 2024 all "(11) 98765" " 1198765 "
             (List.map event (load ViewExamples.bothContracts)) D T).
  - vm_compute. reflexivity.
Defined.

Lemma date_needs_three_parts_witness :
  toLocalDate Examples.utcMinus3 ViewExamples.numberOf
    (AdminCalendar.eventDate (item ViewExamples.undatedEvent)) = None
  /\ shown Examples.utcMinus3 ViewExamples.numberOf ViewExamples.trimSpaces
       5 2024 all EmptyString ViewExamples.undatedEvent = false.
Proof.
  assert (Ha : CalendarSpec.noDash "20240615" = true) by (vm_compute; reflexivity).
  assert (Hb : CalendarSpec.noDash EmptyString = true) by reflexivity.
  assert (H : AdminCalendar.eventDate (item ViewExamples.undatedEvent)
              = Some "20240615"%string
              \/ AdminCalendar.eventDate (item ViewExamples.undatedEvent)
                 = Some ("20240615" ++ "-" ++ EmptyString)%string)
    by (left; reflexivity).
  exact (date_needs_three_parts Examples.utcMinus3 ViewExamples.numberOf
           ViewExamples.trimSpaces "20240615" EmptyString
           ViewExamples.undatedEvent 5 2024 all EmptyString Ha Hb H).
Defined.

Lemma date_text_parses_witness :
  exists tv,
    toLocalDate Examples.utcMinus3 ViewExamples.numberOf
      (Some ("2024" ++ "-" ++ "06" ++ "-" ++ "31")%string) = Some (Some tv)
    /\ (31 = JSDate.daysInMonth 2024 6 + 1 ->
        (JSDate.getFullYear Examples.utcMinus3 tv,
         JSDate.getMonth Examples.utcMinus3 tv + 1)
        = CalendarSpec.monthAfter 2024 6
        /\ getDate Examples.utcMinus3 tv = 1).
Proof.
  assert (Hy : CalendarSpec.noDash "2024" = true) by (vm_compute; reflexivity).
  assert (Hm : CalendarSpec.noDash "06" = true) by (vm_compute; reflexivity).
  assert (Hd : CalendarSpec.noDash "31" = true) by (vm_compute; reflexivity).
  assert (Ny : ViewExamples.numberOf "2024" = Fin (inject_Z 2024))
    by (vm_compute; reflexivity).
  assert (Nm : ViewExamples.numberOf "06" = Fin (inject_Z 6))
    by (vm_compute; reflexivity).
  assert (Nd : ViewExamples.numberOf "31" = Fin (inject_Z 31))
    by (vm_compute; reflexivity).
  assert (RY : 100 <= 2024 < 200000) by lia.
  assert (RM : 1 <= 6 <= 12) by lia.
  assert (RD : 1 <= 31 <= JSDate.daysInMonth 2024 6 + 1)
    by (vm_compute; split; discriminate).
  assert (Ht : - JSDate.msPerDay <= Examples.utcMinus3 <= JSDate.msPerDay)
    by (unfold JSDate.msPerDay, Examples.utcMinus3; lia).
  destruct (date_text_parses Examples.utcMinus3 ViewExamples.numberOf
              "2024" "06" "31" 2024 6 31 Hy Hm Hd Ny Nm Nd RY RM RD Ht)
    as (tv & E & _ & O).
  exists tv. split; [exact E | exact O].
Defined.

Lemma stored_status_filters_witness :
  exists s,
    status (event (rowOf ViewExamples.session)) = Some s
    /\ sameStatus s only_cancelled = true.
Proof.
  assert (S : CalendarSpec.storedOnly only_cancelled = true) by reflexivity.
  assert (H : In (event (rowOf ViewExamples.session))
                (filteredEvents Examples.utcMinus3 ViewExamples.numberOf
                   ViewExamples.trimSpaces 6 2024 only_cancelled EmptyString
                   (List.map event (load ViewExamples.bothContracts))))
    by (vm_compute; left; reflexivity).
  exact (stored_status_filters Examples.utcMinus3 ViewExamples.numberOf
           ViewExamples.trimSpaces 6 2024 only_cancelled EmptyString
           (List.map event (load ViewExamples.bothContracts))
           (event (rowOf ViewExamples.session)) S H).
Defined.

End FilterProps.

(** ** The budget ledger: totals, stale views and the envelope cards *)

Module BudgetMore.
Import BudgetPlanner BudgetView.

Lemma sumOf_from {A} (f : A -> Q) (l : list (string * A)) (a : Q) :
  (fold_left (fun sum kv => sum + f (snd kv)) l a == a + sumOf f l)%Q.
Proof.
  unfold sumOf. revert a. induction l as [| x l IH]; intros a; cbn [fold_left].
  - lra.
  - rewrite (IH (a + f (snd x))%Q), (IH (0 + f (snd x))%Q). lra.
Qed.

Lemma sumOf_cons {A} (f : A -> Q) (x : string * A) (l : list (string * A)) :
  (sumOf f (x :: l) == f (snd x) + sumOf f l)%Q.
Proof.
  unfold sumOf at 1. cbn [fold_left]. rewrite sumOf_from. lra.
Qed.

Lemma sumOf_perm {A} (f : A -> Q) (l l' : list (string * A)) :
  Permutation l l' -> (sumOf f l == sumOf f l')%Q.
Proof.
  induction 1 as [| x l l' _ IH | x y l | l l' l'' _ IH1 _ IH2].
  - reflexivity.
  - rewrite !sumOf_cons, IH. reflexivity.
  - rewrite !sumOf_cons. lra.
  - now rewrite IH1.
Qed.

Lemma filter_perm {A} (f : A -> bool) (l l' : list A) :
  Permutation l l' -> Permutation (List.filter f l) (List.filter f l').
Proof.
  induction 1 as [| x l l' _ IH | x y l | l l' l'' _ IH1 _ IH2].
  - constructor.
  - cbn [List.filter]. destruct (f x); [now constructor | exact IH].
  - cbn [List.filter]. destruct (f x), (f y); try reflexivity. constructor.
  - now transitivity (List.filter f l').
Qed.

(** The view of a store with one more transaction. *)
Lemma load_added (newId : string) (data : TransactionDoc) (d : Db) :
  budget_transactions d !! newId = None ->
  let v := loadBudgetData d in
  let v' := loadBudgetData (addTransaction newId data d) in
  envelopes v' = envelopes v
  /\ transactions v' = <[newId := transactionOfDoc newId data]> (transactions v)
  /\ (totalSpent v' == totalSpent v)%Q
  /\ (totalAllocated v' == totalAllocated v)%Q
  /\ (totalAvailable v'
      == totalAvailable v
         + (if isIncome (d_type data) then d_amount data else 0))%Q.
Proof.
  intros F. cbv zeta. unfold loadBudgetData, addTransaction.
  cbn [envelopes transactions totalSpent totalAllocated totalAvailable
       budget_envelopes budget_transactions].
  repeat apply conj; try reflexivity.
  - now apply map_imap_insert_Some.
  - rewrite (map_imap_insert_Some _ newId data _ (transactionOfDoc newId data) eq_refl).
    set (txs := map_imap (fun i data => Some (transactionOfDoc i data))
                  (budget_transactions d)).
    assert (N : txs !! newId = None).
    { subst txs. rewrite map_lookup_imap, F. reflexivity. }
    pose proof (map_to_list_insert txs newId (transactionOfDoc newId data) N) as P.
    apply (filter_perm (fun kv => isIncome (type (snd kv)))) in P.
    rewrite (sumOf_perm amount _ _ P).
    cbn [List.filter snd transactionOfDoc type].
    destruct (isIncome (d_type data)).
    + rewrite sumOf_cons. cbn [snd amount transactionOfDoc]. lra.
    + lra.
Qed.

(** X26.  Adding an income of a positive amount records one income
    transaction; the envelopes and the spent and allocated totals stay
    as they are.  When the amount and the stored amounts are whole
    numbers adding up to at most 2^53 in magnitude, the available total
    rises by the amount.  Without an amount, or with one that is not
    positive, nothing happens. *)
Theorem income_raises_available (st : State) (amt : Q)
  (newId nowIsoDay nowIso : string) :
  BudgetSpec.upToDate st ->
  (0 < amt)%Q ->
  budget_transactions (db st) !! newId = None ->
  let st1 := handleAddIncome (Some amt) newId nowIsoDay nowIso st in
  (Exact.exact (amt :: BudgetSpec.numbersOf (db st)) = true ->
   (totalAvailable (budgetData st1)
    == totalAvailable (budgetData st) + amt)%Q)
  /\ (totalSpent (budgetData st1) == totalSpent (budgetData st))%Q
  /\ (totalAllocated (budgetData st1) == totalAllocated (budgetData st))%Q
  /\ envelopes (budgetData st1) = envelopes (budgetData st)
  /\ budget_envelopes (db st1) = budget_envelopes (db st)
  /\ (exists tx, transactions (budgetData st1) !! newId = Some tx
                 /\ type tx = income /\ amount tx = amt
                 /\ envelopeId tx = None)
  /\ BudgetSpec.upToDate st1
  /\ handleAddIncome None newId nowIsoDay nowIso st = st
  /\ handleAddIncome (Some (- amt)%Q) newId nowIsoDay nowIso st = st
  /\ handleAddIncome (Some 0%Q) newId nowIsoDay nowIso st = st.
Proof.
  intros U Hp F. cbv zeta. unfold handleAddIncome.
  assert (G : Qle_bool amt 0 = false).
  { destruct (Qle_bool amt 0) eqn:E; [| reflexivity].
    apply Qle_bool_iff in E. lra. }
  assert (G' : Qle_bool (- amt) 0 = true) by (apply Qle_bool_iff; lra).
  rewrite G, G'. cbn [db budgetData].
  set (data := {| d_date := nowIsoDay; d_description := "Ingreso"%string;
                  d_category := "Ingresos"%string; d_type := income;
                  d_amount := amt; d_envelopeId := None;
                  d_timestamp := Some nowIso |}).
  destruct (load_added newId data (db st) F) as (E1 & E2 & E3 & E4 & E5).
  rewrite U. repeat apply conj; try assumption; try reflexivity.
  { intros _. exact E5. }
  exists (transactionOfDoc newId data). rewrite E2, lookup_insert_eq.
  repeat split.
Qed.

(** The view of a store in which the spent total of one envelope has
    been rewritten. *)
Lemma load_spent (sel : string) (newSpent : Q) (d d2 : Db) (data : EnvelopeDoc) :
  budget_envelopes d !! sel = Some data ->
  updateSpent sel newSpent d = Some d2 ->
  let v := loadBudgetData d in
  let v' := loadBudgetData d2 in
  budget_transactions d2 = budget_transactions d
  /\ transactions v' = transactions v
  /\ (forall j, j <> sel -> envelopes v' !! j = envelopes v !! j)
  /\ (exists e', envelopes v' !! sel = Some e'
                 /\ (spent e' == newSpent)%Q
                 /\ allocated e' = JS.orNum (d_allocated data) 0)
  /\ (totalSpent v' == totalSpent v - JS.orNum (d_spent data) 0 + newSpent)%Q
  /\ (totalAllocated v' == totalAllocated v)%Q
  /\ (totalAvailable v'
      == totalAvailable v + JS.orNum (d_spent data) 0 - newSpent)%Q.
Proof.
  intros L U. cbv zeta. unfold updateSpent in U. rewrite L in U.
  injection U as <-.
  set (data' := {| d_name := d_name data; d_percentage := d_percentage data;
                   d_allocated := d_allocated data;
                   d_spent := Some newSpent |}).
  unfold loadBudgetData.
  cbn [envelopes transactions totalSpent totalAllocated totalAvailable
       budget_envelopes budget_transactions].
  rewrite (map_imap_insert_Some _ sel data' _ (envelopeOfDoc sel data') eq_refl).
  set (envs := map_imap (fun i data => Some (envelopeOfDoc i data))
                 (budget_envelopes d)).
  assert (E : envs !! sel = Some (envelopeOfDoc sel data)).
  { subst envs. rewrite map_lookup_imap, L. reflexivity. }
  assert (P1 : map_to_list (<[sel := envelopeOfDoc sel data']> envs)
               ≡ₚ (sel, envelopeOfDoc sel data') :: map_to_list (delete sel envs)).
  { rewrite <- insert_delete_eq. apply map_to_list_insert.
    apply lookup_delete_eq. }
  pose proof (map_to_list_delete envs sel _ E) as P2.
  assert (S1 : (sumOf spent (map_to_list (<[sel := envelopeOfDoc sel data']> envs))
                == sumOf spent (map_to_list envs)
                   - JS.orNum (d_spent data) 0 + newSpent)%Q).
  { rewrite (sumOf_perm spent _ _ P1), <- (sumOf_perm spent _ _ P2),
      !sumOf_cons.
    cbn [snd spent envelopeOfDoc d_spent data'].
    rewrite LedgerProps.orNum_some. lra. }
  assert (S2 : (sumOf allocated (map_to_list (<[sel := envelopeOfDoc sel data']> envs))
                == sumOf allocated (map_to_list envs))%Q).
  { rewrite (sumOf_perm allocated _ _ P1), <- (sumOf_perm allocated _ _ P2),
      !sumOf_cons.
    cbn [snd allocated envelopeOfDoc d_allocated data']. lra. }
  repeat apply conj; try reflexivity.
  - intros j N. now rewrite lookup_insert_ne by congruence.
  - exists (envelopeOfDoc sel data'). rewrite lookup_insert_eq.
    repeat split. cbn [spent envelopeOfDoc d_spent data'].
    apply LedgerProps.orNum_some.
  - exact S1.
  - exact S2.
  - rewrite S1. lra.
Qed.

Lemma view_envelope (st : State) (sel : string) (envelope : Envelope) :
  BudgetSpec.upToDate st ->
  envelopes (budgetData st) !! sel = Some envelope ->
  exists data, budget_envelopes (db st) !! sel = Some data
               /\ envelope = envelopeOfDoc sel data.
Proof.
  intros U H. rewrite U, LedgerProps.load_envelope in H.
  destruct (budget_envelopes (db st) !! sel) as [data |]; [| discriminate].
  exists data. split; [reflexivity |]. now injection H.
Qed.

Lemma positive_amount (amt : Q) : (0 < amt)%Q -> Qle_bool amt 0 = false.
Proof.
  intros H. destruct (Qle_bool amt 0) eqn:E; [| reflexivity].
  apply Qle_bool_iff in E. lra.
Qed.

Lemma truthy_sel (sel : string) :
  sel <> EmptyString -> JS.truthyStr (Some sel) = Some sel.
Proof. destruct sel; [contradiction | reflexivity]. Qed.

(** X27.  Adding an expense of a positive amount against an envelope of
    an up-to-date view leaves the view up to date again.  When the
    amount and the stored amounts are whole numbers adding up to at most
    2^53 in magnitude, the spent total rises by the amount, the
    available total falls by it, and the allocated total does not
    move. *)
Theorem expense_moves_totals (st : State) (sel : string) (envelope : Envelope)
  (amt : Q) (descriptionInput newId nowIsoDay nowIso : string) :
  BudgetSpec.upToDate st ->
  sel <> EmptyString ->
  envelopes (budgetData st) !! sel = Some envelope ->
  (0 < amt)%Q ->
  budget_transactions (db st) !! newId = None ->
  let st1 := handleAddExpense (Some sel) (Some amt) descriptionInput
               newId nowIsoDay nowIso st in
  BudgetSpec.upToDate st1
  /\ (Exact.exact (amt :: BudgetSpec.numbersOf (db st)) = true ->
      (totalSpent (budgetData st1) == totalSpent (budgetData st) + amt)%Q
      /\ (totalAvailable (budgetData st1)
          == totalAvailable (budgetData st) - amt)%Q
      /\ (totalAllocated (budgetData st1)
          == totalAllocated (budgetData st))%Q).
Proof.
  intros U N H Hp F. cbv zeta.
  destruct (view_envelope st sel envelope U H) as (data & L & ->).
  unfold handleAddExpense.
  rewrite (truthy_sel sel N), (positive_amount amt Hp), H.
  set (tx := {| d_date := nowIsoDay;
                d_description := match descriptionInput with
                                 | EmptyString => "Gasto"%string
                                 | String _ _ => descriptionInput
                                 end;
                d_category := name (envelopeOfDoc sel data);
                d_type := expense; d_amount := amt;
                d_envelopeId := Some sel; d_timestamp := Some nowIso |}).
  set (d1 := addTransaction newId tx (db st)).
  assert (L1 : budget_envelopes d1 !! sel = Some data) by exact L.
  destruct (updateSpent sel (spent (envelopeOfDoc sel data) + amt) d1)
    as [d2 |] eqn:E.
  2: { unfold updateSpent in E. rewrite L1 in E. discriminate. }
  cbn [db budgetData].
  destruct (load_spent sel _ d1 d2 data L1 E) as (_ & _ & _ & _ & S1 & S2 & S3).
  destruct (load_added newId tx (db st) F) as (_ & _ & A1 & A2 & A3).
  fold d1 in A1, A2, A3. cbn [isIncome d_type tx] in A3.
  rewrite U. cbn [spent envelopeOfDoc] in S1, S3.
  split; [reflexivity |]. intros _. repeat apply conj.
  - rewrite S1, A1. lra.
  - rewrite S3, A3. lra.
  - rewrite S2, A2. reflexivity.
Qed.

(** X28.  Deleting an expense never leaves a negative spent total: the
    envelope's spent total becomes the larger of 0 and the former total
    less the amount, so an expense larger than what the envelope shows
    as spent brings it to 0.  The other envelopes are untouched, the
    transaction is gone, and declining the confirmation changes
    nothing. *)
Theorem delete_clamps_spent (st : State) (i eid : string) (tx : Transaction)
  (envelope : Envelope) :
  BudgetSpec.upToDate st ->
  transactions (budgetData st) !! i = Some tx ->
  type tx = expense ->
  envelopeId tx = Some eid ->
  eid <> EmptyString ->
  envelopes (budgetData st) !! eid = Some envelope ->
  let st2 := handleDeleteTransaction true i st in
  (exists e2,
      envelopes (budgetData st2) !! eid = Some e2
      /\ (spent e2 == JS.max0 (spent envelope - amount tx))%Q
      /\ (0 <= spent e2)%Q
      /\ ((spent envelope <= amount tx)%Q -> (spent e2 == 0)%Q)
      /\ allocated e2 = allocated envelope)
  /\ (forall j, j <> eid ->
        envelopes (budgetData st2) !! j = envelopes (budgetData st) !! j)
  /\ transactions (budgetData st2) !! i = None
  /\ handleDeleteTransaction false i st = st.
Proof.
  intros U T Ty Ev N H. cbv zeta.
  destruct (view_envelope st eid envelope U H) as (data & L & ->).
  unfold handleDeleteTransaction. cbn [negb].
  rewrite T, Ev, (truthy_sel eid N), Ty, H.
  set (newSpent := JS.max0 (spent (envelopeOfDoc eid data) - amount tx)).
  destruct (updateSpent eid newSpent (db st)) as [d1 |] eqn:E.
  2: { unfold updateSpent in E. rewrite L in E. discriminate. }
  cbn [db budgetData].
  destruct (load_spent eid newSpent (db st) d1 data L E)
    as (_ & _ & O & (e2 & L2 & S2 & A2) & _).
  repeat apply conj.
  - exists e2. repeat apply conj.
    + exact L2.
    + exact S2.
    + rewrite S2. apply max0_nonneg.
    + intros Hle. rewrite S2. subst newSpent. unfold JS.max0.
      apply Q.max_l. lra.
    + exact A2.
  - intros j Nj. rewrite U. exact (O j Nj).
  - rewrite LedgerProps.load_transaction. unfold deleteTransaction.
    cbn [budget_transactions]. now rewrite lookup_delete_eq.
  - reflexivity.
Qed.

(** X29.  On a stale view, one that still shows an envelope the store no
    longer holds, an expense against that envelope is recorded all the
    same: the transaction is written before the envelope update is
    refused, no envelope is charged, and the view is not reloaded.
    Deleting an expense of such an envelope is refused before anything
    is written. *)
Theorem stale_envelope (st : State) (sel : string) (envelope : Envelope)
  (amt : Q) (descriptionInput newId nowIsoDay nowIso : string) :
  sel <> EmptyString ->
  envelopes (budgetData st) !! sel = Some envelope ->
  budget_envelopes (db st) !! sel = None ->
  (0 < amt)%Q ->
  let st1 := handleAddExpense (Some sel) (Some amt) descriptionInput
               newId nowIsoDay nowIso st in
  budgetData st1 = budgetData st
  /\ budget_envelopes (db st1) = budget_envelopes (db st)
  /\ (exists data,
        budget_transactions (db st1) !! newId = Some data
        /\ d_type data = expense /\ d_amount data = amt
        /\ d_envelopeId data = Some sel)
  /\ forall i tx,
       transactions (budgetData st) !! i = Some tx ->
       type tx = expense -> envelopeId tx = Some sel ->
       handleDeleteTransaction true i st = st.
Proof.
  intros N H L Hp. cbv zeta. repeat apply conj.
  - unfold handleAddExpense.
    rewrite (truthy_sel sel N), (positive_amount amt Hp), H.
    unfold updateSpent, addTransaction. cbn [budget_envelopes].
    rewrite L. reflexivity.
  - unfold handleAddExpense.
    rewrite (truthy_sel sel N), (positive_amount amt Hp), H.
    unfold updateSpent, addTransaction. cbn [budget_envelopes].
    rewrite L. reflexivity.
  - unfold handleAddExpense.
    rewrite (truthy_sel sel N), (positive_amount amt Hp), H.
    unfold updateSpent, addTransaction. cbn [budget_envelopes].
    rewrite L. cbn [db budget_transactions].
    eexists. rewrite lookup_insert_eq. repeat split.
  - intros i tx T Ty Ev. unfold handleDeleteTransaction. cbn [negb].
    rewrite T, Ev, (truthy_sel sel N), Ty, H.
    unfold updateSpent. rewrite L. reflexivity.
Qed.

Lemma percent_scaled (envelope : Envelope) :
  (0 < allocated envelope)%Q ->
  (progressPercent envelope * allocated envelope == spent envelope * 100)%Q.
Proof.
  intros H. unfold progressPercent. rewrite (proj2 (gtb_true _ _) H).
  field. lra.
Qed.

Lemma percent_monotone (envelope other : Envelope) :
  (allocated other == allocated envelope)%Q ->
  (spent envelope <= spent other)%Q ->
  (progressPercent envelope <= progressPercent other)%Q.
Proof.
  intros Ea Hs. unfold progressPercent.
  destruct (JS.gtb (allocated envelope) 0) eqn:G.
  - pose proof (proj1 (gtb_true _ _) G) as Ha.
    rewrite (proj2 (gtb_true (allocated other) 0) ltac:(lra)).
    rewrite Ea. apply Qmult_le_compat_r; [| lra].
    apply Qmult_le_compat_r; [exact Hs |].
    apply Qlt_le_weak, Qinv_lt_0_compat, Ha.
  - pose proof (proj1 (gtb_false _ _) G) as Ha.
    rewrite (proj2 (gtb_false (allocated other) 0) ltac:(lra)). lra.
Qed.

(** X30.  The progress bar of an envelope card with a spent total that
    is not negative.  Its width lies between 0 and 100.  With a positive
    allocation, an envelope that has spent its allocation or more is red
    at full width, and one that has spent nothing is green at width 0;
    without a positive allocation the percentage is 0 and the bar green
    at width 0, whatever was spent.  Of two envelopes with the same
    allocation the one that has spent more has the wider bar and a colour
    at least as severe: if it is green so is the other, and if the other
    is red so is it. *)
Theorem progress_bar (envelope other : Envelope) :
  (0 <= spent envelope)%Q ->
  (0 <= barWidth envelope <= 100)%Q
  /\ ((0 < allocated envelope)%Q ->
      (allocated envelope <= spent envelope)%Q ->
      getProgressColor (progressPercent envelope) = "bg-red-500"%string
      /\ (barWidth envelope == 100)%Q)
  /\ ((0 < allocated envelope)%Q ->
      (spent envelope == 0)%Q ->
      getProgressColor (progressPercent envelope) = "bg-green-500"%string
      /\ (barWidth envelope == 0)%Q)
  /\ ((allocated envelope <= 0)%Q ->
      (progressPercent envelope == 0)%Q
      /\ getProgressColor (progressPercent envelope) = "bg-green-500"%string
      /\ (barWidth envelope == 0)%Q)
  /\ ((allocated other == allocated envelope)%Q ->
      (spent envelope <= spent other)%Q ->
      (getProgressColor (progressPercent other) = "bg-green-500"%string ->
       getProgressColor (progressPercent envelope) = "bg-green-500"%string)
      /\ (getProgressColor (progressPercent envelope) = "bg-red-500"%string ->
          getProgressColor (progressPercent other) = "bg-red-500"%string)
      /\ (barWidth envelope <= barWidth other)%Q).
Proof.
  intros Hs.
  assert (P0 : (0 <= progressPercent envelope)%Q).
  { unfold progressPercent. destruct (JS.gtb (allocated envelope) 0) eqn:G;
      [| lra].
    apply gtb_true in G.
    apply Qmult_le_0_compat; [| lra].
    apply Qle_shift_div_l; [exact G | lra]. }
  repeat apply conj.
  - unfold barWidth. apply Q.min_glb; lra.
  - unfold barWidth. apply Q.le_min_r.
  - intros Ha Hf. pose proof (percent_scaled envelope Ha) as E.
    assert (P : (100 <= progressPercent envelope)%Q) by nra.
    split.
    + unfold getProgressColor.
      rewrite (proj2 (gtb_false 50 (progressPercent envelope)) ltac:(lra)).
      rewrite (proj2 (gtb_false 80 (progressPercent envelope)) ltac:(lra)). reflexivity.
    + unfold barWidth. apply Q.min_r. exact P.
  - intros Ha Hz. pose proof (percent_scaled envelope Ha) as E.
    assert (P : (progressPercent envelope == 0)%Q) by nra.
    split.
    + unfold getProgressColor.
      rewrite (proj2 (gtb_true 50 (progressPercent envelope)) ltac:(lra)). reflexivity.
    + unfold barWidth. rewrite (Q.min_l _ 100) by lra. exact P.
  - intros H. unfold barWidth, progressPercent.
    rewrite (proj2 (gtb_false _ _) H).
    split; [reflexivity |]. split; [reflexivity |].
    rewrite Q.min_l by lra. reflexivity.
  - intros Ea Ho. pose proof (percent_monotone envelope other Ea Ho) as M.
    set (p := progressPercent envelope) in *.
    set (q := progressPercent other) in *.
    unfold getProgressColor. repeat apply conj.
    + destruct (JS.gtb 50 q) eqn:G1.
      * apply gtb_true in G1. intros _.
        rewrite (proj2 (gtb_true 50 p) ltac:(lra)). reflexivity.
      * destruct (JS.gtb 80 q); discriminate.
    + destruct (JS.gtb 50 p) eqn:G1; [discriminate |].
      destruct (JS.gtb 80 p) eqn:G2; [discriminate |].
      apply gtb_false in G1. apply gtb_false in G2. intros _.
      rewrite (proj2 (gtb_false 50 q) ltac:(lra)).
      rewrite (proj2 (gtb_false 80 q) ltac:(lra)). reflexivity.
    + unfold barWidth. fold p. fold q. apply Q.min_le_compat_r. exact M.
Qed.

Lemma income_raises_available_witness :
  let st1 := handleAddIncome (Some 250%Q) "tx2" "2024-06-15"
               "2024-06-15T12:00:00.000Z" Examples.scenarioLedger in
  (totalAvailable (budgetData st1) == -600 + 250)%Q
  /\ (totalSpent (budgetData st1) == 600)%Q.
Proof.
  intros st1.
  assert (Hp : (0 < 250)%Q) by reflexivity.
  assert (F : budget_transactions (db Examples.scenarioLedger) !! "tx2"%string
              = None) by (vm_compute; reflexivity).
  assert (X : Exact.exact (250%Q :: BudgetSpec.numbersOf
                                      (db Examples.scenarioLedger)) = true)
    by (vm_compute; reflexivity).
  destruct (income_raises_available Examples.scenarioLedger 250 "tx2"
              "2024-06-15" "2024-06-15T12:00:00.000Z" eq_refl Hp F)
    as (A & S & _).
  split.
  - rewrite (A X). vm_compute. reflexivity.
  - rewrite S. vm_compute. reflexivity.
Defined.

Lemma expense_moves_totals_witness :
  let st1 := handleAddExpense (Some "env1"%string) (Some 200%Q) "Lente" "tx1"
               "2024-06-15" "2024-06-15T12:00:00.000Z" Examples.scenarioLedger in
  (totalSpent (budgetData st1) == 600 + 200)%Q
  /\ (totalAvailable (budgetData st1) == -600 - 200)%Q.
Proof.
  intros st1.
  assert (Hp : (0 < 200)%Q) by reflexivity.
  assert (E : envelopes (budgetData Examples.scenarioLedger) !! "env1"%string
              = Some Examples.scenarioEnvelope) by (vm_compute; reflexivity).
  assert (F : budget_transactions (db Examples.scenarioLedger) !! "tx1"%string
              = None) by (vm_compute; reflexivity).
  assert (N : "env1"%string <> EmptyString) by discriminate.
  assert (X : Exact.exact (200%Q :: BudgetSpec.numbersOf
                                      (db Examples.scenarioLedger)) = true)
    by (vm_compute; reflexivity).
  destruct (expense_moves_totals Examples.scenarioLedger "env1"
              Examples.scenarioEnvelope 200 "Lente" "tx1" "2024-06-15"
              "2024-06-15T12:00:00.000Z" eq_refl N E Hp F)
    as (_ & T).
  destruct (T X) as (S & A & _).
  split.
  - rewrite S. vm_compute. reflexivity.
  - rewrite A. vm_compute. reflexivity.
Defined.

Lemma delete_clamps_spent_witness :
  exists e2,
    envelopes (budgetData (handleDeleteTransaction true "tx1"
                             BudgetExamples.overspent)) !! "env1"%string
    = Some e2
    /\ (spent e2 == 0)%Q.
Proof.
  assert (T : transactions (budgetData BudgetExamples.overspent) !! "tx1"%string
              = Some (transactionOfDoc "tx1"
                        {| d_date := "2024-06-15"; d_description := "Lente";
                           d_category := "Equipo"; d_type := expense;
                           d_amount := 700%Q;
                           d_envelopeId := Some "env1"%string;
                           d_timestamp := None |}))
    by (vm_compute; reflexivity).
  assert (E : envelopes (budgetData BudgetExamples.overspent) !! "env1"%string
              = Some Examples.scenarioEnvelope) by (vm_compute; reflexivity).
  assert (N : "env1"%string <> EmptyString) by discriminate.
  destruct (delete_clamps_spent BudgetExamples.overspent "tx1" "env1" _
              Examples.scenarioEnvelope eq_refl T eq_refl eq_refl N E)
    as ((e2 & L2 & _ & _ & Z & _) & _).
  exists e2. split; [exact L2 |]. apply Z. vm_compute. discriminate.
Defined.

Lemma stale_envelope_witness :
  let st1 := handleAddExpense (Some "env1"%string) (Some 50%Q) "Cable" "tx9"
               "2024-06-15" "2024-06-15T12:00:00.000Z" BudgetExamples.stale in
  budgetData st1 = budgetData BudgetExamples.stale
  /\ budget_envelopes (db st1) = ∅
  /\ handleDeleteTransaction true "tx1" BudgetExamples.stale
     = BudgetExamples.stale.
Proof.
  intros st1.
  assert (N : "env1"%string <> EmptyString) by discriminate.
  assert (E : envelopes (budgetData BudgetExamples.stale) !! "env1"%string
              = Some Examples.scenarioEnvelope) by (vm_compute; reflexivity).
  assert (L : budget_envelopes (db BudgetExamples.stale) !! "env1"%string = None)
    by (vm_compute; reflexivity).
  assert (Hp : (0 < 50)%Q) by reflexivity.
  assert (T : transactions (budgetData BudgetExamples.stale) !! "tx1"%string
              = Some (transactionOfDoc "tx1"
                        {| d_date := "2024-06-15"; d_description := "Lente";
                           d_category := "Equipo"; d_type := expense;
                           d_amount := 700%Q;
                           d_envelopeId := Some "env1"%string;
                           d_timestamp := None |}))
    by (vm_compute; reflexivity).
  destruct (stale_envelope BudgetExamples.stale "env1"
              Examples.scenarioEnvelope 50 "Cable" "tx9" "2024-06-15"
              "2024-06-15T12:00:00.000Z" N E L Hp)
    as (V & B & _ & D).
  split; [exact V |]. split; [exact B |].
  exact (D "tx1"%string _ T eq_refl eq_refl).
Defined.

Lemma progress_bar_witness :
  (0 <= barWidth Examples.scenarioEnvelope <= 100)%Q
  /\ getProgressColor (progressPercent Examples.scenarioEnvelope)
     = "bg-yellow-500"%string.
Proof.
  assert (Hs : (0 <= spent Examples.scenarioEnvelope)%Q)
    by (vm_compute; discriminate).
  split.
  - exact (proj1 (progress_bar Examples.scenarioEnvelope
                    Examples.scenarioEnvelope Hs)).
  - vm_compute. reflexivity.
Defined.

End BudgetMore.
